(** * distributed-cron: a shallow embedding of the scheduler control plane

    The development follows the Go packages of the repository:
    [domain] (jobs, execution records, errors), [shell] and [http]
    (the two task executors), [etcd] (the distributed locker and the
    execution repository), [worker] (the gRPC server and the execution
    supervisor [runJob]), [scheduler] (the cron wheel wrapper),
    [master] (discovery and dispatcher) and [usecase] (the leader-bound
    scheduler service).  The first part holds the code, the second the
    vocabulary of the statements and sample values, the third the
    properties.

    Go strings are byte strings and are modelled by [string]; [int] and
    [time.Duration] (in nanoseconds) are modelled by [Z], far from the
    64-bit bounds; a [time.Time] is the [Z] that counts from the zero
    time, so that [IsZero] is equality with 0; Go maps are [gmap]s.
    Collaborators that live outside the repository (etcd, gRPC, the
    operating system, the HTTP peer, the cron expression parser, the
    clock, the random source) appear as explicit inputs of the
    functions that consult them.  Every effect a function performs is
    recorded in the event trace it returns; logging, metrics registries
    and tracing spans have no bearing on the results and are left out,
    except for the execution counter, which is an event. *)

From Stdlib Require Import ZArith String Ascii List Bool.
From stdpp Require Import gmap strings list fin_maps pretty.

Local Open Scope string_scope.
Local Open Scope Z_scope.
Local Open Scope list_scope.

(** ** Go runtime values shared by all packages *)

Module golang.

(** The line feed byte, written [\n] in Go string literals. *)
Definition LF : string := String (ascii_of_nat 10) EmptyString.

(** [strings.Contains s sub]. *)
Fixpoint Contains (s sub : string) : bool :=
  String.prefix sub s ||
  match s with
  | EmptyString => false
  | String _ rest => Contains rest sub
  end.

(** A value of the interface type [error].  [New] is what [errors.New]
    and [fmt.Errorf] without [%w] build; [Wrap p e] is [fmt.Errorf] with
    the format [p] followed by [%w], applied to [e]; [NetErr] is a value
    whose dynamic type implements [net.Error], with the answer of its
    [Timeout] method. *)
Inductive error : Type :=
| New (msg : string)
| Wrap (prefix : string) (inner : error)
| NetErr (msg : string) (timeout : bool).

(** The [Error()] method. *)
Fixpoint Error (e : error) : string :=
  match e with
  | New m => m
  | Wrap p inner => p +:+ Error inner
  | NetErr m _ => m
  end.

(** [target] is on the [errors.Unwrap] chain of [e]: [e] wraps it. *)
Fixpoint Wraps (e target : error) : Prop :=
  e = target \/
  match e with
  | Wrap _ inner => Wraps inner target
  | _ => False
  end.

(** [var netErr net.Error; errors.As(err, &netErr) && netErr.Timeout()]. *)
Fixpoint AsNetTimeout (e : error) : bool :=
  match e with
  | New _ => false
  | Wrap _ inner => AsNetTimeout inner
  | NetErr _ t => t
  end.

(** [fmt.Errorf] with the format [p] followed by [%w], applied to a
    possibly nil [e]. *)
Definition Errorf_w (p : string) (e : option error) : error :=
  match e with
  | Some e' => Wrap p e'
  | None => New (p +:+ "%!w(<nil>)")
  end.

(** [context.DeadlineExceeded]: its dynamic type has [Timeout() = true]. *)
Definition DeadlineExceeded : error := NetErr "context deadline exceeded" true.

#[global] Instance error_eq_dec : EqDecision error.
Proof. solve_decision. Defined.

(** [time.Duration] constants, in nanoseconds. *)
Definition Millisecond : Z := 1000000.
Definition Second : Z := 1000 * Millisecond.

End golang.

Import golang.

(** ** Package [domain] *)

Module domain.

Definition ExecutorType := string.
Definition ExecutorTypeHTTP : ExecutorType := "http".
Definition ExecutorTypeShell : ExecutorType := "shell".

Definition ConcurrencyPolicy := string.
Definition ConcurrencyPolicyAllow : ConcurrencyPolicy := "Allow".
Definition ConcurrencyPolicyForbid : ConcurrencyPolicy := "Forbid".

Module JobExecutor.
Record t : Type := mk { URL : string; Method : string; Command : string }.
Definition with_Method (m : string) (e : t) : t :=
  {| URL := URL e; Method := m; Command := Command e |}.
End JobExecutor.

Module RetryPolicy.
Record t : Type := mk { MaxRetries : Z; Backoff : Z }.
End RetryPolicy.

Module Job.
Record t : Type := mk {
  ID : string;
  Name : string;
  CronExpr : string;
  ExecutorType : ExecutorType;
  Executor : JobExecutor.t;
  ConcurrencyPolicy : ConcurrencyPolicy;
  RetryPolicy : option RetryPolicy.t;
  CreatedAt : Z;
  UpdatedAt : Z
}.

Definition with_Executor (e : JobExecutor.t) (j : t) : t :=
  {| ID := ID j; Name := Name j; CronExpr := CronExpr j;
     ExecutorType := ExecutorType j; Executor := e;
     ConcurrencyPolicy := ConcurrencyPolicy j; RetryPolicy := RetryPolicy j;
     CreatedAt := CreatedAt j; UpdatedAt := UpdatedAt j |}.

Definition with_ConcurrencyPolicy (p : string) (j : t) : t :=
  {| ID := ID j; Name := Name j; CronExpr := CronExpr j;
     ExecutorType := ExecutorType j; Executor := Executor j;
     ConcurrencyPolicy := p; RetryPolicy := RetryPolicy j;
     CreatedAt := CreatedAt j; UpdatedAt := UpdatedAt j |}.

(** The tail of [Validate], after the [switch]: default the policy. *)
Definition Validate_policy (j : t) : t * option error :=
  if String.eqb (ConcurrencyPolicy j) ""
  then (with_ConcurrencyPolicy ConcurrencyPolicyAllow j, None)
  else (j, None).

(** [func (j *Job) Validate() error].  The receiver is a pointer and
    the method writes defaults through it, so the embedding returns
    the job as it stands after the call together with the error. *)
Definition Validate (j : t) : t * option error :=
  if String.eqb (Name j) "" then
    (j, Some (New "job name cannot be empty"))
  else if String.eqb (CronExpr j) "" then
    (j, Some (New "cron expression cannot be empty"))
  else if String.eqb (ExecutorType j) ExecutorTypeHTTP then
    if String.eqb (JobExecutor.URL (Executor j)) "" then
      (j, Some (New "executor URL cannot be empty for http job"))
    else if String.eqb (JobExecutor.Method (Executor j)) "" then
      Validate_policy (with_Executor (JobExecutor.with_Method "GET" (Executor j)) j)
    else Validate_policy j
  else if String.eqb (ExecutorType j) ExecutorTypeShell then
    if String.eqb (JobExecutor.Command (Executor j)) "" then
      (j, Some (New "executor command cannot be empty for shell job"))
    else Validate_policy j
  else
    (j, Some (New ("invalid executor type: " +:+ ExecutorType j))).
End Job.

Definition ExecutionStatus := string.
Definition ExecutionStatusRunning : ExecutionStatus := "running".
Definition ExecutionStatusSuccess : ExecutionStatus := "success".
Definition ExecutionStatusFailed : ExecutionStatus := "failed".

Module ExecutionRecord.
Record t : Type := mk {
  ID : string;
  JobName : string;
  StartTime : Z;
  EndTime : Z;
  Status : ExecutionStatus;
  Output : string;
  Error : string;
  RetriesAttempted : Z;
  WorkerID : string
}.

Definition with_EndTime (x : Z) (r : t) : t :=
  let '(mk id name ts _ status out err n w) := r in mk id name ts x status out err n w.
Definition with_Status (x : ExecutionStatus) (r : t) : t :=
  let '(mk id name ts te _ out err n w) := r in mk id name ts te x out err n w.
Definition with_Output (x : string) (r : t) : t :=
  let '(mk id name ts te status _ err n w) := r in mk id name ts te status x err n w.
Definition with_Error (x : string) (r : t) : t :=
  let '(mk id name ts te status out _ n w) := r in mk id name ts te status out x n w.
End ExecutionRecord.

(** [var ErrLockNotAcquired = errors.New("lock not acquired")]. *)
Definition ErrLockNotAcquired : error := New "lock not acquired".

(** The interface [Lock]: an acquired lock, with what its [Unlock]
    method will answer. *)
Module Lock.
Record t : Type := mk { Key : string; Unlock : option error }.
End Lock.

(** The interface [Locker]: [Lock(ctx, name)], where of [ctx] only the
    time left until its deadline matters. *)
Definition Locker := Z -> string -> Lock.t + error.

(** The interface [TaskExecutor]: [Execute] returns an output and an
    error, or panics with a value (printed with [%v]). *)
Inductive ExecResult : Type :=
| Returns (output : string) (err : option error)
| Panics (v : string).

Definition TaskExecutor := Job.t -> ExecResult.

End domain.

(** ** Package [shell]: the shell task executor *)

Module shell.
Import domain.

(** What [cmd.Run()] leaves behind: the two captured buffers and the
    error it returned ([*exec.ExitError] for a non-zero exit status, a
    start or deadline error otherwise, [nil] for exit status 0). *)
Record CmdResult : Type := mkCmdResult {
  Stdout : string;
  Stderr : string;
  RunErr : option error
}.

(** [*exec.ExitError] for exit status [code]. *)
Definition ExitError (code : Z) : error := New ("exit status " +:+ pretty code).

(** [func (e *shellTaskExecutor) Execute(ctx, job) (string, error)].
    [bash] stands for [exec.CommandContext(execCtx, "bash", "-c", cmd)]
    run under the 30 second deadline. *)
Definition Execute (bash : string -> CmdResult) (job : Job.t) : string * option error :=
  let res := bash (JobExecutor.Command (Job.Executor job)) in
  let output := Stdout res in
  let errOutput := Stderr res in
  let output :=
    if negb (String.eqb errOutput "") then
      if negb (String.eqb output "") then
        "[STDERR]:" +:+ LF +:+ errOutput +:+ LF +:+ "[STDOUT]:" +:+ LF +:+ output
      else
        "[STDERR]:" +:+ LF +:+ errOutput
    else output in
  match RunErr res with
  | Some err => (output, Some (Wrap "shell command failed: " err))
  | None => (output, None)
  end.

End shell.

(** ** Package [http]: the HTTP task executor *)

Module http.
Import domain.

(** The part of [*http.Response] the executor reads. [Status] is the
    status line text sent by the peer, for instance [404 Not Found]. *)
Record Response : Type := mkResponse {
  StatusCode : Z;
  Status : string;
  Body : string
}.

(** What one call of [doExecute] meets: [http.NewRequestWithContext]
    fails, [client.Do] fails, or a response arrives. *)
Inductive RoundTrip : Type :=
| RequestError (e : error)
| DoError (e : error)
| Resp (r : Response).

Inductive Event : Type :=
| EvRequest (method url : string)
| EvSleep (d : Z).

(** The network as the executor sees it: the outcome of the [k]-th
    request of this execution for a given method and URL. *)
Definition Network := string -> string -> nat -> RoundTrip.

(** [io.ReadAll(io.LimitReader(resp.Body, 1024))]. *)
Definition readLimited (body : string) : string := String.substring 0 1024 body.

(** [func (e *httpTaskExecutor) doExecute(ctx, job) (string, error)]:
    [calls] counts the requests made so far. *)
Definition doExecute (net : Network) (calls : nat) (job : Job.t) : string * option error :=
  match net (JobExecutor.Method (Job.Executor job)) (JobExecutor.URL (Job.Executor job)) calls with
  | RequestError e => ("", Some (Wrap "failed to create http request: " e))
  | DoError e => ("", Some (Wrap "http request failed: " e))
  | Resp resp =>
      let bodyBytes := readLimited (Body resp) in
      if 500 <=? StatusCode resp then
        (bodyBytes, Some (New ("http request returned 5xx server error: " +:+ Status resp)))
      else if 400 <=? StatusCode resp then
        (bodyBytes, Some (New ("http request returned 4xx client error: " +:+ Status resp)))
      else (bodyBytes, None)
  end.

(** The test in the retry loop that lets the loop go on:
    [errors.As(err, &netErr) && netErr.Timeout()], else
    [strings.Contains(err.Error(), "5xx")]. *)
Definition retriable (err : error) : bool :=
  if AsNetTimeout err then true
  else if Contains (Error err) "5xx" then true
  else false.

Definition requestOf (job : Job.t) : Event :=
  EvRequest (JobExecutor.Method (Job.Executor job)) (JobExecutor.URL (Job.Executor job)).

(** The [for i := 0; i <= MaxRetries; i++] loop of [Execute].  [output]
    is the variable declared before the loop; the loop body declares its
    own [output] with [:=], so the outer one is never assigned.  The
    loop runs on [fuel]; [None] means the fuel ran out. *)
Fixpoint retryLoop (net : Network) (job : Job.t) (maxRetries backoff : Z)
    (fuel : nat) (i : Z) (calls : nat) (lastErr : option error) (output : string)
    (tr : list Event) : option ((string * option error) * list Event) :=
  match fuel with
  | O => None
  | S fuel' =>
      if i <=? maxRetries then
        let '(output', err) := doExecute net calls job in
        let tr := tr ++ [requestOf job] in
        match err with
        | None => Some ((output', None), tr)
        | Some err =>
            let lastErr := Some err in
            if retriable err then
              if i =? maxRetries then
                Some ((output, Some (Errorf_w ("job failed after " +:+ pretty maxRetries +:+ " retries: ") lastErr)), tr)
              else
                retryLoop net job maxRetries backoff fuel' (i + 1) (S calls) lastErr output
                          (tr ++ [EvSleep backoff])
            else
              Some ((output', Some (Wrap ("non-retriable error on attempt " +:+ pretty (i + 1) +:+ ": ") err)), tr)
        end
      else
        Some ((output, Some (Errorf_w ("job failed after " +:+ pretty maxRetries +:+ " retries: ") lastErr)), tr)
  end.

(** [func (e *httpTaskExecutor) Execute(ctx, job) (string, error)]. *)
Definition Execute (net : Network) (job : Job.t) : option ((string * option error) * list Event) :=
  match Job.RetryPolicy job with
  | None => Some (doExecute net 0 job, [requestOf job])
  | Some rp =>
      if RetryPolicy.MaxRetries rp =? 0 then Some (doExecute net 0 job, [requestOf job])
      else retryLoop net job (RetryPolicy.MaxRetries rp) (RetryPolicy.Backoff rp)
                     (S (Z.to_nat (RetryPolicy.MaxRetries rp + 1))) 0 0 None "" []
  end.

End http.

(** ** Package [etcd]: the locker and the execution repository *)

Module etcd.
Import domain.

Definition LockPrefix : string := "/cron/locks/".
Definition LockSessionTTL : Z := 10.
Definition ExecutionHistoryDir : string := "/cron/history/".

(** The etcd client as the locker meets it: whether a session can be
    created, what [mutex.TryLock] answers for a key within a time
    limit, and what [mutex.Unlock] will answer. *)
Record Client : Type := mkClient {
  NewSession : option error;
  TryLock : string -> Z -> option error;
  MutexUnlock : string -> option error
}.

(** [func (l *etcdLock) Unlock(ctx) error]. *)
Definition Unlock (name : string) (res : option error) : option error :=
  match res with
  | Some err => Some (Wrap ("failed to unlock " +:+ name +:+ ": ") err)
  | None => None
  end.

(** [func (l *etcdLocker) Lock(ctx, name) (domain.Lock, error)]; the
    [TryLock] context is [ctx] cut down to 100ms. *)
Definition Lock (client : Client) : Locker := fun ctxTimeout name =>
  match NewSession client with
  | Some err => inr (Wrap ("failed to create etcd session for lock " +:+ name +:+ ": ") err)
  | None =>
      match TryLock client (LockPrefix +:+ name) (Z.min ctxTimeout (100 * Millisecond)) with
      | Some err =>
          if decide (err = DeadlineExceeded) then inr ErrLockNotAcquired
          else inr (Wrap ("failed to try acquiring etcd lock " +:+ name +:+ ": ") err)
      | None =>
          inl {| Lock.Key := LockPrefix +:+ name;
                 Lock.Unlock := Unlock name (MutexUnlock client (LockPrefix +:+ name)) |}
      end
  end.

(** The history part of the key-value store, each value standing for
    its JSON text, and the answers the store will give to the coming
    [Put] calls ([None] for success; an empty script means success). *)
Record Store : Type := mkStore {
  kv : gmap string ExecutionRecord.t;
  puts : list (option error)
}.

(** [path.Join(ExecutionHistoryDir, record.JobName, record.ID)], for
    names without path separators. *)
Definition historyKey (r : ExecutionRecord.t) : string :=
  ExecutionHistoryDir +:+ ExecutionRecord.JobName r +:+ "/" +:+ ExecutionRecord.ID r.

(** [func (r *etcdExecutionRepository) Save(ctx, record) error]. *)
Definition Save (st : Store) (r : ExecutionRecord.t) : Store * option error :=
  match puts st with
  | Some err :: rest =>
      ({| kv := kv st; puts := rest |},
       Some (Wrap ("failed to save execution record " +:+ ExecutionRecord.ID r +:+ " to etcd: ") err))
  | None :: rest => ({| kv := <[historyKey r := r]> (kv st); puts := rest |}, None)
  | [] => ({| kv := <[historyKey r := r]> (kv st); puts := [] |}, None)
  end.

End etcd.

(** ** Package [proto]: the messages of the [Worker] service *)

Module pb.

(** Modelled from the spec: the generated package [proto] is not among
    the sources; the messages are those of the wire protocol section of
    the specification, with the fields that [protoToDomain] and
    [domainToProto] read and write.  Optional sub-messages are
    pointers in Go and [option]s here. *)
Record ExecutorHttp : Type := mkExecutorHttp { Url : string; Method : string }.
Record ExecutorShell : Type := mkExecutorShell { Command : string }.
Record RetryPolicy : Type := mkRetryPolicy { MaxRetries : Z; Backoff : string }.
Module TaskRequest.
Record t : Type := mk {
  Id : string;
  Name : string;
  CronExpr : string;
  ExecutorType : string;
  HttpExecutor : option ExecutorHttp;
  ShellExecutor : option ExecutorShell;
  ConcurrencyPolicy : string;
  RetryPolicy : option RetryPolicy;
  CreatedAt : Z
}.
End TaskRequest.
Module TaskResponse.
Record t : Type := mk {
  ExecutionId : string;
  ErrorMessage : string
}.
End TaskResponse.
End pb.

(** ** Package [worker]: the gRPC server and the execution supervisor *)

Module worker.
Import domain.

Record Server : Type := mkServer {
  executors : gmap string TaskExecutor;
  locker : Locker;
  execRepo : etcd.Store;
  workerID : string
}.

Section Accept.
(** [time.ParseDuration]. *)
Variable ParseDuration : string -> Z + error.

(** [func (s *Server) protoToDomain(req)], returning a job or an error. *)
Definition protoToDomain (req : pb.TaskRequest.t) : Job.t + error :=
  let job (e : JobExecutor.t) (rp : option RetryPolicy.t) : Job.t :=
    {| Job.ID := pb.TaskRequest.Id req;
       Job.Name := pb.TaskRequest.Name req;
       Job.CronExpr := pb.TaskRequest.CronExpr req;
       Job.ExecutorType := pb.TaskRequest.ExecutorType req;
       Job.Executor := e;
       Job.ConcurrencyPolicy := pb.TaskRequest.ConcurrencyPolicy req;
       Job.RetryPolicy := rp;
       Job.CreatedAt := pb.TaskRequest.CreatedAt req;
       Job.UpdatedAt := 0 |} in
  let withRetry (e : JobExecutor.t) : Job.t + error :=
    match pb.TaskRequest.RetryPolicy req with
    | None => inl (job e None)
    | Some rp =>
        match ParseDuration (pb.Backoff rp) with
        | inr err => inr (Wrap "invalid backoff duration: " err)
        | inl backoff =>
            inl (job e (Some {| RetryPolicy.MaxRetries := pb.MaxRetries rp;
                                RetryPolicy.Backoff := backoff |}))
        end
    end in
  if String.eqb (pb.TaskRequest.ExecutorType req) ExecutorTypeHTTP then
    match pb.TaskRequest.HttpExecutor req with
    | None => inr (New "http_executor is nil for http job type")
    | Some h =>
        withRetry {| JobExecutor.URL := pb.Url h; JobExecutor.Method := pb.Method h;
                     JobExecutor.Command := "" |}
    end
  else if String.eqb (pb.TaskRequest.ExecutorType req) ExecutorTypeShell then
    match pb.TaskRequest.ShellExecutor req with
    | None => inr (New "shell_executor is nil for shell job type")
    | Some sh =>
        withRetry {| JobExecutor.URL := ""; JobExecutor.Method := "";
                     JobExecutor.Command := pb.Command sh |}
    end
  else inr (New ("unknown executor type: " +:+ pb.TaskRequest.ExecutorType req)).

(** A goroutine started with [go s.runJob(parent, executionID, job)]
    and not yet run. *)
Record Spawned : Type := mkSpawned { spawnedID : string; spawnedJob : Job.t }.

(** [func (s *Server) ExecuteTask(ctx, req)];
    [uuid] is what [uuid.NewString()] returns.  The Go error result is
    always [nil] and is left out. *)
Definition ExecuteTask (s : Server) (uuid : string) (req : pb.TaskRequest.t)
    : pb.TaskResponse.t * option Spawned :=
  match protoToDomain req with
  | inr err =>
      ({| pb.TaskResponse.ExecutionId := ""; pb.TaskResponse.ErrorMessage := Error err |}, None)
  | inl job =>
      let executionID := uuid in
      ({| pb.TaskResponse.ExecutionId := executionID; pb.TaskResponse.ErrorMessage := "" |},
       Some {| spawnedID := executionID; spawnedJob := job |})
  end.
End Accept.

Inductive Event : Type :=
| EvSave (r : ExecutionRecord.t) (res : option error)
| EvLock (name : string) (timeout : Z)
| EvUnlock (key : string) (timeout : Z) (res : option error)
| EvExecute (kind : string) (job : Job.t)
| EvSetEndTime (now : Z)
| EvRecover (v : string)
| EvMetric (job_name status : string).

(** The variables of one [runJob] activation that its closures share,
    the store, the panic in flight if any, and the effects so far. *)
Record Frame : Type := mkFrame {
  record : ExecutionRecord.t;
  execErr : option error;
  panicking : option string;
  store : etcd.Store;
  trace : list Event
}.

Definition emit (e : Event) (f : Frame) : Frame :=
  let '(mkFrame r err p st tr) := f in mkFrame r err p st (tr ++ [e]).
Definition update_record (g : ExecutionRecord.t -> ExecutionRecord.t) (f : Frame) : Frame :=
  let '(mkFrame r err p st tr) := f in mkFrame (g r) err p st tr.
Definition set_execErr (e : option error) (f : Frame) : Frame :=
  let '(mkFrame r _ p st tr) := f in mkFrame r e p st tr.
Definition set_panicking (p : option string) (f : Frame) : Frame :=
  let '(mkFrame r err _ st tr) := f in mkFrame r err p st tr.
Definition set_store (st : etcd.Store) (f : Frame) : Frame :=
  let '(mkFrame r err p _ tr) := f in mkFrame r err p st tr.

(** The [defer] statements of [runJob], in the order of the source. *)
Inductive Deferred : Type :=
| DeferFinalSave
| DeferSetStatus
| DeferCancel
| DeferUnlock (lock : Lock.t).

(** Running one deferred call; [now] is what [time.Now()] reads then. *)
Definition runDeferred (job : Job.t) (now : Z) (d : Deferred) (f : Frame) : Frame :=
  match d with
  | DeferFinalSave =>
      let f := emit (EvSetEndTime now) (update_record (ExecutionRecord.with_EndTime now) f) in
      let f :=
        match panicking f with
        | Some r =>
            emit (EvRecover r)
              (set_panicking None
                (update_record (ExecutionRecord.with_Error ("panic: " +:+ r))
                  (update_record (ExecutionRecord.with_Status ExecutionStatusFailed) f)))
        | None => f
        end in
      let '(st, res) := etcd.Save (store f) (record f) in
      emit (EvSave (record f) res) (set_store st f)
  | DeferSetStatus =>
      match execErr f with
      | Some err =>
          emit (EvMetric (Job.Name job) "failed")
            (update_record (ExecutionRecord.with_Error (Error err))
              (update_record (ExecutionRecord.with_Status ExecutionStatusFailed) f))
      | None =>
          emit (EvMetric (Job.Name job) "success")
            (update_record (ExecutionRecord.with_Status ExecutionStatusSuccess) f)
      end
  | DeferCancel => f
  | DeferUnlock lock => emit (EvUnlock (Lock.Key lock) (5 * Second) (Lock.Unlock lock)) f
  end.

(** The deferred calls run last registered first; the stack is kept
    with its top at the head. *)
Definition runDefers (job : Job.t) (now : Z) (defers : list Deferred) (f : Frame) : Frame :=
  fold_left (fun f d => runDeferred job now d f) defers f.

(** Lines 133-154: the gate for [concurrency = Forbid].  The boolean
    tells whether the function has returned. *)
Definition lockGate (s : Server) (job : Job.t) (f : Frame) (defers : list Deferred)
    : Frame * list Deferred * bool :=
  if String.eqb (Job.ConcurrencyPolicy job) ConcurrencyPolicyForbid then
    let f := emit (EvLock (Job.Name job) (2 * Second)) f in
    match locker s (2 * Second) (Job.Name job) with
    | inr err =>
        (set_execErr (Some (Wrap "skipped execution: " err)) f, DeferCancel :: defers, true)
    | inl lock => (f, DeferUnlock lock :: DeferCancel :: defers, false)
    end
  else (f, defers, false).

(** Lines 156-166: look the executor up and call it. *)
Definition invoke (s : Server) (job : Job.t) (f : Frame) : Frame :=
  match executors s !! Job.ExecutorType job with
  | None =>
      set_execErr (Some (New ("no executor found for type: " +:+ Job.ExecutorType job))) f
  | Some executor =>
      let f := emit (EvExecute (Job.ExecutorType job) job) f in
      match executor job with
      | Returns output err =>
          update_record (ExecutionRecord.with_Output output) (set_execErr err f)
      | Panics v => set_panicking (Some v) f
      end
  end.

(** The record [runJob] creates first. *)
Definition initialRecord (s : Server) (tStart : Z) (executionID : string) (job : Job.t)
    : ExecutionRecord.t :=
  {| ExecutionRecord.ID := executionID;
     ExecutionRecord.JobName := Job.Name job;
     ExecutionRecord.StartTime := tStart;
     ExecutionRecord.EndTime := 0;
     ExecutionRecord.Status := ExecutionStatusRunning;
     ExecutionRecord.Output := "";
     ExecutionRecord.Error := "";
     ExecutionRecord.RetriesAttempted := 0;
     ExecutionRecord.WorkerID := workerID s |}.

(** The statements of [runJob] up to its return or panic: the frame
    reached and the deferred calls registered, the last one first.
    [tStart] is what [time.Now()] reads for [StartTime]. *)
Definition runJobBody (s : Server) (tStart : Z) (executionID : string) (job : Job.t)
    : Frame * list Deferred :=
  let record := initialRecord s tStart executionID job in
  let '(st, res) := etcd.Save (execRepo s) record in
  let f := {| record := record; execErr := None; panicking := None;
              store := st; trace := [EvSave record res] |} in
  let defers := [DeferSetStatus; DeferFinalSave] in
  let '(f, defers, returned) := lockGate s job f defers in
  (if returned then f else invoke s job f, defers).

(** [func (s *Server) runJob(parentSpanContext, executionID, job)]:
    the body, then the deferred calls; [tEnd] is what [time.Now()]
    reads in the last of them. *)
Definition runJob (s : Server) (tStart tEnd : Z) (executionID : string) (job : Job.t) : Frame :=
  let '(f, defers) := runJobBody s tStart executionID job in
  runDefers job tEnd defers f.

End worker.

(** ** The cron wheel of [github.com/robfig/cron/v3]

    Only what the scheduler uses of it: entries with increasing ids,
    [AddJob] (parse, then schedule), [Remove], [Start] and [Stop]. *)

Module cron.
Import domain.

Section Wheel.
Variable Schedule : Type.
(** The parser of [cron.New(cron.WithSeconds())]. *)
Variable parse : string -> Schedule + error.

Record Entry : Type := mkEntry {
  ID : Z;
  EntrySchedule : Schedule;
  EntryJob : Job.t
}.

Record Cron : Type := mkCron {
  entries : list Entry;
  nextID : Z;
  running : bool
}.

Definition New : Cron := {| entries := []; nextID := 0; running := false |}.

Definition AddJob (spec : string) (cmd : Job.t) (c : Cron) : Cron * (Z + error) :=
  match parse spec with
  | inr err => (c, inr err)
  | inl schedule =>
      let id := nextID c + 1 in
      ({| entries := entries c ++ [{| ID := id; EntrySchedule := schedule; EntryJob := cmd |}];
          nextID := id; running := running c |}, inl id)
  end.

Definition Remove (id : Z) (c : Cron) : Cron :=
  {| entries := List.filter (fun e => negb (ID e =? id)) (entries c);
     nextID := nextID c; running := running c |}.

Definition Start (c : Cron) : Cron :=
  {| entries := entries c; nextID := nextID c; running := true |}.

Definition Stop (c : Cron) : Cron :=
  {| entries := entries c; nextID := nextID c; running := false |}.

(** The jobs whose [Run] the wheel calls at an instant, [due] telling
    which schedules match the instant: none unless the wheel runs. *)
Definition fired (due : Schedule -> bool) (c : Cron) : list Job.t :=
  if running c
  then List.map EntryJob (List.filter (fun e => due (EntrySchedule e)) (entries c))
  else [].
End Wheel.

Arguments ID {Schedule} _.
Arguments EntrySchedule {Schedule} _.
Arguments EntryJob {Schedule} _.
Arguments entries {Schedule} _.
Arguments nextID {Schedule} _.
Arguments running {Schedule} _.
Arguments mkEntry {Schedule} _ _ _.
Arguments mkCron {Schedule} _ _ _.
Arguments New {Schedule}.
Arguments AddJob {Schedule} _ _ _ _.
Arguments Remove {Schedule} _ _.
Arguments Start {Schedule} _.
Arguments Stop {Schedule} _.
Arguments fired {Schedule} _ _.

(** [strings.Fields] for the space separator. *)
Fixpoint fieldsAux (s cur : string) : list string :=
  match s with
  | EmptyString => if String.eqb cur "" then [] else [cur]
  | String c rest =>
      if Ascii.eqb c " "%char
      then (if String.eqb cur "" then fieldsAux rest "" else cur :: fieldsAux rest "")
      else fieldsAux rest (cur +:+ String c "")
  end.
Definition Fields (s : string) : list string := fieldsAux s "".

(** A parser to run the wheel on concrete expressions.  It makes the
    first checks of the seconds-included parser on an expression that
    is no [@] descriptor, the empty text and the count of six fields,
    with the library's error texts, and takes the field list as the
    schedule; the contents of the fields are not examined. *)
Definition sixFields (spec : string) : list string + error :=
  let fs := Fields spec in
  if String.eqb spec "" then inr (golang.New "empty spec string")
  else if (length fs =? 6)%nat then inl fs
  else inr (golang.New ("expected exactly 6 fields, found " +:+ pretty (length fs) +:+
                        ": [" +:+ String.concat " " fs +:+ "]")).

End cron.

(** ** Package [scheduler]: the cron scheduler *)

Module scheduler.
Import domain.

Section Scheduler.
Variable Schedule : Type.
Variable parse : string -> Schedule + error.

Record cronScheduler : Type := mkCronScheduler {
  cron : cron.Cron Schedule;
  jobs : gmap string Z
}.

Definition NewCronScheduler : cronScheduler := {| cron := cron.New; jobs := ∅ |}.

(** [func (s *cronScheduler) AddJob(job *domain.Job) error]. *)
Definition AddJob (job : Job.t) (s : cronScheduler) : cronScheduler * option error :=
  let c :=
    match jobs s !! Job.Name job with
    | Some entryID => cron.Remove entryID (cron s)
    | None => cron s
    end in
  match cron.AddJob parse (Job.CronExpr job) job c with
  | (c, inr err) => ({| cron := c; jobs := jobs s |}, Some err)
  | (c, inl entryID) => ({| cron := c; jobs := <[Job.Name job := entryID]> (jobs s) |}, None)
  end.

(** [func (s *cronScheduler) RemoveJob(name string) error]. *)
Definition RemoveJob (name : string) (s : cronScheduler) : cronScheduler * option error :=
  match jobs s !! name with
  | Some entryID => ({| cron := cron.Remove entryID (cron s); jobs := delete name (jobs s) |}, None)
  | None => (s, None)
  end.

(** [func (s *cronScheduler) Start(ctx) error] blocks on [ctx.Done()]:
    [StartEnter] is the part before the wait, [StartLeave] the part
    after it. *)
Definition StartEnter (s : cronScheduler) : cronScheduler :=
  {| cron := cron.Start (cron s); jobs := jobs s |}.
Definition StartLeave (s : cronScheduler) : cronScheduler :=
  {| cron := cron.Stop (cron s); jobs := jobs s |}.

(** [func (s *cronScheduler) Stop()]: the body is empty. *)
Definition Stop (s : cronScheduler) : cronScheduler := s.

(** The jobs handed to the dispatcher at an instant. *)
Definition dispatched (due : Schedule -> bool) (s : cronScheduler) : list Job.t :=
  cron.fired due (cron s).
End Scheduler.

Arguments cron {Schedule} _.
Arguments jobs {Schedule} _.
Arguments mkCronScheduler {Schedule} _ _.
Arguments NewCronScheduler {Schedule}.
Arguments AddJob {Schedule} _ _ _.
Arguments RemoveJob {Schedule} _ _.
Arguments StartEnter {Schedule} _.
Arguments StartLeave {Schedule} _.
Arguments Stop {Schedule} _.
Arguments dispatched {Schedule} _ _.

End scheduler.

(** ** Package [master]: worker discovery and the dispatcher *)

Module master.
Import domain.

Record WorkerDiscovery : Type := mkWorkerDiscovery {
  workers : gmap string string
}.

(** One event of the watch on the worker registry prefix. *)
Inductive WatchEvent : Type :=
| EventTypePut (key value : string)
| EventTypeDelete (key : string).

(** The body of the loop of [WatchWorkers] for one event. *)
Definition applyEvent (ev : WatchEvent) (d : WorkerDiscovery) : WorkerDiscovery :=
  match ev with
  | EventTypePut workerID workerAddr => {| workers := <[workerID := workerAddr]> (workers d) |}
  | EventTypeDelete workerID => {| workers := delete workerID (workers d) |}
  end.

(** [func (d *WorkerDiscovery) GetWorkers() []string]: the addresses in
    the order in which the map happens to be walked. *)
Definition GetWorkers (d : WorkerDiscovery) : list string :=
  (map_to_list (workers d)).*2.

(** A [pb.WorkerClient] is known by the target it was created for, so
    the cache [clients], a map from address to client, is given by the
    set of its keys. *)
Definition WorkerClient := string.

Record Dispatcher : Type := mkDispatcher {
  discovery : WorkerDiscovery;
  clients : gset string
}.

(** What lies outside the dispatcher: [rand.Intn], [grpc.NewClient]
    (an error or none), the worker behind each address answering
    [ExecuteTask], and [time.Duration.String]. *)
Record Env : Type := mkEnv {
  Intn : Z -> Z;
  NewClient : string -> option error;
  ExecuteTask : string -> pb.TaskRequest.t -> pb.TaskResponse.t + error;
  DurationString : Z -> string
}.

Inductive Event : Type :=
| EvExecuteTask (addr : string) (req : pb.TaskRequest.t).

(** [func (d *Dispatcher) getOrCreateClient(addr)]. *)
Definition getOrCreateClient (env : Env) (addr : string) (d : Dispatcher)
    : Dispatcher * (WorkerClient + error) :=
  if bool_decide (addr ∈ clients d) then (d, inl addr)
  else
    match NewClient env addr with
    | Some err => (d, inr (Wrap ("failed to connect to worker at " +:+ addr +:+ ": ") err))
    | None => ({| discovery := discovery d; clients := {[addr]} ∪ clients d |}, inl addr)
    end.

(** [func (d *Dispatcher) domainToProto(job)]. *)
Definition domainToProto (env : Env) (job : Job.t) : pb.TaskRequest.t + error :=
  let req (h : option pb.ExecutorHttp) (sh : option pb.ExecutorShell) : pb.TaskRequest.t :=
    {| pb.TaskRequest.Id := Job.ID job;
       pb.TaskRequest.Name := Job.Name job;
       pb.TaskRequest.CronExpr := Job.CronExpr job;
       pb.TaskRequest.ExecutorType := Job.ExecutorType job;
       pb.TaskRequest.HttpExecutor := h;
       pb.TaskRequest.ShellExecutor := sh;
       pb.TaskRequest.ConcurrencyPolicy := Job.ConcurrencyPolicy job;
       pb.TaskRequest.RetryPolicy :=
         match Job.RetryPolicy job with
         | Some rp => Some {| pb.MaxRetries := RetryPolicy.MaxRetries rp;
                              pb.Backoff := DurationString env (RetryPolicy.Backoff rp) |}
         | None => None
         end;
       pb.TaskRequest.CreatedAt := Job.CreatedAt job |} in
  if String.eqb (Job.ExecutorType job) ExecutorTypeHTTP then
    inl (req (Some {| pb.Url := JobExecutor.URL (Job.Executor job);
                      pb.Method := JobExecutor.Method (Job.Executor job) |}) None)
  else if String.eqb (Job.ExecutorType job) ExecutorTypeShell then
    inl (req None (Some {| pb.Command := JobExecutor.Command (Job.Executor job) |}))
  else inr (New ("unknown executor type: " +:+ Job.ExecutorType job)).

(** How a call ends: it returns an error value, or the slice index
    is out of range and the runtime panics. *)
Inductive Result : Type :=
| Return (err : option error)
| PanicIndex.

(** [func (d *Dispatcher) DispatchTask(ctx, job) error]. *)
Definition DispatchTask (env : Env) (job : Job.t) (d : Dispatcher)
    : Dispatcher * Result * list Event :=
  let workers := GetWorkers (discovery d) in
  if (length workers =? 0)%nat then
    (d, Return (Some (New ("no available workers to dispatch job " +:+ Job.Name job))), [])
  else
    let i := Intn env (Z.of_nat (length workers)) in
    match (if 0 <=? i then workers !! Z.to_nat i else None) with
    | None => (d, PanicIndex, [])
    | Some workerAddr =>
        match getOrCreateClient env workerAddr d with
        | (d, inr err) => (d, Return (Some err), [])
        | (d, inl client) =>
            match domainToProto env job with
            | inr err => (d, Return (Some err), [])
            | inl taskReq =>
                match ExecuteTask env client taskReq with
                | inr err => (d, Return (Some err), [EvExecuteTask client taskReq])
                | inl _ => (d, Return None, [EvExecuteTask client taskReq])
                end
            end
        end
    end.

End master.

(** ** Package [usecase]: the leader-bound scheduler service *)

Module usecase.
Import domain.

Section Service.
Variable Schedule : Type.
Variable parse : string -> Schedule + error.

(** How the wait after a won campaign ends. *)
Inductive Ending : Type :=
| LeadershipLost
| ContextDone.

(** One turn of the [for] loop of [Start], as the world decides it:
    the context is already done at the head of the loop; or the
    campaign fails; or it is won, the job repository answers [List],
    and the wait ends one way or the other. *)
Inductive Round : Type :=
| DoneAtLoopHead
| CampaignFails (err : error)
| CampaignWon (listed : list Job.t + error) (ending : Ending).

Inductive Event : Type :=
| EvCampaign
| EvSleep (d : Z)
| EvList
| EvGoStart
| EvStop.

(** The service with its scheduler, the root context, the goroutines
    that run [schedular.Start(ctx)] and wait for the context, and the
    calls made so far. *)
Record SchedularService : Type := mkSchedularService {
  schedular : scheduler.cronScheduler Schedule;
  ctxDone : bool;
  waiting : nat;
  log : list Event
}.

Definition emit (e : Event) (s : SchedularService) : SchedularService :=
  {| schedular := schedular s; ctxDone := ctxDone s; waiting := waiting s;
     log := log s ++ [e] |}.
Definition set_schedular (c : scheduler.cronScheduler Schedule) (s : SchedularService)
    : SchedularService :=
  {| schedular := c; ctxDone := ctxDone s; waiting := waiting s; log := log s |}.

(** [context.Canceled], the value of [ctx.Err()] after cancellation. *)
Definition Canceled : error := New "context canceled".

(** The root context is cancelled: every goroutine waiting in
    [schedular.Start] goes on and stops the wheel. *)
Definition cancel (s : SchedularService) : SchedularService :=
  {| schedular := match waiting s with
                  | O => schedular s
                  | S _ => scheduler.StartLeave (schedular s)
                  end;
     ctxDone := true; waiting := O; log := log s |}.

(** The loop of [runSchedular] over the listed jobs: it stops at the
    first [AddJob] error. *)
Fixpoint addJobs (jobs : list Job.t) (c : scheduler.cronScheduler Schedule)
    : scheduler.cronScheduler Schedule * option error :=
  match jobs with
  | [] => (c, None)
  | job :: rest =>
      match scheduler.AddJob parse job c with
      | (c, Some err) => (c, Some err)
      | (c, None) => addJobs rest c
      end
  end.

(** [func (s *SchedularService) runSchedular(ctx)]; the goroutine it
    starts enters [schedular.Start] at once. *)
Definition runSchedular (listed : list Job.t + error) (s : SchedularService)
    : SchedularService :=
  let s := emit EvList s in
  match listed with
  | inr _ => s
  | inl jobs =>
      match addJobs jobs (schedular s) with
      | (c, Some _) => set_schedular c s
      | (c, None) =>
          emit EvGoStart
            {| schedular := scheduler.StartEnter c; ctxDone := ctxDone s;
               waiting := S (waiting s); log := log s |}
      end
  end.

(** [s.schedular.Stop()] as called from [Start]. *)
Definition stop (s : SchedularService) : SchedularService :=
  emit EvStop (set_schedular (scheduler.Stop (schedular s)) s).

(** [func (s *SchedularService) Start(ctx) error] along a script of
    rounds: the state reached, and the error returned if the function
    has returned ([None] while the loop is still going). *)
Fixpoint Start (script : list Round) (s : SchedularService)
    : SchedularService * option error :=
  match script with
  | [] => (s, None)
  | DoneAtLoopHead :: _ => (stop (cancel s), Some Canceled)
  | CampaignFails _ :: rest => Start rest (emit (EvSleep (5 * Second)) (emit EvCampaign s))
  | CampaignWon listed ending :: rest =>
      let s := runSchedular listed (emit EvCampaign s) in
      match ending with
      | LeadershipLost => Start rest (stop s)
      | ContextDone => (stop (cancel s), Some Canceled)
      end
  end.

Definition NewSchedularService : SchedularService :=
  {| schedular := scheduler.NewCronScheduler; ctxDone := false; waiting := O; log := [] |}.
End Service.

Arguments schedular {Schedule} _.
Arguments ctxDone {Schedule} _.
Arguments waiting {Schedule} _.
Arguments log {Schedule} _.
Arguments cancel {Schedule} _.
Arguments stop {Schedule} _.
Arguments addJobs {Schedule} _ _ _.
Arguments runSchedular {Schedule} _ _ _.
Arguments Start {Schedule} _ _ _.
Arguments NewSchedularService {Schedule}.
Arguments emit {Schedule} _ _.

End usecase.

(** ** Package [domain], file [execution.go]: validation of a record *)

Module execution.
Import domain.

(** [func (r *ExecutionRecord) Validate() error]. *)
Definition Validate (r : ExecutionRecord.t) : option error :=
  if String.eqb (ExecutionRecord.ID r) "" then
    Some (New "execution record ID cannot be empty")
  else if String.eqb (ExecutionRecord.JobName r) "" then
    Some (New "execution record job name cannot be empty")
  else if ExecutionRecord.StartTime r =? 0 then
    Some (New "execution record start time cannot be zero")
  else if String.eqb (ExecutionRecord.Status r) "" then
    Some (New "execution record status cannot be empty")
  else None.

End execution.

(** ** Package [etcd], file [etcd_execution_repository.go]: reading the history *)

Module execution_history.
Import domain.

(** [func (r *etcdExecutionRepository) Get(ctx, jobName, executionID)];
    [getErr] is the error of [client.Get], if any.  The value found is
    the JSON text [Save] wrote, so it decodes to the record saved. *)
Definition Get (st : etcd.Store) (getErr : option error) (jobName executionID : string)
    : ExecutionRecord.t + error :=
  let key := etcd.ExecutionHistoryDir +:+ jobName +:+ "/" +:+ executionID in
  match getErr with
  | Some err =>
      inr (Wrap ("failed to get execution record " +:+ jobName +:+ "/" +:+ executionID
                 +:+ " from etcd: ") err)
  | None =>
      match etcd.kv st !! key with
      | None => inr (New ("execution record " +:+ jobName +:+ "/" +:+ executionID +:+ " not found"))
      | Some record => inl record
      end
  end.

(** Arithmetic on Go's [int], 64 bits wide, wraps around. *)
Definition int (x : Z) : Z := (x + 2 ^ 63) mod 2 ^ 64 - 2 ^ 63.

(** The loop of [ListByJobName] over [resp.Kvs], from index [i] on: a
    value that does not decode ([None]) is skipped with a warning. *)
Fixpoint pageLoop (kvs : list (option ExecutionRecord.t)) (i startIdx endIdx : Z)
    : list ExecutionRecord.t :=
  match kvs with
  | [] => []
  | kv :: rest =>
      if i <? startIdx then pageLoop rest (i + 1) startIdx endIdx
      else if endIdx <=? i then []
      else
        match kv with
        | None => pageLoop rest (i + 1) startIdx endIdx
        | Some record => record :: pageLoop rest (i + 1) startIdx endIdx
        end
  end.

(** [func (r *etcdExecutionRepository) ListByJobName(ctx, jobName, page,
    pageSize)]; [resp] is what [client.Get] answers for the prefix of
    the job, sorted by create revision, newest first. *)
Definition ListByJobName (resp : list (option ExecutionRecord.t) + error)
    (jobName : string) (page pageSize : Z) : list ExecutionRecord.t + error :=
  match resp with
  | inr err =>
      inr (Wrap ("failed to list execution records for job " +:+ jobName +:+ " from etcd: ") err)
  | inl kvs =>
      let startIdx := int ((page - 1) * pageSize) in
      let endIdx := int (startIdx + pageSize) in
      inl (pageLoop kvs 0 startIdx endIdx)
  end.

End execution_history.

(** ** Package [etcd], file [etcd_job_repository.go] *)

Module job_repository.
Import domain.

Definition JobSaveDir : string := "/cron/jobs/".

(** [var ErrJobNotFound = errors.New("job not found")], of package
    [domain]. *)
Definition ErrJobNotFound : error := New "job not found".

(** The jobs part of the key-value store, each value standing for its
    JSON text, and the answers the store will give to the coming client
    calls ([None] for success; an empty script means success). *)
Record Store : Type := mkStore {
  jobs : gmap string Job.t;
  answers : list (option error)
}.

(** The next answer of the store, and the script that is left. *)
Definition answer (st : Store) : option error * list (option error) :=
  match answers st with
  | a :: rest => (a, rest)
  | [] => (None, [])
  end.

(** [path.Join(JobSaveDir, name)], for the names [path.Join] leaves
    alone: not empty, without path separators, and not a dot or two. *)
Definition jobKey (name : string) : string := JobSaveDir +:+ name.

(** [func (r *etcdJobRepository) Save(ctx, job) error]. *)
Definition Save (job : Job.t) (st : Store) : Store * option error :=
  match answer st with
  | (Some err, rest) =>
      ({| jobs := jobs st; answers := rest |},
       Some (Wrap ("failed to save job " +:+ Job.Name job +:+ " to etcd: ") err))
  | (None, rest) =>
      ({| jobs := <[jobKey (Job.Name job) := job]> (jobs st); answers := rest |}, None)
  end.

(** [func (r *etcdJobRepository) Delete(ctx, name) error]. *)
Definition Delete (name : string) (st : Store) : Store * option error :=
  match answer st with
  | (Some err, rest) =>
      ({| jobs := jobs st; answers := rest |},
       Some (Wrap ("failed to delete job " +:+ name +:+ " from etcd: ") err))
  | (None, rest) => ({| jobs := delete (jobKey name) (jobs st); answers := rest |}, None)
  end.

(** [func (r *etcdJobRepository) Get(ctx, name)]. *)
Definition Get (name : string) (st : Store) : Store * (Job.t + error) :=
  match answer st with
  | (Some err, rest) =>
      ({| jobs := jobs st; answers := rest |},
       inr (Wrap ("failed to get job " +:+ name +:+ " from etcd: ") err))
  | (None, rest) =>
      ({| jobs := jobs st; answers := rest |},
       match jobs st !! jobKey name with
       | None => inr ErrJobNotFound
       | Some job => inl job
       end)
  end.

(** [func (r *etcdJobRepository) List(ctx)]. *)
Definition List (st : Store) : Store * (list Job.t + error) :=
  match answer st with
  | (Some err, rest) =>
      ({| jobs := jobs st; answers := rest |},
       inr (Wrap "failed to list jobs from etcd: " err))
  | (None, rest) =>
      ({| jobs := jobs st; answers := rest |}, inl (map_to_list (jobs st)).*2)
  end.

End job_repository.

(** ** Package [etcd], file [etcd_leader_election.go] *)

Module leader_election.

(** The fields of [etcdLeaderElectionManager] that its methods write:
    the flag, and whether [session] and [election] are non-nil. *)
Record Manager : Type := mkManager {
  isLeader : bool;
  hasSession : bool;
  hasElection : bool
}.

(** What etcd answers during one [Campaign] call: the error of
    [concurrency.NewSession] and of [election.Campaign], if any. *)
Record Attempt : Type := mkAttempt {
  NewSessionErr : option error;
  CampaignErr : option error
}.

(** [func (m *etcdLeaderElectionManager) Campaign(ctx)]: the manager
    afterwards and the error; on success the caller gets the channel
    [session.Done()]. *)
Definition Campaign (a : Attempt) (m : Manager) : Manager * option error :=
  match NewSessionErr a with
  | Some err =>
      ({| isLeader := isLeader m; hasSession := false; hasElection := hasElection m |}, Some err)
  | None =>
      match CampaignErr a with
      | Some err =>
          ({| isLeader := isLeader m; hasSession := true; hasElection := true |}, Some err)
      | None => ({| isLeader := true; hasSession := true; hasElection := true |}, None)
      end
  end.

(** [func (m *etcdLeaderElectionManager) Resign(ctx) error];
    [resignErr] is the error of [election.Resign]. *)
Definition Resign (resignErr : option error) (m : Manager) : Manager * option error :=
  let m' := {| isLeader := false; hasSession := hasSession m; hasElection := hasElection m |} in
  if hasElection m then (m', resignErr) else (m', None).

(** [func (m *etcdLeaderElectionManager) IsLeader() bool]. *)
Definition IsLeader (m : Manager) : bool := isLeader m.

(** [NewEtcdLeaderElectionManager]. *)
Definition NewEtcdLeaderElectionManager : Manager :=
  {| isLeader := false; hasSession := false; hasElection := false |}.

End leader_election.

(** ** Package [api/http]: the request DTO and the paging of the history *)

Module api.
Import domain.

Record ExecutorRequest : Type := mkExecutorRequest {
  URL : string;
  Method : string;
  Command : string
}.

Record RetryPolicyRequest : Type := mkRetryPolicyRequest {
  MaxRetries : Z;
  Backoff : string
}.

Module SaveJobRequest.
Record t : Type := mk {
  Name : string;
  CronExpr : string;
  ExecutorType : string;
  Executor : ExecutorRequest;
  ConcurrencyPolicy : string;
  RetryPolicy : option RetryPolicyRequest
}.
End SaveJobRequest.

Section Dto.
(** [time.ParseDuration]; where it fails its first result is 0. *)
Variable ParseDuration : string -> Z + error.

(** [func (r *SaveJobRequest) ToDomainJob() *domain.Job]. *)
Definition ToDomainJob (r : SaveJobRequest.t) : Job.t :=
  let concurrencyPolicy :=
    if String.eqb (SaveJobRequest.ConcurrencyPolicy r) "" then ConcurrencyPolicyAllow
    else SaveJobRequest.ConcurrencyPolicy r in
  let retryPolicy :=
    match SaveJobRequest.RetryPolicy r with
    | Some rp =>
        let backoff := match ParseDuration (Backoff rp) with inl d => d | inr _ => 0 end in
        Some {| RetryPolicy.MaxRetries := MaxRetries rp; RetryPolicy.Backoff := backoff |}
    | None => None
    end in
  let executorType := SaveJobRequest.ExecutorType r in
  let executor :=
    if String.eqb executorType ExecutorTypeHTTP then
      {| JobExecutor.URL := URL (SaveJobRequest.Executor r);
         JobExecutor.Method :=
           if String.eqb (Method (SaveJobRequest.Executor r)) "" then "GET"
           else Method (SaveJobRequest.Executor r);
         JobExecutor.Command := "" |}
    else if String.eqb executorType ExecutorTypeShell then
      {| JobExecutor.URL := ""; JobExecutor.Method := "";
         JobExecutor.Command := Command (SaveJobRequest.Executor r) |}
    else {| JobExecutor.URL := ""; JobExecutor.Method := ""; JobExecutor.Command := "" |} in
  {| Job.ID := "";
     Job.Name := SaveJobRequest.Name r;
     Job.CronExpr := SaveJobRequest.CronExpr r;
     Job.ExecutorType := executorType;
     Job.Executor := executor;
     Job.ConcurrencyPolicy := concurrencyPolicy;
     Job.RetryPolicy := retryPolicy;
     Job.CreatedAt := 0;
     Job.UpdatedAt := 0 |}.
End Dto.

(** The paging parameters of [handleGetJobHistory], from the first
    results of [strconv.Atoi] on the two query values. *)
Definition pagingParams (page pageSize : Z) : Z * Z :=
  let page := if page <? 1 then 1 else page in
  let pageSize := if (pageSize <=? 0) || (100 <? pageSize) then 20 else pageSize in
  (page, pageSize).

End api.

(** ** Package [usecase]: the job service *)

Module job_service.
Import domain.

Section Service.
Variable Schedule : Type.
Variable parse : string -> Schedule + error.

Record JobService : Type := mkJobService {
  repo : job_repository.Store;
  sched : scheduler.cronScheduler Schedule
}.

(** The assignments of [Save] between validation and persistence;
    [now] is [time.Now()] and [uuid] what [uuid.New().String()] gives. *)
Definition stamp (now : Z) (uuid : string) (job : Job.t) : Job.t :=
  let fresh := String.eqb (Job.ID job) "" in
  {| Job.ID := if fresh then uuid else Job.ID job;
     Job.Name := Job.Name job;
     Job.CronExpr := Job.CronExpr job;
     Job.ExecutorType := Job.ExecutorType job;
     Job.Executor := Job.Executor job;
     Job.ConcurrencyPolicy := Job.ConcurrencyPolicy job;
     Job.RetryPolicy := Job.RetryPolicy job;
     Job.CreatedAt := if fresh then now else Job.CreatedAt job;
     Job.UpdatedAt := now |}.

(** [func (s *JobService) Save(ctx, job) error]: the service and the
    job (written through the pointer) afterwards, and the error. *)
Definition Save (now : Z) (uuid : string) (job : Job.t) (s : JobService)
    : JobService * Job.t * option error :=
  match Job.Validate job with
  | (job, Some err) => (s, job, Some err)
  | (job, None) =>
      let job := stamp now uuid job in
      match job_repository.Save job (repo s) with
      | (r, Some err) => ({| repo := r; sched := sched s |}, job, Some err)
      | (r, None) =>
          match scheduler.AddJob parse job (sched s) with
          | (c, Some err) => ({| repo := r; sched := c |}, job, Some err)
          | (c, None) => ({| repo := r; sched := c |}, job, None)
          end
      end
  end.

(** [func (s *JobService) Delete(ctx, name) error]. *)
Definition Delete (name : string) (s : JobService) : JobService * option error :=
  match scheduler.RemoveJob name (sched s) with
  | (c, Some err) => ({| repo := repo s; sched := c |}, Some err)
  | (c, None) =>
      match job_repository.Delete name (repo s) with
      | (r, err) => ({| repo := r; sched := c |}, err)
      end
  end.

(** [func (s *JobService) Get(ctx, name)]. *)
Definition Get (name : string) (s : JobService) : JobService * (Job.t + error) :=
  match job_repository.Get name (repo s) with
  | (r, res) => ({| repo := r; sched := sched s |}, res)
  end.
End Service.

Arguments repo {Schedule} _.
Arguments sched {Schedule} _.
Arguments mkJobService {Schedule} _ _.
Arguments Save {Schedule} _ _ _ _ _.
Arguments Delete {Schedule} _ _.
Arguments Get {Schedule} _ _.

End job_service.

(** ** Package [master]: the watch loop of the discovery *)

Module discovery_watch.
Import domain master.

(** [func (d *WorkerDiscovery) loadInitialWorkers(ctx) error]; [resp]
    is what [client.Get] answers for the registry prefix. *)
Definition loadInitialWorkers (resp : list (string * string) + error) (d : WorkerDiscovery)
    : WorkerDiscovery * option error :=
  match resp with
  | inr err => (d, Some err)
  | inl kvs =>
      (fold_left (fun d kv => {| workers := <[kv.1 := kv.2]> (workers d) |}) kvs d, None)
  end.

(** [func (d *WorkerDiscovery) WatchWorkers(ctx)] up to the end of the
    watch channel: the initial load, whose error is only logged, and
    then the events in the order of their arrival. *)
Definition WatchWorkers (resp : list (string * string) + error) (events : list WatchEvent)
    (d : WorkerDiscovery) : WorkerDiscovery :=
  fold_left (fun d ev => applyEvent ev d) events (fst (loadInitialWorkers resp d)).

End discovery_watch.

(** * The vocabulary of the statements and sample values

    Predicates and functions on traces and states in which the
    properties are stated, and concrete jobs, servers and networks on
    which the definitions are run. *)

(** ** Sample jobs *)

Module samples.
Import domain.

Definition DQ : string := String (ascii_of_nat 34) EmptyString.

Definition shellJob (name policy : string) : Job.t :=
  {| Job.ID := "7f3c"; Job.Name := name;
     Job.CronExpr := "*/5 * * * * *"; Job.ExecutorType := ExecutorTypeShell;
     Job.Executor := {| JobExecutor.URL := ""; JobExecutor.Method := "";
                        JobExecutor.Command := "echo hi" |};
     Job.ConcurrencyPolicy := policy; Job.RetryPolicy := None;
     Job.CreatedAt := 1700000000; Job.UpdatedAt := 1700000000 |}.

Definition shellJobAt (name expr : string) : Job.t :=
  {| Job.ID := "7f3c"; Job.Name := name;
     Job.CronExpr := expr; Job.ExecutorType := ExecutorTypeShell;
     Job.Executor := {| JobExecutor.URL := ""; JobExecutor.Method := "";
                        JobExecutor.Command := "echo hi" |};
     Job.ConcurrencyPolicy := ConcurrencyPolicyAllow; Job.RetryPolicy := None;
     Job.CreatedAt := 1700000000; Job.UpdatedAt := 1700000000 |}.

Definition httpJob (url : string) (rp : option RetryPolicy.t) : Job.t :=
  {| Job.ID := "91ab"; Job.Name := "ping";
     Job.CronExpr := "0 * * * * *"; Job.ExecutorType := ExecutorTypeHTTP;
     Job.Executor := {| JobExecutor.URL := url; JobExecutor.Method := "GET";
                        JobExecutor.Command := "" |};
     Job.ConcurrencyPolicy := ConcurrencyPolicyAllow; Job.RetryPolicy := rp;
     Job.CreatedAt := 1700000000; Job.UpdatedAt := 1700000000 |}.

(** A job whose name has 129 bytes and which is otherwise in order. *)
Definition job129 : Job.t :=
  shellJob (string_of_list_ascii (repeat "a"%char 129)) "".

End samples.
Import samples.

(** ** Shell executor *)

Module shell_terms.
Import domain shell.

(** A command that prints on both streams and exits with status 3. *)
Definition noisy (_ : string) : CmdResult :=
  {| Stdout := "partial"; Stderr := "boom"; RunErr := Some (ExitError 3) |}.

End shell_terms.

(** ** HTTP executor *)

Module http_terms.
Import domain http.

Section Loop.
Variable net : Network.
Variable job : Job.t.
Variable maxRetries backoff : Z.

(** [k+1] requests with a sleep of [backoff] between consecutive ones. *)
Fixpoint spaced (k : nat) : list Event :=
  match k with
  | O => [requestOf job]
  | S k' => requestOf job :: EvSleep backoff :: spaced k'
  end.

(** The [c]-th request fails with an error that lets the loop go on. *)
Definition failsRetriably (c : nat) : Prop :=
  exists e, snd (doExecute net c job) = Some e /\ retriable e = true.

(** How the loop ends when its last request is the [c]-th one, which
    is attempt number [i+1]. *)
Definition endsAt (c : nat) (i : Z) (res : string * option error) : Prop :=
  (snd (doExecute net c job) = None /\ res = doExecute net c job) \/
  (exists e, snd (doExecute net c job) = Some e /\ retriable e = false /\
     res = (fst (doExecute net c job),
            Some (Wrap ("non-retriable error on attempt " +:+ pretty (i + 1) +:+ ": ") e))) \/
  (exists e, i = maxRetries /\ snd (doExecute net c job) = Some e /\ retriable e = true /\
     res = ("", Some (Wrap ("job failed after " +:+ pretty maxRetries +:+ " retries: ") e))).

End Loop.

(** The number of requests in a trace. *)
Definition requests (tr : list Event) : nat :=
  length (List.filter (fun ev => match ev with EvRequest _ _ => true | _ => false end) tr).

(** A worker whose URL ends in [5xx] and whose port refuses the
    connection: [client.Do] returns a [*url.Error] that quotes the
    URL and is no timeout. *)
Definition refused : error :=
  NetErr ("Get " +:+ samples.DQ +:+ "http://svc.local/5xx" +:+ samples.DQ +:+
          ": dial tcp 10.0.0.7:80: connect: connection refused") false.
Definition refusing : Network := fun _ _ _ => DoError refused.
Definition pingOnce : Job.t :=
  samples.httpJob "http://svc.local/5xx"
    (Some {| RetryPolicy.MaxRetries := 1; RetryPolicy.Backoff := 100 * Millisecond |}).

(** The same refusal from the same host under another path: the text
    of the [*url.Error] differs only in the URL it quotes. *)
Definition refusedHealth : error :=
  NetErr ("Get " +:+ samples.DQ +:+ "http://svc.local/health" +:+ samples.DQ +:+
          ": dial tcp 10.0.0.7:80: connect: connection refused") false.
Definition refusingHealth : Network := fun _ _ _ => DoError refusedHealth.
Definition pingHealthOnce : Job.t :=
  samples.httpJob "http://svc.local/health"
    (Some {| RetryPolicy.MaxRetries := 1; RetryPolicy.Backoff := 100 * Millisecond |}).

(** An endpoint that answers 500 twice and then 200. *)
Definition flaky : Network := fun _ _ c =>
  match c with
  | O | S O => Resp {| StatusCode := 500; Status := "500 Internal Server Error"; Body := "try later" |}
  | _ => Resp {| StatusCode := 200; Status := "200 OK"; Body := "pong" |}
  end.
Definition pingTwice : Job.t :=
  samples.httpJob "http://svc.local/health"
    (Some {| RetryPolicy.MaxRetries := 2; RetryPolicy.Backoff := 100 * Millisecond |}).

(** An endpoint that is down: every answer is a 503 with a body. *)
Definition down : Network := fun _ _ _ =>
  Resp {| StatusCode := 503; Status := "503 Service Unavailable"; Body := "upstream down" |}.

End http_terms.

(** ** Worker *)

Module worker_terms.
Import domain worker.

Definition isExecute (ev : Event) : bool :=
  match ev with EvExecute _ _ => true | _ => false end.
Definition isUnlock (ev : Event) : bool :=
  match ev with EvUnlock _ _ _ => true | _ => false end.

(** How often an event of a kind occurs in a trace. *)
Definition count (p : Event -> bool) (tr : list Event) : nat := length (List.filter p tr).

(** The gate is passed: the job does not forbid concurrency, or the
    lock has been acquired. *)
Definition gatePassed (s : Server) (job : Job.t) : Prop :=
  Job.ConcurrencyPolicy job <> ConcurrencyPolicyForbid \/
  exists lock, locker s (2 * Second) (Job.Name job) = inl lock.


(** A stand-in for [time.ParseDuration] that knows two texts. *)
Definition parseKnown (text : string) : Z + error :=
  if String.eqb text "100ms" then inl (100 * Millisecond)
  else if String.eqb text "1s" then inl Second
  else inr (New ("time: invalid duration " +:+ text)).

Definition idleServer : Server :=
  {| executors := ∅; locker := fun _ _ => inr ErrLockNotAcquired;
     execRepo := {| etcd.kv := ∅; etcd.puts := [] |}; workerID := "w-1" |}.

Definition shellRequest (shell : option pb.ExecutorShell) : pb.TaskRequest.t :=
  {| pb.TaskRequest.Id := "7f3c"; pb.TaskRequest.Name := "report";
     pb.TaskRequest.CronExpr := "*/5 * * * * *"; pb.TaskRequest.ExecutorType := "shell";
     pb.TaskRequest.HttpExecutor := None; pb.TaskRequest.ShellExecutor := shell;
     pb.TaskRequest.ConcurrencyPolicy := "Allow"; pb.TaskRequest.RetryPolicy := None;
     pb.TaskRequest.CreatedAt := 1700000000 |}.


(** A worker whose job lock is held elsewhere: [TryLock] runs into its
    deadline and the locker answers [ErrLockNotAcquired]. *)
Definition busyServer : Server :=
  {| executors := {[ "shell" := fun _ => Returns "hi" None ]};
     locker := etcd.Lock {| etcd.NewSession := None;
                            etcd.TryLock := fun _ _ => Some DeadlineExceeded;
                            etcd.MutexUnlock := fun _ => None |};
     execRepo := {| etcd.kv := ∅; etcd.puts := [] |};
     workerID := "w-2" |}.

(** A worker that gets the lock and whose executor panics. *)
Definition freeServer : Server :=
  {| executors := {[ "shell" := fun _ => Panics "boom" ]};
     locker := etcd.Lock {| etcd.NewSession := None;
                            etcd.TryLock := fun _ _ => None;
                            etcd.MutexUnlock := fun _ => None |};
     execRepo := {| etcd.kv := ∅; etcd.puts := [] |};
     workerID := "w-3" |}.

End worker_terms.

(** ** Scheduler *)

Module scheduler_terms.
Import domain scheduler.

Section Replace.
Variable Schedule : Type.
Variable parse : string -> Schedule + error.

Abbreviation Entry := (cron.Entry Schedule).
Abbreviation sched := (cronScheduler Schedule).

Definition named (name : string) (e : Entry) : bool :=
  String.eqb (Job.Name (cron.EntryJob e)) name.

(** The entries of the wheel that belong to a job name, and the rest. *)
Definition entriesFor (name : string) (s : sched) : list Entry :=
  List.filter (named name) (cron.entries (cron s)).
Definition entriesBut (name : string) (s : sched) : list Entry :=
  List.filter (fun e => negb (named name e)) (cron.entries (cron s)).

(** The calls that change a scheduler. *)
Inductive Op : Type :=
| OpAddJob (job : Job.t)
| OpRemoveJob (name : string)
| OpStartEnter
| OpStartLeave.

Definition step (s : sched) (op : Op) : sched :=
  match op with
  | OpAddJob job => fst (AddJob parse job s)
  | OpRemoveJob name => fst (RemoveJob name s)
  | OpStartEnter => StartEnter s
  | OpStartLeave => StartLeave s
  end.

(** The scheduler after a history of calls on a new one. *)
Definition after (ops : list Op) : sched := fold_left step ops NewCronScheduler.

(** What holds of every scheduler with such a history: the table knows
    the id of every entry under its job name and under no other name,
    and no id, in the wheel or in the table, is ahead of the counter. *)
Record consistent (s : sched) : Prop := mkConsistent {
  table_knows : forall e, In e (cron.entries (cron s)) ->
                  jobs s !! Job.Name (cron.EntryJob e) = Some (cron.ID e);
  table_only : forall e n, In e (cron.entries (cron s)) ->
                  jobs s !! n = Some (cron.ID e) -> n = Job.Name (cron.EntryJob e);
  ids_issued : forall e, In e (cron.entries (cron s)) -> cron.ID e <= cron.nextID (cron s);
  table_issued : forall n id, jobs s !! n = Some id -> id <= cron.nextID (cron s)
}.

(** The wheel once [AddJob] has removed the previous entry. *)
Definition cleared (name : string) (s : sched) : cron.Cron Schedule :=
  match jobs s !! name with
  | Some entryID => cron.Remove entryID (cron s)
  | None => cron s
  end.

End Replace.

Arguments named {Schedule} _ _.
Arguments entriesFor {Schedule} _ _.
Arguments entriesBut {Schedule} _ _.
Arguments step {Schedule} _ _ _.
Arguments after {Schedule} _ _.
Arguments consistent {Schedule} _.
Arguments table_knows {Schedule} _ _ _ _.
Arguments table_only {Schedule} _ _ _ _ _ _.
Arguments ids_issued {Schedule} _ _ _ _.
Arguments table_issued {Schedule} _ _ _ _ _.
Arguments cleared {Schedule} _ _.

(** A scheduler that holds one entry, for the job [report] every five
    seconds, and an update of that job with a text that is no cron
    expression. *)
Definition scheduled : cronScheduler (list string) :=
  after cron.sixFields [OpAddJob (samples.shellJobAt "report" "*/5 * * * * *")].
Definition badUpdate : Job.t := samples.shellJobAt "report" "every five seconds".

End scheduler_terms.

(** ** Dispatcher *)

Module master_terms.
Import domain master.

(** One registered worker, and a job of an executor kind that the
    conversion to the wire format does not know. *)
Definition oneWorker : Dispatcher :=
  {| discovery := {| workers := {[ "/cron/workers/w-1" := "10.0.0.5:50052" ]} |};
     clients := ∅ |}.
Definition calm : Env :=
  {| Intn := fun _ => 0;
     NewClient := fun _ => None;
     ExecuteTask := fun _ _ => inl {| pb.TaskResponse.ExecutionId := "e-1";
                                      pb.TaskResponse.ErrorMessage := "" |};
     DurationString := fun _ => "100ms" |}.
Definition ftpJob : Job.t :=
  {| Job.ID := "c0de"; Job.Name := "mirror"; Job.CronExpr := "0 0 * * * *";
     Job.ExecutorType := "ftp";
     Job.Executor := {| JobExecutor.URL := ""; JobExecutor.Method := "";
                        JobExecutor.Command := "" |};
     Job.ConcurrencyPolicy := ConcurrencyPolicyAllow; Job.RetryPolicy := None;
     Job.CreatedAt := 1700000000; Job.UpdatedAt := 1700000000 |}.

(** A worker that rejects the call. *)
Definition rejecting : Env :=
  {| Intn := fun _ => 0;
     NewClient := fun _ => None;
     ExecuteTask := fun _ _ => inr (New "rpc error: code = Unavailable desc = connection refused");
     DurationString := fun _ => "100ms" |}.

End master_terms.

(** ** The wire between master and worker *)

Module wire_terms.
Import domain.

(** A job as the worker rebuilds it from the task request: the
    executor fields that do not belong to its kind are empty and the
    update time is the zero time. *)
Definition asReceived (job : Job.t) : Job.t :=
  {| Job.ID := Job.ID job;
     Job.Name := Job.Name job;
     Job.CronExpr := Job.CronExpr job;
     Job.ExecutorType := Job.ExecutorType job;
     Job.Executor :=
       if String.eqb (Job.ExecutorType job) ExecutorTypeHTTP then
         {| JobExecutor.URL := JobExecutor.URL (Job.Executor job);
            JobExecutor.Method := JobExecutor.Method (Job.Executor job);
            JobExecutor.Command := "" |}
       else
         {| JobExecutor.URL := ""; JobExecutor.Method := "";
            JobExecutor.Command := JobExecutor.Command (Job.Executor job) |};
     Job.ConcurrencyPolicy := Job.ConcurrencyPolicy job;
     Job.RetryPolicy := Job.RetryPolicy job;
     Job.CreatedAt := Job.CreatedAt job;
     Job.UpdatedAt := 0 |}.

(** The values an [int32] holds. *)
Definition fitsInt32 (n : Z) : Prop := - 2 ^ 31 <= n < 2 ^ 31.

(** A request as the management API decodes it. *)
Definition pingRequest : api.SaveJobRequest.t :=
  {| api.SaveJobRequest.Name := "ping";
     api.SaveJobRequest.CronExpr := "0 * * * * *";
     api.SaveJobRequest.ExecutorType := "http";
     api.SaveJobRequest.Executor :=
       {| api.URL := "http://svc.local/health"; api.Method := ""; api.Command := "ignored" |};
     api.SaveJobRequest.ConcurrencyPolicy := "";
     api.SaveJobRequest.RetryPolicy :=
       Some {| api.MaxRetries := 2; api.Backoff := "100ms" |} |}.

(** An environment of the dispatcher whose [Duration.String] prints
    the two durations [parseKnown] reads. *)
Definition printing : master.Env :=
  {| master.Intn := fun _ => 0;
     master.NewClient := fun _ => None;
     master.ExecuteTask := fun _ _ => inr (New "unused");
     master.DurationString := fun d => if d =? Second then "1s" else "100ms" |}.

End wire_terms.

(** ** Worker: more vocabulary *)

Module worker_more_terms.
Import domain worker.

Definition isLock (ev : Event) : bool :=
  match ev with EvLock _ _ => true | _ => false end.
Definition isMetric (ev : Event) : bool :=
  match ev with EvMetric _ _ => true | _ => false end.

(** What the store will answer to the next [Put]. *)
Definition putAnswer (puts : list (option error)) : option error :=
  match puts with
  | Some err :: _ => Some err
  | _ => None
  end.

(** A store that takes the first [Put] and loses the second. *)
Definition forgetfulServer : Server :=
  {| executors := {[ "shell" := fun _ => Returns "done" None ]};
     locker := fun _ _ => inr ErrLockNotAcquired;
     execRepo := {| etcd.kv := ∅;
                    etcd.puts := [None; Some (New "etcdserver: request timed out")] |};
     workerID := "w-4" |}.

End worker_more_terms.

(** ** Scheduler: more vocabulary *)

Module scheduler_more_terms.
Import domain scheduler.

(** The job names of the entries of the wheel, in the order of the
    entries. *)
Definition jobNames {Schedule : Type} (s : cronScheduler Schedule) : list string :=
  List.map (fun e => Job.Name (cron.EntryJob e)) (cron.entries (cron s)).

End scheduler_more_terms.

(** ** Scheduler service *)

Module usecase_terms.
Import domain usecase.

(** The wheel runs only while a goroutine waits in [schedular.Start]. *)
Definition attended {Schedule : Type} (s : SchedularService Schedule) : Prop :=
  cron.running (scheduler.cron (schedular s)) = true -> (0 < waiting s)%nat.

End usecase_terms.

(** ** Discovery and dispatcher: more vocabulary *)

Module master_more_terms.
Import domain master.

(** The key an event of the watch is about, and what the event leaves
    under that key. *)
Definition keyOf (ev : WatchEvent) : string :=
  match ev with
  | EventTypePut key _ => key
  | EventTypeDelete key => key
  end.
Definition leaves (ev : WatchEvent) : option string :=
  match ev with
  | EventTypePut _ value => Some value
  | EventTypeDelete _ => None
  end.

(** A dispatcher that has talked to its one worker before, and an
    environment in which no new connection can be made. *)
Definition warmDispatcher : Dispatcher :=
  {| discovery := {| workers := {[ "/cron/workers/w-1" := "10.0.0.5:50052" ]} |};
     clients := {[ "10.0.0.5:50052" ]} |}.
Definition noDial : Env :=
  {| Intn := Intn master_terms.calm;
     NewClient := fun _ => Some (New "dial tcp: lookup failed");
     ExecuteTask := ExecuteTask master_terms.calm;
     DurationString := DurationString master_terms.calm |}.

End master_more_terms.

(** ** History, job service and leader election: vocabulary *)

Module storage_terms.
Import domain.

(** The records among the raw values of a listing that decode. *)
Definition decoded (kvs : list (option ExecutionRecord.t)) : list ExecutionRecord.t :=
  omap id kvs.

(** A campaign that is won. *)
Definition won (a : leader_election.Attempt) : bool :=
  match leader_election.NewSessionErr a, leader_election.CampaignErr a with
  | None, None => true
  | _, _ => false
  end.

(** The manager after a series of [Campaign] calls. *)
Definition campaigns (attempts : list leader_election.Attempt) (m : leader_election.Manager)
    : leader_election.Manager :=
  fold_left (fun m a => fst (leader_election.Campaign a m)) attempts m.

(** A job service on a scheduler with a history, with a repository. *)
Definition serviceOn {Schedule : Type} (parse : string -> Schedule + error)
    (ops : list scheduler_terms.Op) (st : job_repository.Store)
    : job_service.JobService Schedule :=
  {| job_service.repo := st; job_service.sched := scheduler_terms.after parse ops |}.

(** A run of three records of which the second does not decode. *)
Definition recordOf (id : string) : ExecutionRecord.t :=
  {| ExecutionRecord.ID := id; ExecutionRecord.JobName := "report";
     ExecutionRecord.StartTime := 1700000000; ExecutionRecord.EndTime := 1700000002;
     ExecutionRecord.Status := ExecutionStatusSuccess; ExecutionRecord.Output := "";
     ExecutionRecord.Error := ""; ExecutionRecord.RetriesAttempted := 0;
     ExecutionRecord.WorkerID := "w-1" |}.
Definition listing : list (option ExecutionRecord.t) :=
  [Some (recordOf "e-3"); None; Some (recordOf "e-1")].

End storage_terms.

(** * Properties *)

(** ** Facts about the Go runtime model *)

Module golang_facts.

Lemma Wraps_refl (e : error) : Wraps e e.
Proof. destruct e; simpl; auto. Qed.

Lemma Wrap_Wraps (p : string) (e : error) : Wraps (Wrap p e) e.
Proof. simpl. right. apply Wraps_refl. Qed.

End golang_facts.

(** ** Job validation *)

Module domain_facts.
Import domain golang_facts.

(** C6, as stated, fails: [Job.Validate] accepts a job whose name is
    longer than 128 bytes (and defaults its policy to [Allow]). *)
Lemma Validate_accepts_long_name :
  String.length (Job.Name job129) = 129%nat /\
  Job.Validate job129 = (Job.with_ConcurrencyPolicy ConcurrencyPolicyAllow job129, None).
Proof. split; vm_compute; reflexivity. Qed.

(** C6, amended: [Job.Validate] accepts a job exactly when its name and
    its cron expression are non-empty and it is an http job with a
    non-empty URL or a shell job with a non-empty command (so every
    other executor kind is rejected); no upper bound is put on the
    name.  On acceptance an empty http method has become [GET] and an
    empty concurrency policy [Allow], nothing else has changed; on
    rejection there is an error and the job is as it was. *)
Theorem Validate_accepts_iff (j : Job.t) :
  let j' := fst (Job.Validate j) in
  let err := snd (Job.Validate j) in
  (err = None <->
     Job.Name j <> "" /\ Job.CronExpr j <> "" /\
     ((Job.ExecutorType j = "http" /\ JobExecutor.URL (Job.Executor j) <> "") \/
      (Job.ExecutorType j = "shell" /\ JobExecutor.Command (Job.Executor j) <> ""))) /\
  (err = None ->
     JobExecutor.Method (Job.Executor j') =
       (if String.eqb (Job.ExecutorType j) "http" && String.eqb (JobExecutor.Method (Job.Executor j)) ""
        then "GET" else JobExecutor.Method (Job.Executor j)) /\
     Job.ConcurrencyPolicy j' =
       (if String.eqb (Job.ConcurrencyPolicy j) "" then "Allow" else Job.ConcurrencyPolicy j) /\
     Job.ID j' = Job.ID j /\ Job.Name j' = Job.Name j /\ Job.CronExpr j' = Job.CronExpr j /\
     Job.ExecutorType j' = Job.ExecutorType j /\
     JobExecutor.URL (Job.Executor j') = JobExecutor.URL (Job.Executor j) /\
     JobExecutor.Command (Job.Executor j') = JobExecutor.Command (Job.Executor j) /\
     Job.RetryPolicy j' = Job.RetryPolicy j /\
     Job.CreatedAt j' = Job.CreatedAt j /\ Job.UpdatedAt j' = Job.UpdatedAt j) /\
  (err <> None -> j' = j).
Proof.
  destruct j as [id name expr ty [url method command] pol rp ca ua].
  unfold Job.Validate, Job.Validate_policy, ExecutorTypeHTTP, ExecutorTypeShell; cbn.
  destruct (String.eqb_spec name "") as [->|Hname]; [cbn; intuition congruence |].
  destruct (String.eqb_spec expr "") as [->|Hexpr]; [cbn; intuition congruence |].
  destruct (String.eqb_spec ty "http") as [->|Hhttp].
  - destruct (String.eqb_spec url "") as [->|Hurl]; [cbn; intuition congruence |].
    destruct (String.eqb_spec method ""), (String.eqb_spec pol ""); subst; cbn;
      intuition congruence.
  - destruct (String.eqb_spec ty "shell") as [->|Hshell].
    + destruct (String.eqb_spec command "") as [->|Hcmd];
        [cbn; intuition (try congruence; try discriminate) |].
      destruct (String.eqb_spec pol ""); subst; cbn;
        intuition (try congruence; try discriminate).
    + cbn. intuition congruence.
Qed.

(** The amended statement applied to the job with the long name. *)
Lemma Validate_accepts_iff_witness :
  snd (Job.Validate job129) = None /\
  Job.ConcurrencyPolicy (fst (Job.Validate job129)) = "Allow".
Proof.
  pose proof (Validate_accepts_iff job129) as [Hiff [Hdef _]].
  assert (Hacc : snd (Job.Validate job129) = None).
  { apply Hiff. vm_compute. repeat split; try discriminate. right. split; [reflexivity | discriminate]. }
  split; [exact Hacc |].
  destruct (Hdef Hacc) as (_ & Hpol & _). exact Hpol.
Defined.

End domain_facts.

(** ** The shell executor *)

Module shell_facts.
Import domain shell golang_facts shell_terms.

(** C7: the output is the two-part text when both streams are
    non-empty, the stderr part alone when only stderr is non-empty and
    stdout otherwise; and when [cmd.Run] returns an error, as it does
    for a non-zero exit status, that output comes back with a non-nil
    error that wraps it. *)
Theorem Execute_output (bash : string -> CmdResult) (job : Job.t) :
  let res := bash (JobExecutor.Command (Job.Executor job)) in
  let out := fst (Execute bash job) in
  let err := snd (Execute bash job) in
  (Stderr res <> "" -> Stdout res <> "" ->
     out = "[STDERR]:" +:+ LF +:+ Stderr res +:+ LF +:+ "[STDOUT]:" +:+ LF +:+ Stdout res) /\
  (Stderr res <> "" -> Stdout res = "" -> out = "[STDERR]:" +:+ LF +:+ Stderr res) /\
  (Stderr res = "" -> out = Stdout res) /\
  (forall e, RunErr res = Some e ->
     err = Some (Wrap "shell command failed: " e) /\ err <> None /\
     Error (Wrap "shell command failed: " e) = "shell command failed: " +:+ Error e) /\
  (RunErr res = None -> err = None).
Proof.
  unfold Execute. cbn zeta.
  destruct (bash _) as [so se re]; cbn [Stdout Stderr RunErr].
  destruct (String.eqb_spec se ""), (String.eqb_spec so ""); subst; cbn [negb];
    destruct re; cbn; repeat split; intros; congruence.
Qed.

Lemma Execute_output_witness :
  Execute noisy (shellJob "report" "") =
    ("[STDERR]:" +:+ LF +:+ "boom" +:+ LF +:+ "[STDOUT]:" +:+ LF +:+ "partial",
     Some (Wrap "shell command failed: " (ExitError 3))).
Proof.
  pose proof (Execute_output noisy (shellJob "report" "")) as (Hboth & _ & _ & Herr & _).
  cbn zeta in Hboth, Herr.
  destruct (Herr (ExitError 3) eq_refl) as (He & _).
  rewrite (surjective_pairing (Execute noisy (shellJob "report" ""))).
  rewrite Hboth, He by (cbn; discriminate). reflexivity.
Defined.

End shell_facts.

(** ** The HTTP executor and its retry loop *)

Module http_facts.
Import domain http golang_facts http_terms.

Section Loop.
Variable net : Network.
Variable job : Job.t.
Variable maxRetries backoff : Z.

Lemma count_spaced (k : nat) :
  length (List.filter (fun ev => match ev with EvRequest _ _ => true | _ => false end) (spaced job backoff k))
  = S k.
Proof. induction k as [|k IH]; cbn; [reflexivity | now rewrite IH]. Qed.

(** The loop, entered with [i <= maxRetries] and fuel for the turns
    that are left, ends after [k] further retriable failures. *)
Lemma retryLoop_ends (fuel : nat) :
  forall (i : Z) (c : nat) (lastErr : option error) (tr : list Event),
    0 <= i <= maxRetries -> (Z.to_nat (maxRetries - i) < fuel)%nat ->
    exists (k : nat) (res : string * option error),
      i + Z.of_nat k <= maxRetries /\
      retryLoop net job maxRetries backoff fuel i c lastErr "" tr = Some (res, tr ++ spaced job backoff k) /\
      (forall j, (j < k)%nat -> failsRetriably net job (c + j)) /\
      endsAt net job maxRetries (c + k) (i + Z.of_nat k) res.
Proof.
  induction fuel as [|fuel IH]; intros i c lastErr tr Hi Hfuel; [lia |].
  cbn [retryLoop].
  destruct (Z.leb_spec i maxRetries) as [_|]; [| lia].
  destruct (doExecute net c job) as [out err] eqn:Hdo.
  destruct err as [e|].
  - destruct (retriable e) eqn:Hre.
    + destruct (Z.eqb_spec i maxRetries) as [Heq|Hne].
      * exists O, ("", Some (Wrap ("job failed after " +:+ pretty maxRetries +:+ " retries: ") e)).
        rewrite Nat.add_0_r, Z.add_0_r.
        split; [lia |]. split; [reflexivity |]. split; [intros j Hj; lia |].
        right. right. exists e. rewrite Hdo. auto.
      * destruct (IH (i + 1) (S c) (Some e) ((tr ++ [requestOf job]) ++ [EvSleep backoff]))
          as (k & res & Hk & Hrun & Hfail & Hend); [lia | lia |].
        exists (S k), res.
        split; [lia |]. split; [| split].
        { rewrite Hrun. f_equal. f_equal. rewrite <- !app_assoc. reflexivity. }
        { intros j Hj. destruct j as [|j].
          - rewrite Nat.add_0_r. exists e. rewrite Hdo. auto.
          - replace (c + S j)%nat with (S c + j)%nat by lia. apply Hfail. lia. }
        { replace (c + S k)%nat with (S c + k)%nat by lia.
          replace (i + Z.of_nat (S k)) with (i + 1 + Z.of_nat k) by lia. exact Hend. }
    + exists O, (out, Some (Wrap ("non-retriable error on attempt " +:+ pretty (i + 1) +:+ ": ") e)).
      rewrite Nat.add_0_r, Z.add_0_r.
      split; [lia |]. split; [reflexivity |]. split; [intros j Hj; lia |].
      right. left. exists e. rewrite Hdo. auto.
  - exists O, (out, None).
    rewrite Nat.add_0_r, Z.add_0_r.
    split; [lia |]. split; [reflexivity |]. split; [intros j Hj; lia |].
    left. rewrite Hdo. auto.
Qed.

End Loop.

(** The error of a response with a status of 500 or more lets the
    loop go on. *)
Lemma retriable_5xx (status : string) :
  retriable (New ("http request returned 5xx server error: " +:+ status)) = true.
Proof. reflexivity. Qed.

(** The error of a 4xx response is judged by the status text alone. *)
Lemma retriable_4xx (status : string) :
  retriable (New ("http request returned 4xx client error: " +:+ status)) = Contains status "5xx".
Proof.
  unfold retriable. cbn [AsNetTimeout Error].
  assert (H : Contains ("http request returned 4xx client error: " +:+ status) "5xx"
              = Contains status "5xx") by (lazy; reflexivity).
  rewrite H. destruct (Contains status "5xx"); reflexivity.
Qed.

Lemma retriable_iff (e : error) :
  retriable e = true <-> AsNetTimeout e = true \/ Contains (Error e) "5xx" = true.
Proof.
  unfold retriable.
  destruct (AsNetTimeout e), (Contains (Error e) "5xx"); intuition congruence.
Qed.

(** [Execute] with a retry policy of at least one retry always returns:
    after [k <= MaxRetries] retriable failures the loop ends at request
    [k]. *)
Lemma Execute_ends (net : Network) (job : Job.t) (rp : RetryPolicy.t) :
  Job.RetryPolicy job = Some rp -> 0 < RetryPolicy.MaxRetries rp ->
  exists (k : nat) (res : string * option error),
    Z.of_nat k <= RetryPolicy.MaxRetries rp /\
    Execute net job = Some (res, spaced job (RetryPolicy.Backoff rp) k) /\
    (forall j, (j < k)%nat -> failsRetriably net job j) /\
    endsAt net job (RetryPolicy.MaxRetries rp) k (Z.of_nat k) res.
Proof.
  intros Hrp Hpos. unfold Execute. rewrite Hrp.
  destruct (Z.eqb_spec (RetryPolicy.MaxRetries rp) 0) as [|_]; [lia |].
  destruct (retryLoop_ends net job (RetryPolicy.MaxRetries rp) (RetryPolicy.Backoff rp)
              (S (Z.to_nat (RetryPolicy.MaxRetries rp + 1))) 0 0 None [])
    as (k & res & Hk & Hrun & Hfail & Hend); [lia | lia |].
  exists k, res. cbn in Hrun, Hend. auto.
Qed.

(** [Execute] always returns, also for a negative [MaxRetries], where
    the loop body is never entered. *)
Lemma Execute_total (net : Network) (job : Job.t) :
  exists r, Execute net job = Some r.
Proof.
  unfold Execute. destruct (Job.RetryPolicy job) as [rp|] eqn:Hrp; [| eauto].
  destruct (Z.eqb_spec (RetryPolicy.MaxRetries rp) 0) as [|Hnz]; [eauto |].
  destruct (Z.lt_ge_cases 0 (RetryPolicy.MaxRetries rp)) as [Hpos|Hneg].
  - destruct (Execute_ends net job rp Hrp Hpos) as (k & res & _ & Hrun & _).
    unfold Execute in Hrun. rewrite Hrp in Hrun.
    destruct (Z.eqb_spec (RetryPolicy.MaxRetries rp) 0); [lia |]. eauto.
  - cbn [retryLoop]. destruct (Z.leb_spec 0 (RetryPolicy.MaxRetries rp)); [lia |]. eauto.
Qed.

(** C4: the code departs from the claim, and from what it sets out to
    do.  The retry loop means to go on after a timeout or a reply of
    status 500 or more, and tells the latter by looking for [5xx] in
    the text of the error.  The text of a transport error quotes the
    URL of the request.  So a connection that is refused, which is
    neither a reply of status 500 or more nor a timeout, is retried
    when the URL of the job happens to contain [5xx]: [Execute] sleeps
    and sends a second request.  The same refusal on a URL without
    [5xx] ends the loop at the first attempt, as the claim says. *)
Lemma refused_connection_is_retried :
  refusing "GET" "http://svc.local/5xx" 0%nat = DoError refused /\
  AsNetTimeout refused = false /\
  snd (doExecute refusing 0 pingOnce) = Some (Wrap "http request failed: " refused) /\
  retriable (Wrap "http request failed: " refused) = true /\
  Execute refusing pingOnce =
    Some (("", Some (Wrap "job failed after 1 retries: " (Wrap "http request failed: " refused))),
          [requestOf pingOnce; EvSleep (100 * Millisecond); requestOf pingOnce]) /\
  AsNetTimeout refusedHealth = false /\
  retriable (Wrap "http request failed: " refusedHealth) = false /\
  Execute refusingHealth pingHealthOnce =
    Some (("", Some (Wrap "non-retriable error on attempt 1: "
                       (Wrap "http request failed: " refusedHealth))),
          [requestOf pingHealthOnce]).
Proof. repeat split; vm_compute; reflexivity. Qed.

(** X29: the retry loop as it is written.  Without a retry policy, or
    with [max_retries = 0], [Execute] is one [doExecute].  With
    [max_retries > 0] it sends [k+1 <= 1+max_retries] requests,
    sleeping [backoff] between consecutive ones, the first [k] failing
    retriably, and ends at the first request that succeeds (its body
    is returned), or fails non-retriably (the error is returned
    wrapped, with the body read on that attempt), or is the last one
    allowed (the error is returned wrapped).  The loop takes an error
    for retriable iff it is a network timeout or its text contains
    [5xx]: so it does every status of 500 or more and every timeout
    of [client.Do]; a status in [400,500) it does not, provided its
    status text does not contain [5xx]. *)
Theorem Execute_retry_contract (net : Network) (job : Job.t) :
  let outcome := net (JobExecutor.Method (Job.Executor job)) (JobExecutor.URL (Job.Executor job)) in
  (Job.RetryPolicy job = None \/
   (exists rp, Job.RetryPolicy job = Some rp /\ RetryPolicy.MaxRetries rp = 0) ->
     Execute net job = Some (doExecute net 0 job, [requestOf job])) /\
  (forall rp, Job.RetryPolicy job = Some rp -> 0 < RetryPolicy.MaxRetries rp ->
     exists (k : nat) (res : string * option error) (tr : list Event),
       Execute net job = Some (res, tr) /\
       tr = spaced job (RetryPolicy.Backoff rp) k /\
       Z.of_nat (requests tr) = Z.of_nat k + 1 /\
       Z.of_nat (requests tr) <= 1 + RetryPolicy.MaxRetries rp /\
       (forall j, (j < k)%nat -> failsRetriably net job j) /\
       endsAt net job (RetryPolicy.MaxRetries rp) k (Z.of_nat k) res) /\
  (forall e, retriable e = true <-> AsNetTimeout e = true \/ Contains (Error e) "5xx" = true) /\
  (forall c resp, outcome c = Resp resp -> 500 <= StatusCode resp ->
     failsRetriably net job c) /\
  (forall c e, outcome c = DoError e -> AsNetTimeout e = true ->
     failsRetriably net job c) /\
  (forall c resp, outcome c = Resp resp -> 400 <= StatusCode resp < 500 ->
     Contains (Status resp) "5xx" = false ->
     exists e, doExecute net c job = (readLimited (Body resp), Some e) /\ retriable e = false).
Proof.
  cbn zeta. split; [| split; [| split; [| split; [| split]]]].
  - intros [Hnone | (rp & Hrp & Hzero)]; unfold Execute.
    + rewrite Hnone. reflexivity.
    + rewrite Hrp, Hzero. reflexivity.
  - intros rp Hrp Hpos.
    destruct (Execute_ends net job rp Hrp Hpos) as (k & res & Hk & Hrun & Hfail & Hend).
    exists k, res, (spaced job (RetryPolicy.Backoff rp) k).
    unfold requests. rewrite count_spaced. repeat split; auto; lia.
  - apply retriable_iff.
  - intros c resp Hc Hcode. unfold failsRetriably, doExecute. rewrite Hc.
    destruct (Z.leb_spec 500 (StatusCode resp)); [| lia].
    eexists. split; [reflexivity | apply retriable_5xx].
  - intros c e Hc Hto. unfold failsRetriably, doExecute. rewrite Hc.
    eexists. split; [reflexivity |]. unfold retriable. cbn. rewrite Hto. reflexivity.
  - intros c resp Hc Hcode Htext. unfold doExecute. rewrite Hc.
    destruct (Z.leb_spec 500 (StatusCode resp)); [lia |].
    destruct (Z.leb_spec 400 (StatusCode resp)); [| lia].
    eexists. split; [reflexivity |]. rewrite retriable_4xx. exact Htext.
Qed.

Lemma Execute_retry_contract_witness :
  exists (k : nat) (res : string * option error) (tr : list Event),
    Execute flaky pingTwice = Some (res, tr) /\
    tr = spaced pingTwice (100 * Millisecond) k /\
    Z.of_nat (requests tr) = Z.of_nat k + 1 /\
    Z.of_nat (requests tr) <= 1 + 2 /\
    (forall j, (j < k)%nat -> failsRetriably flaky pingTwice j) /\
    endsAt flaky pingTwice 2 k (Z.of_nat k) res.
Proof.
  destruct (Execute_retry_contract flaky pingTwice) as (_ & Hloop & _).
  apply (Hloop {| RetryPolicy.MaxRetries := 2; RetryPolicy.Backoff := 100 * Millisecond |}).
  - reflexivity.
  - cbn. lia.
Defined.

(** C10: when [max_retries > 0] and every attempt fails retriably,
    [Execute] returns the empty string as output, whatever body the
    last attempt read, together with the error that wraps the last
    attempt's error, after [1+max_retries] requests. *)
Theorem Execute_exhausted_output_empty (net : Network) (job : Job.t) (rp : RetryPolicy.t) :
  Job.RetryPolicy job = Some rp -> 0 < RetryPolicy.MaxRetries rp ->
  (forall c, Z.of_nat c <= RetryPolicy.MaxRetries rp -> failsRetriably net job c) ->
  exists (body : string) (e : error),
    doExecute net (Z.to_nat (RetryPolicy.MaxRetries rp)) job = (body, Some e) /\
    Execute net job =
      Some (("", Some (Wrap ("job failed after " +:+ pretty (RetryPolicy.MaxRetries rp) +:+ " retries: ") e)),
            spaced job (RetryPolicy.Backoff rp) (Z.to_nat (RetryPolicy.MaxRetries rp))) /\
    Wraps (Wrap ("job failed after " +:+ pretty (RetryPolicy.MaxRetries rp) +:+ " retries: ") e) e.
Proof.
  intros Hrp Hpos Hall.
  destruct (Execute_ends net job rp Hrp Hpos) as (k & res & Hk & Hrun & _ & Hend).
  destruct (Hall k Hk) as (e & He & Hre).
  destruct Hend as [[Hnone _] | [(e' & He' & Hre' & _) | (e' & Hmax & He' & _ & Hres)]].
  - congruence.
  - congruence.
  - assert (e' = e) by congruence. subst e'.
    assert (Hkn : Z.to_nat (RetryPolicy.MaxRetries rp) = k) by lia.
    rewrite Hkn. exists (fst (doExecute net k job)), e.
    split; [| split].
    + rewrite (surjective_pairing (doExecute net k job)). now rewrite He.
    + now rewrite Hrun, Hres.
    + apply Wrap_Wraps.
Qed.

Lemma Execute_exhausted_output_empty_witness :
  exists (body : string) (e : error),
    doExecute down 2 pingTwice = (body, Some e) /\
    Execute down pingTwice =
      Some (("", Some (Wrap ("job failed after " +:+ pretty 2 +:+ " retries: ") e)),
            spaced pingTwice (100 * Millisecond) 2) /\
    Wraps (Wrap ("job failed after " +:+ pretty 2 +:+ " retries: ") e) e.
Proof.
  apply (Execute_exhausted_output_empty down pingTwice
           {| RetryPolicy.MaxRetries := 2; RetryPolicy.Backoff := 100 * Millisecond |}).
  - reflexivity.
  - cbn. lia.
  - intros c _. eexists. split; [reflexivity | reflexivity].
Defined.

(** The body of the last 503 is read by [doExecute] and dropped by
    [Execute]. *)
Example down_body_dropped :
  fst (doExecute down 2 pingTwice) = "upstream down" /\
  option_map (fun r => fst (fst r)) (Execute down pingTwice) = Some "".
Proof. split; vm_compute; reflexivity. Qed.

End http_facts.

(** ** The etcd locker *)

Module etcd_facts.
Import domain etcd golang_facts.

(** X28: [Lock] answers [ErrLockNotAcquired] exactly when the session
    is there and [TryLock] runs into the deadline of its context,
    which is the caller's deadline cut down to 100ms. *)
Lemma Lock_not_acquired_iff (client : Client) (timeout : Z) (name : string) :
  Lock client timeout name = inr ErrLockNotAcquired <->
  NewSession client = None /\
  TryLock client (LockPrefix +:+ name) (Z.min timeout (100 * Millisecond)) = Some DeadlineExceeded.
Proof.
  unfold Lock. destruct (NewSession client) as [e|].
  - split; [discriminate | intros [[=] _]].
  - destruct (TryLock client _ _) as [e|].
    + destruct (decide (e = DeadlineExceeded)) as [->|Hne]; split; auto;
        try discriminate; intros [_ [= ->]]; congruence.
    + split; [discriminate | intros [_ [=]]].
Qed.

(** When [TryLock] fails at once because another session holds the
    mutex, the locker's error is the wrapped [TryLock] error. *)
Example Lock_held_elsewhere :
  Lock {| NewSession := None;
          TryLock := fun _ _ => Some (New "mutex: Locked by another session");
          MutexUnlock := fun _ => None |} (2 * Second) "report"
  = inr (Wrap "failed to try acquiring etcd lock report: "
              (New "mutex: Locked by another session")).
Proof. reflexivity. Qed.

End etcd_facts.

(** ** The worker: accepting a task *)

Module worker_accept_facts.
Import domain worker golang_facts worker_terms.

Section Accept.
Variable ParseDuration : string -> Z + error.

(** Every error of [protoToDomain] has a non-empty text. *)
Lemma protoToDomain_error_nonempty (req : pb.TaskRequest.t) (err : error) :
  protoToDomain ParseDuration req = inr err -> Error err <> "".
Proof.
  unfold protoToDomain.
  destruct (String.eqb _ ExecutorTypeHTTP); [| destruct (String.eqb _ ExecutorTypeShell)].
  - destruct (pb.TaskRequest.HttpExecutor req); [| intros [= <-]; discriminate].
    destruct (pb.TaskRequest.RetryPolicy req); [| discriminate].
    destruct (ParseDuration _); [discriminate | intros [= <-]; discriminate].
  - destruct (pb.TaskRequest.ShellExecutor req); [| intros [= <-]; discriminate].
    destruct (pb.TaskRequest.RetryPolicy req); [| discriminate].
    destruct (ParseDuration _); [discriminate | intros [= <-]; discriminate].
  - intros [= <-]. discriminate.
Qed.

End Accept.

(** C5: the reply is computed from the request alone.  When the request
    does not parse, the reply carries the (non-empty) error message and
    an empty execution id, and no goroutine is started; otherwise it
    carries the freshly drawn execution id and an empty error message,
    and [runJob] is started as a goroutine for that id and job, not
    run: the reply is the same whatever the server's executors, locker
    and store are.  The two fields are never both set. *)
Theorem ExecuteTask_reply (ParseDuration : string -> Z + error) (s : Server)
    (uuid : string) (req : pb.TaskRequest.t) :
  let resp := fst (ExecuteTask ParseDuration s uuid req) in
  let spawned := snd (ExecuteTask ParseDuration s uuid req) in
  (forall err, protoToDomain ParseDuration req = inr err ->
     resp = {| pb.TaskResponse.ExecutionId := ""; pb.TaskResponse.ErrorMessage := Error err |} /\
     pb.TaskResponse.ErrorMessage resp <> "" /\ spawned = None) /\
  (forall job, protoToDomain ParseDuration req = inl job ->
     resp = {| pb.TaskResponse.ExecutionId := uuid; pb.TaskResponse.ErrorMessage := "" |} /\
     spawned = Some {| spawnedID := uuid; spawnedJob := job |}) /\
  (pb.TaskResponse.ExecutionId resp = "" \/ pb.TaskResponse.ErrorMessage resp = "") /\
  (forall s', ExecuteTask ParseDuration s' uuid req = ExecuteTask ParseDuration s uuid req).
Proof.
  cbn zeta. unfold ExecuteTask.
  destruct (protoToDomain ParseDuration req) as [job | err] eqn:Hparse; cbn.
  - split; [discriminate |]. split; [| split; [right; reflexivity | reflexivity]].
    intros job' [= <-]. split; reflexivity.
  - split; [| split; [discriminate | split; [left; reflexivity | reflexivity]]].
    intros err' [= <-]. split; [reflexivity | split; [| reflexivity]].
    apply (protoToDomain_error_nonempty ParseDuration req err Hparse).
Qed.

Lemma ExecuteTask_reply_witness :
  fst (ExecuteTask parseKnown idleServer "3b241101-e2bb-4255-8caf-4136c566a962" (shellRequest None))
    = {| pb.TaskResponse.ExecutionId := "";
         pb.TaskResponse.ErrorMessage := "shell_executor is nil for shell job type" |} /\
  snd (ExecuteTask parseKnown idleServer "3b241101-e2bb-4255-8caf-4136c566a962" (shellRequest None))
    = None /\
  fst (ExecuteTask parseKnown idleServer "3b241101-e2bb-4255-8caf-4136c566a962"
         (shellRequest (Some {| pb.Command := "echo hi" |})))
    = {| pb.TaskResponse.ExecutionId := "3b241101-e2bb-4255-8caf-4136c566a962";
         pb.TaskResponse.ErrorMessage := "" |}.
Proof.
  pose proof (ExecuteTask_reply parseKnown idleServer "3b241101-e2bb-4255-8caf-4136c566a962"
                (shellRequest None)) as (Hbad & _).
  pose proof (ExecuteTask_reply parseKnown idleServer "3b241101-e2bb-4255-8caf-4136c566a962"
                (shellRequest (Some {| pb.Command := "echo hi" |}))) as (_ & Hgood & _).
  cbn zeta in Hbad, Hgood.
  destruct (Hbad (New "shell_executor is nil for shell job type") eq_refl) as (H1 & _ & H2).
  destruct (Hgood _ eq_refl) as (H3 & _).
  split; [exact H1 | split; [exact H2 | exact H3]].
Defined.

End worker_accept_facts.

(** ** The worker: the execution supervisor *)

Module worker_run_facts.
Import domain worker golang_facts worker_terms.











(** C1, as stated, fails on the error text: when the locker answers
    [ErrLockNotAcquired] the final record is failed, but its error is
    the prefix followed by the text of that error, [lock not
    acquired], and not [skipped execution: LockNotAcquired]. *)
Lemma skipped_error_text :
  let job := shellJob "report" "Forbid" in
  let f := runJob busyServer 1700000000 1700000002 "exec-1" job in
  locker busyServer (2 * Second) (Job.Name job) = inr ErrLockNotAcquired /\
  ExecutionRecord.Status (record f) = "failed" /\
  ExecutionRecord.Error (record f) = "skipped execution: lock not acquired" /\
  ExecutionRecord.Error (record f) <> "skipped execution: LockNotAcquired".
Proof. cbn zeta. repeat split; try (vm_compute; reflexivity). vm_compute. discriminate. Qed.

Ltac unlock_split :=
  match goal with
  | |- exists pre post, ?a :: ?b :: EvUnlock ?k ?t ?r :: ?rest = _ /\ _ =>
      exists [a; b], rest
  | |- exists pre post, ?a :: ?b :: ?c :: EvUnlock ?k ?t ?r :: ?rest = _ /\ _ =>
      exists [a; b; c], rest
  end.

(** C1, amended: for a job with [concurrency = Forbid], right after
    the initial save and before any executor call the supervisor asks
    the locker for the job's lock with a deadline of two seconds.  If
    the locker answers an error, the executor is never called and the
    final record is failed with the error [skipped execution: ]
    followed by the text of that error; for [ErrLockNotAcquired] this
    is [skipped execution: lock not acquired].  If the lock is
    acquired, it is unlocked exactly once, after the executor is done,
    whether the executor is missing, returns or panics. *)
Theorem runJob_forbid_gate (s : Server) (tStart tEnd : Z) (executionID : string) (job : Job.t) :
  Job.ConcurrencyPolicy job = ConcurrencyPolicyForbid ->
  let f := runJob s tStart tEnd executionID job in
  let r0 := initialRecord s tStart executionID job in
  (exists rest,
     trace f = EvSave r0 (snd (etcd.Save (execRepo s) r0))
                 :: EvLock (Job.Name job) (2 * Second) :: rest) /\
  (forall err, locker s (2 * Second) (Job.Name job) = inr err ->
     ExecutionRecord.Status (record f) = ExecutionStatusFailed /\
     ExecutionRecord.Error (record f) = "skipped execution: " +:+ Error err /\
     count isExecute (trace f) = 0%nat /\ count isUnlock (trace f) = 0%nat) /\
  (locker s (2 * Second) (Job.Name job) = inr ErrLockNotAcquired ->
     ExecutionRecord.Status (record f) = "failed" /\
     ExecutionRecord.Error (record f) = "skipped execution: lock not acquired" /\
     count isExecute (trace f) = 0%nat) /\
  (forall lock, locker s (2 * Second) (Job.Name job) = inl lock ->
     exists pre post,
       trace f = pre ++ EvUnlock (Lock.Key lock) (5 * Second) (Lock.Unlock lock) :: post /\
       count isExecute post = 0%nat /\ count isUnlock (trace f) = 1%nat /\
       panicking f = None).
Proof.
  intros Hforbid. cbn zeta. unfold runJob, runJobBody, lockGate.
  rewrite Hforbid, String.eqb_refl.
  destruct (etcd.Save (execRepo s) _) as [st res]. cbn [snd].
  destruct (locker s (2 * Second) (Job.Name job)) as [lock|err] eqn:Hlock.
  - unfold invoke. destruct (executors s !! Job.ExecutorType job) as [ex|] eqn:Hex.
    + destruct (ex job) as [o [e|]|v] eqn:Hrun; cbn;
        destruct (etcd.Save st _) as [st' res']; cbn;
        (split; [eexists; reflexivity |]);
        (split; [intros ? [=] |]); (split; [intros [=] |]);
        intros lock' [= <-]; unlock_split; repeat split; reflexivity.
    + cbn. destruct (etcd.Save st _) as [st' res']; cbn.
      split; [eexists; reflexivity |].
      split; [intros ? [=] |]. split; [intros [=] |].
      intros lock' [= <-]. unlock_split. repeat split; reflexivity.
  - cbn. destruct (etcd.Save st _) as [st' res']; cbn.
    split; [eexists; reflexivity |].
    split; [intros err' [= <-]; repeat split; reflexivity |].
    split; [intros [= ->]; repeat split; reflexivity |].
    intros lock' [=].
Qed.

Lemma runJob_forbid_gate_witness :
  let job := shellJob "report" "Forbid" in
  (let f := runJob busyServer 1700000000 1700000002 "exec-1" job in
   ExecutionRecord.Status (record f) = "failed" /\
   ExecutionRecord.Error (record f) = "skipped execution: lock not acquired" /\
   count isExecute (trace f) = 0%nat) /\
  (let f := runJob freeServer 1700000000 1700000002 "exec-2" job in
   exists pre post,
     trace f = pre ++ EvUnlock "/cron/locks/report" (5 * Second) None :: post /\
     count isExecute post = 0%nat /\ count isUnlock (trace f) = 1%nat /\
     panicking f = None).
Proof.
  cbn zeta. split.
  - destruct (runJob_forbid_gate busyServer 1700000000 1700000002 "exec-1"
                (shellJob "report" "Forbid") eq_refl) as (_ & _ & Hskip & _).
    apply Hskip. vm_compute. reflexivity.
  - destruct (runJob_forbid_gate freeServer 1700000000 1700000002 "exec-2"
                (shellJob "report" "Forbid") eq_refl) as (_ & _ & _ & Hunlock).
    apply (Hunlock {| Lock.Key := "/cron/locks/report"; Lock.Unlock := None |}).
    vm_compute. reflexivity.
Defined.

End worker_run_facts.

(** ** The scheduler: replacing an entry *)

Module scheduler_facts.
Import domain scheduler golang_facts scheduler_terms.

Section Replace.
Variable Schedule : Type.
Variable parse : string -> Schedule + error.

Abbreviation Entry := (cron.Entry Schedule).
Abbreviation sched := (cronScheduler Schedule).
Lemma cleared_entries (name : string) (s : sched) :
  consistent s ->
  cron.entries (cleared name s) = entriesBut name s /\
  cron.nextID (cleared name s) = cron.nextID (cron s) /\
  cron.running (cleared name s) = cron.running (cron s).
Proof.
  intros Hc. unfold cleared, entriesBut.
  destruct (jobs s !! name) as [old|] eqn:Hold; cbn.
  - split; [| split; reflexivity].
    apply List.filter_ext_in. intros e He. unfold named.
    destruct (Z.eqb_spec (cron.ID e) old) as [Heq|Hne];
      destruct (String.eqb_spec (Job.Name (cron.EntryJob e)) name) as [Hn|Hn]; cbn; auto.
    + exfalso. apply Hn. symmetry. apply (table_only s Hc e name He). now rewrite Heq.
    + exfalso. apply Hne. pose proof (table_knows s Hc e He) as Hk.
      rewrite Hn, Hold in Hk. congruence.
  - split; [| split; reflexivity].
    transitivity (List.filter (fun _ => true) (cron.entries (cron s))).
    + clear. induction (cron.entries (cron s)) as [|e l IH]; cbn; congruence.
    + apply List.filter_ext_in. intros e He. unfold named.
      destruct (String.eqb_spec (Job.Name (cron.EntryJob e)) name) as [Hn|Hn]; cbn; auto.
      pose proof (table_knows s Hc e He) as Hk. rewrite Hn, Hold in Hk. discriminate.
Qed.

Lemma filter_filter_neg (name : string) (l : list Entry) :
  List.filter (named name) (List.filter (fun e => negb (named name e)) l) = [].
Proof.
  induction l as [|e l IH]; cbn; [reflexivity |].
  destruct (named name e) eqn:Hn; cbn; [exact IH | rewrite Hn; exact IH].
Qed.

Lemma filter_neg_idem (name : string) (l : list Entry) :
  List.filter (fun e => negb (named name e)) (List.filter (fun e => negb (named name e)) l)
  = List.filter (fun e => negb (named name e)) l.
Proof.
  induction l as [|e l IH]; cbn; [reflexivity |].
  destruct (named name e) eqn:Hn; cbn; [exact IH | rewrite Hn; cbn; now rewrite IH].
Qed.

Lemma named_own (id : Z) (sch : Schedule) (job : Job.t) :
  named (Job.Name job) (cron.mkEntry id sch job) = true.
Proof. unfold named. cbn. apply String.eqb_refl. Qed.

(** What [AddJob] does to a consistent scheduler. *)
Lemma AddJob_effect (job : Job.t) (s : sched) :
  consistent s ->
  let s' := fst (AddJob parse job s) in
  (forall sch, parse (Job.CronExpr job) = inl sch ->
     snd (AddJob parse job s) = None /\
     entriesFor (Job.Name job) s' =
       [cron.mkEntry (cron.nextID (cron s) + 1) sch job] /\
     entriesBut (Job.Name job) s' = entriesBut (Job.Name job) s /\
     jobs s' = <[Job.Name job := cron.nextID (cron s) + 1]> (jobs s)) /\
  (forall err, parse (Job.CronExpr job) = inr err ->
     snd (AddJob parse job s) = Some err /\
     entriesFor (Job.Name job) s' = [] /\
     entriesBut (Job.Name job) s' = entriesBut (Job.Name job) s /\
     jobs s' = jobs s /\ cron.nextID (cron s') = cron.nextID (cron s)).
Proof.
  intros Hc. cbn zeta.
  destruct (cleared_entries (Job.Name job) s Hc) as (Hent & Hnext & Hrun).
  unfold AddJob, cron.AddJob. fold (cleared (Job.Name job) s).
  split.
  - intros sch Hp. rewrite Hp. cbn. unfold entriesFor, entriesBut. cbn.
    rewrite Hent, Hnext, !List.filter_app. unfold entriesBut.
    rewrite filter_filter_neg, filter_neg_idem. cbn [List.filter].
    rewrite named_own. cbn. rewrite app_nil_r. auto.
  - intros err Hp. rewrite Hp. cbn. unfold entriesFor, entriesBut. cbn.
    rewrite Hent. unfold entriesBut. rewrite filter_filter_neg, filter_neg_idem. auto.
Qed.

Lemma In_entriesBut (name : string) (s : sched) (e : Entry) :
  In e (entriesBut name s) <->
  In e (cron.entries (cron s)) /\ Job.Name (cron.EntryJob e) <> name.
Proof.
  unfold entriesBut. rewrite List.filter_In. unfold named.
  destruct (String.eqb_spec (Job.Name (cron.EntryJob e)) name); cbn; intuition congruence.
Qed.

Lemma AddJob_consistent (job : Job.t) (s : sched) :
  consistent s -> consistent (fst (AddJob parse job s)).
Proof.
  intros Hc.
  destruct (cleared_entries (Job.Name job) s Hc) as (Hent & Hnext & _).
  unfold AddJob, cron.AddJob. fold (cleared (Job.Name job) s).
  destruct (parse (Job.CronExpr job)) as [sch|err]; cbn.
  - constructor; cbn; rewrite ?Hent, ?Hnext.
    + intros e [He | [<- | []]]%in_app_or.
      * apply In_entriesBut in He as [He Hn].
        rewrite lookup_insert_ne by congruence. now apply table_knows.
      * cbn. apply lookup_insert_eq.
    + intros e n [He | [<- | []]]%in_app_or Hn.
      * apply In_entriesBut in He as [He Hne].
        destruct (decide (n = Job.Name job)) as [->|Hnn].
        -- rewrite lookup_insert_eq in Hn. injection Hn as Hn.
           pose proof (ids_issued s Hc e He). lia.
        -- rewrite lookup_insert_ne in Hn by congruence. now apply (table_only s Hc).
      * cbn in *. destruct (decide (n = Job.Name job)) as [->|Hnn]; [reflexivity |].
        rewrite lookup_insert_ne in Hn by congruence.
        pose proof (table_issued s Hc n _ Hn). lia.
    + intros e [He | [<- | []]]%in_app_or.
      * apply In_entriesBut in He as [He _]. pose proof (ids_issued s Hc e He). lia.
      * cbn. lia.
    + intros n id Hn. destruct (decide (n = Job.Name job)) as [->|Hnn].
      * rewrite lookup_insert_eq in Hn. injection Hn as <-. lia.
      * rewrite lookup_insert_ne in Hn by congruence.
        pose proof (table_issued s Hc n id Hn). lia.
  - constructor; cbn; rewrite ?Hent, ?Hnext.
    + intros e [He _]%In_entriesBut. now apply table_knows.
    + intros e n [He _]%In_entriesBut. now apply table_only.
    + intros e [He _]%In_entriesBut. now apply ids_issued.
    + apply (table_issued s Hc).
Qed.

Lemma RemoveJob_consistent (name : string) (s : sched) :
  consistent s -> consistent (fst (RemoveJob name s)).
Proof.
  intros Hc. pose proof (cleared_entries name s Hc) as (Hent & Hnext & _).
  unfold RemoveJob. unfold cleared in Hent, Hnext.
  destruct (jobs s !! name) as [old|] eqn:Hold; cbn; [| exact Hc].
  cbn in Hent, Hnext.
  constructor; cbn; rewrite ?Hent, ?Hnext.
  - intros e [He Hn]%In_entriesBut. rewrite lookup_delete_ne by congruence.
    now apply table_knows.
  - intros e n [He Hne]%In_entriesBut Hn.
    destruct (decide (name = n)) as [->|Hnn]; [now rewrite lookup_delete_eq in Hn |].
    rewrite lookup_delete_ne in Hn by exact Hnn. now apply (table_only s Hc).
  - intros e [He _]%In_entriesBut. now apply ids_issued.
  - intros n id Hn. destruct (decide (name = n)) as [->|Hnn];
      [now rewrite lookup_delete_eq in Hn |].
    rewrite lookup_delete_ne in Hn by exact Hnn. now apply (table_issued s Hc n).
Qed.

Lemma New_consistent : consistent (NewCronScheduler (Schedule := Schedule)).
Proof. constructor; cbn; try tauto. intros n id Hn. now rewrite lookup_empty in Hn. Qed.

Lemma fold_consistent (ops : list Op) (s : sched) :
  consistent s -> consistent (fold_left (step parse) ops s).
Proof.
  revert s. induction ops as [|op ops IH]; intros s Hc; cbn; [exact Hc |].
  apply IH. destruct op; cbn;
    [now apply AddJob_consistent | now apply RemoveJob_consistent | |];
    destruct Hc; constructor; assumption.
Qed.

Lemma after_consistent (ops : list Op) : consistent (after parse ops).
Proof. apply fold_consistent, New_consistent. Qed.

End Replace.

(** C8, as stated, fails: when the expression does not parse, [AddJob]
    returns the error, but the scheduler is not as it was before the
    call: the previous entry of the job is gone from the wheel, which
    no longer fires the job. *)
Lemma AddJob_failure_drops_entry :
  List.map cron.EntryJob (cron.entries (cron scheduled))
    = [shellJobAt "report" "*/5 * * * * *"] /\
  snd (AddJob cron.sixFields badUpdate scheduled)
    = Some (New "expected exactly 6 fields, found 3: [every five seconds]") /\
  cron.entries (cron (fst (AddJob cron.sixFields badUpdate scheduled))) = [] /\
  fst (AddJob cron.sixFields badUpdate scheduled) <> scheduled /\
  dispatched (fun _ => true) (StartEnter scheduled)
    = [shellJobAt "report" "*/5 * * * * *"] /\
  dispatched (fun _ => true) (StartEnter (fst (AddJob cron.sixFields badUpdate scheduled))) = [].
Proof.
  repeat split; try (vm_compute; reflexivity).
  intros H. apply (f_equal (fun s => length (cron.entries (cron s)))) in H.
  vm_compute in H. discriminate.
Qed.

(** C8, amended: on a scheduler built by any history of [AddJob] and
    [RemoveJob] calls, a successful [AddJob] leaves exactly one entry
    for the job's name, holding the job and the schedule parsed from
    its expression, and leaves the entries of all other names as they
    were; so after two calls for one name the wheel holds one entry,
    that of the second call.  When the expression does not parse
    [AddJob] returns the parser's error and installs nothing; the
    entry the name had before is removed all the same, and the
    entries of all other names are as they were. *)
Theorem AddJob_replaces (Schedule : Type) (parse : string -> Schedule + error)
    (ops : list Op) (job : Job.t) :
  let s := after parse ops in
  let s' := fst (AddJob parse job s) in
  (forall sch, parse (Job.CronExpr job) = inl sch ->
     snd (AddJob parse job s) = None /\
     entriesFor (Job.Name job) s' = [cron.mkEntry (cron.nextID (cron s) + 1) sch job] /\
     entriesBut (Job.Name job) s' = entriesBut (Job.Name job) s) /\
  (forall sch job2 sch2,
     parse (Job.CronExpr job) = inl sch -> parse (Job.CronExpr job2) = inl sch2 ->
     Job.Name job2 = Job.Name job ->
     let s2 := fst (AddJob parse job2 s') in
     snd (AddJob parse job2 s') = None /\
     entriesFor (Job.Name job) s2 = [cron.mkEntry (cron.nextID (cron s) + 2) sch2 job2] /\
     entriesBut (Job.Name job) s2 = entriesBut (Job.Name job) s) /\
  (forall err, parse (Job.CronExpr job) = inr err ->
     snd (AddJob parse job s) = Some err /\
     entriesFor (Job.Name job) s' = [] /\
     entriesBut (Job.Name job) s' = entriesBut (Job.Name job) s).
Proof.
  cbn zeta.
  pose proof (after_consistent Schedule parse ops) as Hc.
  destruct (AddJob_effect Schedule parse job (after parse ops) Hc) as [Hok Hfail].
  cbn zeta in Hok, Hfail. split; [| split].
  - intros sch Hp. destruct (Hok sch Hp) as (H1 & H2 & H3 & _). auto.
  - intros sch job2 sch2 Hp Hp2 Hname.
    pose proof (AddJob_consistent Schedule parse job _ Hc) as Hc'.
    destruct (AddJob_effect Schedule parse job2 _ Hc') as [Hok2 _].
    cbn zeta in Hok2. destruct (Hok2 sch2 Hp2) as (H1 & H2 & H3 & _).
    destruct (Hok sch Hp) as (_ & _ & H3' & _).
    rewrite Hname in H2, H3. rewrite H2, H3, H3'.
    split; [exact H1 |]. split; [| reflexivity].
    f_equal. f_equal.
    unfold AddJob, cron.AddJob. fold (cleared (Job.Name job) (after parse ops)).
    rewrite Hp. cbn.
    destruct (cleared_entries Schedule (Job.Name job) _ Hc) as (_ & Hn & _). rewrite Hn. lia.
  - intros err Hp. destruct (Hfail err Hp) as (H1 & H2 & H3 & _). auto.
Qed.

Lemma AddJob_replaces_witness :
  let first := shellJobAt "report" "*/5 * * * * *" in
  let second := shellJobAt "report" "0 0 * * * *" in
  let s2 := fst (AddJob cron.sixFields second scheduled) in
  entriesFor "report" s2 = [cron.mkEntry 2 ["0"; "0"; "*"; "*"; "*"; "*"] second] /\
  entriesFor "report" (fst (AddJob cron.sixFields badUpdate scheduled)) = [].
Proof.
  cbn zeta.
  destruct (AddJob_replaces (list string) cron.sixFields []
              (shellJobAt "report" "*/5 * * * * *")) as (_ & Htwice & _).
  destruct (AddJob_replaces (list string) cron.sixFields
              [OpAddJob (shellJobAt "report" "*/5 * * * * *")] badUpdate)
    as (_ & _ & Hfail).
  cbn zeta in Htwice, Hfail.
  destruct (Htwice ["*/5"; "*"; "*"; "*"; "*"; "*"] (shellJobAt "report" "0 0 * * * *")
              ["0"; "0"; "*"; "*"; "*"; "*"] eq_refl eq_refl eq_refl) as (_ & H2 & _).
  destruct (Hfail (New "expected exactly 6 fields, found 3: [every five seconds]") eq_refl)
    as (_ & H3 & _).
  split; [exact H2 | exact H3].
Defined.

End scheduler_facts.

(** ** The dispatcher *)

Module master_facts.
Import domain master golang_facts master_terms.

Lemma domainToProto_known (env : Env) (job : Job.t) :
  Job.ExecutorType job = ExecutorTypeHTTP \/ Job.ExecutorType job = ExecutorTypeShell ->
  exists req, domainToProto env job = inl req.
Proof.
  unfold domainToProto. intros [-> | ->]; cbn; eexists; reflexivity.
Qed.

Lemma getOrCreateClient_result (env : Env) (addr : string) (d : Dispatcher) :
  (addr ∈ clients d \/ NewClient env addr = None ->
     snd (getOrCreateClient env addr d) = inl addr) /\
  (forall err, addr ∉ clients d -> NewClient env addr = Some err ->
     getOrCreateClient env addr d =
       (d, inr (Wrap ("failed to connect to worker at " +:+ addr +:+ ": ") err))).
Proof.
  unfold getOrCreateClient. split.
  - intros [Hin | Hnew].
    + rewrite bool_decide_eq_true_2 by exact Hin. reflexivity.
    + destruct (bool_decide (addr ∈ clients d)); [reflexivity |]. rewrite Hnew. reflexivity.
  - intros err Hout Hnew. rewrite bool_decide_eq_false_2 by exact Hout. rewrite Hnew. reflexivity.
Qed.

(** C9, as stated, fails: with a worker in the snapshot the task is
    not always sent.  For a job whose executor kind is unknown to
    [domainToProto] the call returns that error and no RPC is made. *)
Lemma DispatchTask_without_send :
  GetWorkers (discovery oneWorker) = ["10.0.0.5:50052"] /\
  snd (fst (DispatchTask calm ftpJob oneWorker))
    = Return (Some (New "unknown executor type: ftp")) /\
  snd (DispatchTask calm ftpJob oneWorker) = [].
Proof. repeat split; vm_compute; reflexivity. Qed.

(** C9, amended.  With an empty snapshot the call fails with the
    no-available-workers error and sends nothing.  With a non-empty
    one, [rand.Intn] picks one address of the snapshot; if no client
    can be created for it, or if the job does not convert to a task
    request (its executor kind is neither http nor shell), that error
    is returned and nothing is sent; otherwise exactly one
    [ExecuteTask] goes to the picked address, and its error, if any,
    is returned as it is.  In no case is more than one RPC made. *)
Theorem DispatchTask_contract (env : Env) (job : Job.t) (d : Dispatcher) :
  let ws := GetWorkers (discovery d) in
  let i := Intn env (Z.of_nat (length ws)) in
  let result := snd (fst (DispatchTask env job d)) in
  let tr := snd (DispatchTask env job d) in
  (ws = [] ->
     DispatchTask env job d =
       (d, Return (Some (New ("no available workers to dispatch job " +:+ Job.Name job))), [])) /\
  (ws <> [] -> 0 <= i < Z.of_nat (length ws) ->
     exists addr,
       ws !! Z.to_nat i = Some addr /\ In addr ws /\
       (forall err, addr ∉ clients d -> NewClient env addr = Some err ->
          result = Return (Some (Wrap ("failed to connect to worker at " +:+ addr +:+ ": ") err)) /\
          tr = []) /\
       (addr ∈ clients d \/ NewClient env addr = None ->
          (forall err, domainToProto env job = inr err ->
             result = Return (Some err) /\ tr = []) /\
          (forall req, domainToProto env job = inl req ->
             tr = [EvExecuteTask addr req] /\
             (forall err, ExecuteTask env addr req = inr err -> result = Return (Some err)) /\
             (forall resp, ExecuteTask env addr req = inl resp -> result = Return None)) /\
          (Job.ExecutorType job = ExecutorTypeHTTP \/ Job.ExecutorType job = ExecutorTypeShell ->
             exists req, tr = [EvExecuteTask addr req]))) /\
  (length tr <= 1)%nat.
Proof.
  cbn zeta. unfold DispatchTask.
  set (ws := GetWorkers (discovery d)).
  set (i := Intn env (Z.of_nat (length ws))).
  split; [| split].
  - intros Hws. rewrite Hws. reflexivity.
  - intros Hne Hi.
    destruct (Nat.eqb_spec (length ws) 0) as [H0|_]; [destruct ws; [congruence | discriminate] |].
    destruct (Z.leb_spec 0 i) as [_|]; [| lia].
    destruct (lookup_lt_is_Some_2 ws (Z.to_nat i)) as [addr Haddr]; [lia |].
    rewrite Haddr. exists addr.
    split; [reflexivity |]. split; [apply list_elem_of_In; eapply list_elem_of_lookup_2; eauto |].
    destruct (getOrCreateClient_result env addr d) as [Hok Hbad].
    split.
    + intros err Hout Hnew. rewrite (Hbad err Hout Hnew). split; reflexivity.
    + intros Hclient. specialize (Hok Hclient).
      destruct (getOrCreateClient env addr d) as [d' [client|err]]; cbn in Hok; [| discriminate].
      injection Hok as ->.
      assert (Hsend : forall req, domainToProto env job = inl req ->
                snd (match domainToProto env job with
                     | inl taskReq =>
                         match ExecuteTask env addr taskReq with
                         | inl _ => (d', Return None, [EvExecuteTask addr taskReq])
                         | inr err => (d', Return (Some err), [EvExecuteTask addr taskReq])
                         end
                     | inr err => (d', Return (Some err), [])
                     end) = [EvExecuteTask addr req]).
      { intros req ->. destruct (ExecuteTask env addr req); reflexivity. }
      split; [| split].
      * intros err ->. split; reflexivity.
      * intros req Hreq. split; [apply Hsend, Hreq |]. rewrite Hreq.
        split; [intros err -> | intros resp ->]; reflexivity.
      * intros Hkind. destruct (domainToProto_known env job Hkind) as [req Hreq].
        exists req. apply Hsend, Hreq.
  - destruct (length ws =? 0)%nat; [cbn; lia |].
    destruct (if 0 <=? i then ws !! Z.to_nat i else None) as [addr|]; [| cbn; lia].
    destruct (getOrCreateClient env addr d) as [d' [client|err]]; [| cbn; lia].
    destruct (domainToProto env job) as [req|err]; [| cbn; lia].
    destruct (ExecuteTask env client req); cbn; lia.
Qed.

Lemma DispatchTask_contract_witness :
  exists addr,
    GetWorkers (discovery oneWorker) !! 0%nat = Some addr /\
    (exists req, snd (DispatchTask rejecting (shellJob "report" "Allow") oneWorker)
                 = [EvExecuteTask addr req]) /\
    snd (fst (DispatchTask rejecting (shellJob "report" "Allow") oneWorker))
      = Return (Some (New "rpc error: code = Unavailable desc = connection refused")).
Proof.
  destruct (DispatchTask_contract rejecting (shellJob "report" "Allow") oneWorker)
    as (_ & Hsend & _).
  cbn zeta in Hsend.
  destruct Hsend as (addr & Hpick & _ & _ & Hrpc).
  - vm_compute. discriminate.
  - vm_compute. split; [discriminate | reflexivity].
  - exists addr. split; [exact Hpick |].
    destruct (Hrpc (or_intror eq_refl)) as (_ & Hreq & Hkind).
    destruct (Hkind (or_intror eq_refl)) as [req Htr].
    split; [exists req; exact Htr |].
    assert (Hconv : exists r, domainToProto rejecting (shellJob "report" "Allow") = inl r)
      by (eexists; reflexivity).
    destruct Hconv as [r Hr].
    destruct (Hreq r Hr) as (_ & Herr & _).
    apply Herr. reflexivity.
Defined.

End master_facts.

(** ** The leader-bound scheduler service *)

Module usecase_facts.
Import domain usecase golang_facts.

(** [Stop] changes nothing, so the call of it in [Start] leaves the
    wheel as it is. *)
Lemma stop_keeps_wheel (Schedule : Type) (s : SchedularService Schedule) :
  schedular (stop s) = schedular s.
Proof. reflexivity. Qed.

(** Cancelling the root context stops the wheel when a goroutine runs
    [schedular.Start]. *)
Lemma cancel_stops_wheel (Schedule : Type) (s : SchedularService Schedule) :
  (0 < waiting s)%nat ->
  cron.running (scheduler.cron (schedular (cancel s))) = false.
Proof. unfold cancel. destruct (waiting s); [lia | reflexivity]. Qed.

(** Losing leadership after a won campaign whose jobs were all added:
    the loop goes on with the wheel running. *)
Lemma lost_leadership_round (Schedule : Type) (parse : string -> Schedule + error)
    (jobs : list Job.t) (rest : list Round) (s : SchedularService Schedule)
    (c : scheduler.cronScheduler Schedule) :
  addJobs parse jobs (schedular s) = (c, None) ->
  exists s',
    Start parse (CampaignWon (inl jobs) LeadershipLost :: rest) s = Start parse rest s' /\
    schedular s' = scheduler.StartEnter c /\
    cron.running (scheduler.cron (schedular s')) = true /\
    ctxDone s' = ctxDone s /\
    log s' = log s ++ [EvCampaign; EvList; EvGoStart; EvStop].
Proof.
  intros Hadd. cbn [Start]. unfold runSchedular. cbn. rewrite Hadd.
  eexists. split; [reflexivity |]. cbn. rewrite <- !app_assoc. auto.
Qed.

Lemma AddJob_running (Schedule : Type) (parse : string -> Schedule + error)
    (job : Job.t) (c : scheduler.cronScheduler Schedule) :
  cron.running (scheduler.cron (fst (scheduler.AddJob parse job c)))
  = cron.running (scheduler.cron c).
Proof.
  unfold scheduler.AddJob, cron.AddJob.
  destruct (scheduler.jobs c !! Job.Name job); destruct (parse (Job.CronExpr job)); reflexivity.
Qed.

Lemma addJobs_running (Schedule : Type) (parse : string -> Schedule + error)
    (jobs : list Job.t) (c : scheduler.cronScheduler Schedule) :
  cron.running (scheduler.cron (fst (addJobs parse jobs c)))
  = cron.running (scheduler.cron c).
Proof.
  revert c. induction jobs as [|job jobs IH]; intros c; cbn; [reflexivity |].
  pose proof (AddJob_running Schedule parse job c) as Hrun.
  destruct (scheduler.AddJob parse job c) as [c' [err|]]; cbn in *; [exact Hrun |].
  rewrite IH. exact Hrun.
Qed.

Lemma runSchedular_running (Schedule : Type) (parse : string -> Schedule + error)
    (listed : list Job.t + error) (s : SchedularService Schedule) :
  cron.running (scheduler.cron (schedular s)) = true ->
  cron.running (scheduler.cron (schedular (runSchedular parse listed s))) = true.
Proof.
  intros Hrun. unfold runSchedular. destruct listed as [jobs|err]; cbn; [| exact Hrun].
  pose proof (addJobs_running Schedule parse jobs (schedular s)) as Hadd.
  destruct (addJobs parse jobs (schedular s)) as [c [err|]]; cbn in *; [| reflexivity].
  now rewrite Hadd.
Qed.

(** X27: nothing in the loop but the cancellation of the root context
    stops the wheel: as long as [Start] has not returned, a wheel that
    was running is running, however often leadership was lost. *)
Lemma running_until_cancelled (Schedule : Type) (parse : string -> Schedule + error)
    (script : list Round) :
  forall s : SchedularService Schedule,
    cron.running (scheduler.cron (schedular s)) = true ->
    snd (Start parse script s) = None ->
    cron.running (scheduler.cron (schedular (fst (Start parse script s)))) = true.
Proof.
  induction script as [|round script IH]; intros s Hrun Hloop; cbn in *; [exact Hrun |].
  destruct round as [|err|listed [|]]; cbn in *; try discriminate.
  - apply IH; [exact Hrun | exact Hloop].
  - apply IH; [| exact Hloop].
    rewrite stop_keeps_wheel. apply runSchedular_running. exact Hrun.
Qed.

(** C2, on the code: a node wins the campaign, loads the job [report],
    starts the wheel and then loses leadership.  [Start] calls
    [schedular.Stop()] and campaigns again, but the wheel is still
    running with the entry of the job in it, so the job is still
    dispatched at its instants; only cancelling the root context stops
    the wheel. *)
Theorem lost_leadership_keeps_dispatching :
  let job := shellJobAt "report" "*/5 * * * * *" in
  let lost := Start cron.sixFields [CampaignWon (inl [job]) LeadershipLost]
                NewSchedularService in
  let again := Start cron.sixFields
                 [CampaignWon (inl [job]) LeadershipLost;
                  CampaignFails (New "context deadline exceeded")]
                 NewSchedularService in
  let cancelled := Start cron.sixFields [CampaignWon (inl [job]) ContextDone]
                     NewSchedularService in
  snd lost = None /\
  log (fst lost) = [EvCampaign; EvList; EvGoStart; EvStop] /\
  cron.running (scheduler.cron (schedular (fst lost))) = true /\
  scheduler.dispatched (fun _ => true) (schedular (fst lost)) = [job] /\
  log (fst again) = [EvCampaign; EvList; EvGoStart; EvStop; EvCampaign; EvSleep (5 * Second)] /\
  scheduler.dispatched (fun _ => true) (schedular (fst again)) = [job] /\
  snd cancelled = Some Canceled /\
  scheduler.dispatched (fun _ => true) (schedular (fst cancelled)) = [].
Proof. cbn zeta. repeat split; vm_compute; reflexivity. Qed.

End usecase_facts.

(** * Further properties of the code *)

(** ** Validation and the request DTO *)

Module validation_facts.
Import domain wire_terms.

(** A job [Validate] has accepted is accepted again, unchanged. *)
Lemma Validate_fixed (j : Job.t) :
  snd (Job.Validate j) = None ->
  Job.Validate (fst (Job.Validate j)) = (fst (Job.Validate j), None).
Proof.
  destruct j as [id name expr ty [url method command] pol rp ca ua].
  unfold Job.Validate, Job.Validate_policy, ExecutorTypeHTTP, ExecutorTypeShell; cbn.
  destruct (String.eqb_spec name "") as [->|Hname]; [discriminate |].
  destruct (String.eqb_spec expr "") as [->|Hexpr]; [discriminate |].
  destruct (String.eqb_spec ty "http") as [->|Hhttp].
  - destruct (String.eqb_spec url "") as [->|Hurl]; [discriminate |].
    destruct (String.eqb_spec method "") as [->|Hm], (String.eqb_spec pol "") as [->|Hp];
      cbn; intros _;
      repeat match goal with
             | |- context [String.eqb ?a ?b] => destruct (String.eqb_spec a b); try congruence
             end; cbn; try reflexivity; try discriminate.
  - destruct (String.eqb_spec ty "shell") as [->|Hshell]; [| discriminate].
    destruct (String.eqb_spec command "") as [->|Hcmd]; [discriminate |].
    destruct (String.eqb_spec pol "") as [->|Hp]; cbn; intros _;
      repeat match goal with
             | |- context [String.eqb ?a ?b] => destruct (String.eqb_spec a b); try congruence
             end; cbn; try reflexivity; try discriminate.
Qed.

(** X1: [Job.Validate] is idempotent: a job it has accepted, with the
    defaults it has written, is accepted again and left as it is. *)
Theorem Validate_idempotent (j : Job.t) :
  snd (Job.Validate j) = None ->
  Job.Validate (fst (Job.Validate j)) = (fst (Job.Validate j), None).
Proof. exact (Validate_fixed j). Qed.

Lemma Validate_idempotent_witness :
  Job.Validate (fst (Job.Validate (shellJob "report" "")))
  = (fst (Job.Validate (shellJob "report" "")), None).
Proof. apply Validate_idempotent. reflexivity. Defined.

(** X2: the job [ToDomainJob] builds from a request already carries the
    defaults, so [Job.Validate] never changes it, and accepts it
    exactly when name and cron expression are non-empty and the kind
    is http with a URL or shell with a command.  Its id is empty, so
    [JobService.Save] gives every job that comes through the API the
    fresh id and the creation time of the call, also when a job of
    that name is already stored. *)
Theorem ToDomainJob_validated (ParseDuration : string -> Z + error)
    (r : api.SaveJobRequest.t) (now : Z) (uuid : string) :
  let job := api.ToDomainJob ParseDuration r in
  fst (Job.Validate job) = job /\
  (snd (Job.Validate job) = None <->
     api.SaveJobRequest.Name r <> "" /\ api.SaveJobRequest.CronExpr r <> "" /\
     ((api.SaveJobRequest.ExecutorType r = "http" /\
       api.URL (api.SaveJobRequest.Executor r) <> "") \/
      (api.SaveJobRequest.ExecutorType r = "shell" /\
       api.Command (api.SaveJobRequest.Executor r) <> ""))) /\
  Job.ID (job_service.stamp now uuid job) = uuid /\
  Job.CreatedAt (job_service.stamp now uuid job) = now /\
  Job.UpdatedAt (job_service.stamp now uuid job) = now.
Proof.
  destruct r as [name expr ty [url method command] pol rp].
  unfold api.ToDomainJob, Job.Validate, Job.Validate_policy, job_service.stamp,
    ExecutorTypeHTTP, ExecutorTypeShell, ConcurrencyPolicyAllow; cbn.
  destruct (String.eqb_spec name "") as [->|Hname]; [cbn; intuition congruence |].
  destruct (String.eqb_spec expr "") as [->|Hexpr]; [cbn; intuition congruence |].
  destruct (String.eqb_spec ty "http") as [->|Hhttp]; cbn.
  - destruct (String.eqb_spec url "") as [->|Hurl]; [cbn; intuition congruence |].
    destruct (String.eqb_spec method "") as [->|Hm], (String.eqb_spec pol "") as [->|Hp]; cbn;
      repeat match goal with
             | |- context [String.eqb ?a ?b] => destruct (String.eqb_spec a b); try congruence
             end; cbn; intuition congruence.
  - destruct (String.eqb_spec ty "shell") as [->|Hshell]; cbn.
    + destruct (String.eqb_spec command "") as [->|Hcmd];
        [cbn; intuition (try congruence; try discriminate) |].
      destruct (String.eqb_spec pol "") as [->|Hp]; cbn;
        repeat match goal with
               | |- context [String.eqb ?a ?b] => destruct (String.eqb_spec a b); try congruence
               end; cbn; intuition (try congruence; try discriminate).
    + intuition congruence.
Qed.

End validation_facts.

(** ** The wire between master and worker *)

Module wire_facts.
Import domain wire_terms worker_terms.

(** X3: what the master sends the worker rebuilds.  If [domainToProto]
    converts a job, and the retry policy, if there is one, has a retry
    count that fits [int32] (so that the conversion to [int32] and
    back is the identity) and a backoff that [time.ParseDuration]
    reads back from its [String()], then [protoToDomain] returns that
    job, with the executor fields of the other kind emptied and the
    update time zero; [ExecuteTask] accepts the request and starts
    [runJob] for exactly this job. *)
Theorem wire_round_trip (ParseDuration : string -> Z + error) (env : master.Env)
    (job : Job.t) (req : pb.TaskRequest.t) (s : worker.Server) (uuid : string) :
  master.domainToProto env job = inl req ->
  (forall rp, Job.RetryPolicy job = Some rp ->
     fitsInt32 (RetryPolicy.MaxRetries rp) /\
     ParseDuration (master.DurationString env (RetryPolicy.Backoff rp))
       = inl (RetryPolicy.Backoff rp)) ->
  worker.protoToDomain ParseDuration req = inl (asReceived job) /\
  worker.ExecuteTask ParseDuration s uuid req =
    ({| pb.TaskResponse.ExecutionId := uuid; pb.TaskResponse.ErrorMessage := "" |},
     Some {| worker.spawnedID := uuid; worker.spawnedJob := asReceived job |}).
Proof.
  intros Hreq Hrp.
  assert (Hparse : worker.protoToDomain ParseDuration req = inl (asReceived job)).
  { destruct job as [id name expr ty [url method command] pol rp ca ua].
    unfold master.domainToProto in Hreq. unfold asReceived. cbn in *.
    destruct (String.eqb ty ExecutorTypeHTTP) eqn:Hhttp.
    - injection Hreq as <-. unfold worker.protoToDomain. cbn. rewrite Hhttp.
      destruct rp as [[m b]|]; cbn; [| reflexivity].
      destruct (Hrp _ eq_refl) as [_ Hb]. cbn in Hb. rewrite Hb. reflexivity.
    - destruct (String.eqb ty ExecutorTypeShell) eqn:Hshell; [| discriminate].
      injection Hreq as <-. unfold worker.protoToDomain. cbn. rewrite Hhttp, Hshell.
      destruct rp as [[m b]|]; cbn; [| reflexivity].
      destruct (Hrp _ eq_refl) as [_ Hb]. cbn in Hb. rewrite Hb. reflexivity. }
  split; [exact Hparse |]. unfold worker.ExecuteTask. rewrite Hparse. reflexivity.
Qed.

Lemma wire_round_trip_witness :
  let job := httpJob "http://svc.local/health"
               (Some {| RetryPolicy.MaxRetries := 2; RetryPolicy.Backoff := 100 * Millisecond |}) in
  exists req,
    master.domainToProto printing job = inl req /\
    worker.protoToDomain parseKnown req = inl (asReceived job) /\
    worker.ExecuteTask parseKnown idleServer "e-7" req =
      ({| pb.TaskResponse.ExecutionId := "e-7"; pb.TaskResponse.ErrorMessage := "" |},
       Some {| worker.spawnedID := "e-7"; worker.spawnedJob := asReceived job |}).
Proof.
  cbn zeta. eexists. split; [reflexivity |].
  apply (wire_round_trip parseKnown printing).
  - reflexivity.
  - intros rp [= <-]. split; [unfold fitsInt32; cbn; lia | reflexivity].
Defined.

End wire_facts.

(** ** More on the HTTP executor *)

Module http_more_facts.
Import domain http http_terms.

Lemma length_substring (n : nat) (s : string) :
  (String.length (String.substring 0 n s) <= n)%nat.
Proof.
  revert s. induction n as [|n IH]; intros s; destruct s as [|c s]; cbn; try lia.
  specialize (IH s). lia.
Qed.

Lemma doExecute_bounded (net : Network) (c : nat) (job : Job.t) :
  (String.length (fst (doExecute net c job)) <= 1024)%nat.
Proof.
  unfold doExecute, readLimited.
  destruct (net _ _ c) as [e|e|resp]; cbn [fst String.length]; try lia.
  destruct (500 <=? StatusCode resp); [| destruct (400 <=? StatusCode resp)];
    cbn [fst]; apply length_substring.
Qed.

Lemma retryLoop_bounded (net : Network) (job : Job.t) (maxRetries backoff : Z) (fuel : nat) :
  forall i c lastErr output tr res tr',
    (String.length output <= 1024)%nat ->
    retryLoop net job maxRetries backoff fuel i c lastErr output tr = Some (res, tr') ->
    (String.length (fst res) <= 1024)%nat.
Proof.
  induction fuel as [|fuel IH]; intros i c lastErr output tr res tr' Hout Hrun; [discriminate |].
  cbn [retryLoop] in Hrun.
  destruct (i <=? maxRetries).
  - pose proof (doExecute_bounded net c job) as Hdo.
    destruct (doExecute net c job) as [out err]. cbn [fst] in Hdo.
    destruct err as [e|].
    + destruct (retriable e).
      * destruct (i =? maxRetries).
        -- injection Hrun as <- _. exact Hout.
        -- eapply IH; [exact Hout | exact Hrun].
      * injection Hrun as <- _. exact Hdo.
    + injection Hrun as <- _. exact Hdo.
  - injection Hrun as <- _. exact Hout.
Qed.

(** X4: whatever the peer sends and however the retries go, the output
    [Execute] returns has at most 1024 bytes. *)
Theorem Execute_output_bounded (net : Network) (job : Job.t)
    (res : string * option error) (tr : list Event) :
  Execute net job = Some (res, tr) -> (String.length (fst res) <= 1024)%nat.
Proof.
  unfold Execute. intros Hrun.
  destruct (Job.RetryPolicy job) as [rp|].
  - destruct (RetryPolicy.MaxRetries rp =? 0).
    + injection Hrun as <- _. apply doExecute_bounded.
    + eapply retryLoop_bounded; [| exact Hrun]. cbn. lia.
  - injection Hrun as <- _. apply doExecute_bounded.
Qed.

Lemma Execute_output_bounded_witness :
  exists tr, Execute flaky pingTwice = Some (("pong", None), tr) /\
             (String.length "pong" <= 1024)%nat.
Proof.
  eexists. split; [vm_compute; reflexivity |].
  eapply (Execute_output_bounded flaky pingTwice ("pong", None)). vm_compute. reflexivity.
Defined.

(** X5: with a negative [MaxRetries], which [protoToDomain] lets
    through, the loop body is never entered: [Execute] sends no
    request at all and fails with an error that wraps nothing. *)
Theorem Execute_negative_retries (net : Network) (job : Job.t) (rp : RetryPolicy.t) :
  Job.RetryPolicy job = Some rp -> RetryPolicy.MaxRetries rp < 0 ->
  Execute net job =
    Some (("", Some (New (("job failed after " +:+ pretty (RetryPolicy.MaxRetries rp)
                           +:+ " retries: ") +:+ "%!w(<nil>)"))), []).
Proof.
  intros Hrp Hneg. unfold Execute. rewrite Hrp.
  destruct (Z.eqb_spec (RetryPolicy.MaxRetries rp) 0); [lia |].
  cbn [retryLoop]. destruct (Z.leb_spec 0 (RetryPolicy.MaxRetries rp)); [lia |].
  reflexivity.
Qed.

Lemma Execute_negative_retries_witness :
  Execute down (httpJob "http://svc.local/health"
                  (Some {| RetryPolicy.MaxRetries := -1; RetryPolicy.Backoff := Second |}))
  = Some (("", Some (New "job failed after -1 retries: %!w(<nil>)")), []).
Proof.
  apply (Execute_negative_retries down _
           {| RetryPolicy.MaxRetries := -1; RetryPolicy.Backoff := Second |});
    [reflexivity | cbn; lia].
Defined.

End http_more_facts.

(** ** More on the execution supervisor *)

Module worker_more_facts.
Import domain worker worker_terms worker_more_terms.

Lemma Save_kv (st : etcd.Store) (r : ExecutionRecord.t) :
  etcd.kv (fst (etcd.Save st r)) =
    match putAnswer (etcd.puts st) with
    | None => <[etcd.historyKey r := r]> (etcd.kv st)
    | Some _ => etcd.kv st
    end /\
  etcd.puts (fst (etcd.Save st r)) = tl (etcd.puts st) /\
  (snd (etcd.Save st r) = None <-> putAnswer (etcd.puts st) = None).
Proof.
  unfold etcd.Save, putAnswer. destruct (etcd.puts st) as [|[e|] rest]; cbn;
    repeat split; auto; discriminate.
Qed.

(** The fields of the record that [runJob] never assigns after
    creating it. *)
Lemma runJob_fields (s : Server) (tStart tEnd : Z) (executionID : string) (job : Job.t) :
  let r := record (runJob s tStart tEnd executionID job) in
  ExecutionRecord.ID r = executionID /\
  ExecutionRecord.JobName r = Job.Name job /\
  ExecutionRecord.StartTime r = tStart /\
  ExecutionRecord.WorkerID r = workerID s /\
  ExecutionRecord.RetriesAttempted r = 0 /\
  ExecutionRecord.Status r <> "".
Proof.
  cbn zeta. unfold runJob, runJobBody, lockGate.
  destruct (etcd.Save (execRepo s) _) as [st res].
  destruct (String.eqb _ _).
  - destruct (locker s _ _) as [lock|err].
    + unfold invoke. destruct (executors s !! _) as [ex|].
      * destruct (ex job) as [o [e|]|v]; cbn; destruct (etcd.Save st _); cbn;
          repeat split; discriminate.
      * cbn; destruct (etcd.Save st _); cbn; repeat split; discriminate.
    + cbn; destruct (etcd.Save st _); cbn; repeat split; discriminate.
  - unfold invoke. destruct (executors s !! _) as [ex|].
    + destruct (ex job) as [o [e|]|v]; cbn; destruct (etcd.Save st _); cbn;
        repeat split; discriminate.
    + cbn; destruct (etcd.Save st _); cbn; repeat split; discriminate.
Qed.

Ltac outcome_case :=
  match goal with
  | H : Returns _ _ = _ |- _ => inversion H; subst
  | H : Panics _ = _ |- _ => inversion H; subst
  end;
  repeat split; reflexivity.

(** X6: what the final record says once the gate is passed.  A missing
    executor gives a failed record naming the type, and no executor
    call; an executor that returns without error gives a success
    record with its output; one that returns an error gives a failed
    record with the text of the error and still its output; one that
    panics gives a failed record with no output.  The number of
    retries is zero in every record, whatever the executor did. *)
Theorem runJob_outcome (s : Server) (tStart tEnd : Z) (executionID : string) (job : Job.t) :
  gatePassed s job ->
  let f := runJob s tStart tEnd executionID job in
  let r := record f in
  ExecutionRecord.RetriesAttempted r = 0 /\
  (executors s !! Job.ExecutorType job = None ->
     ExecutionRecord.Status r = ExecutionStatusFailed /\
     ExecutionRecord.Error r = "no executor found for type: " +:+ Job.ExecutorType job /\
     ExecutionRecord.Output r = "" /\ count isExecute (trace f) = 0%nat) /\
  (forall ex, executors s !! Job.ExecutorType job = Some ex ->
     count isExecute (trace f) = 1%nat /\
     (forall o, ex job = Returns o None ->
        ExecutionRecord.Status r = ExecutionStatusSuccess /\
        ExecutionRecord.Error r = "" /\ ExecutionRecord.Output r = o) /\
     (forall o e, ex job = Returns o (Some e) ->
        ExecutionRecord.Status r = ExecutionStatusFailed /\
        ExecutionRecord.Error r = Error e /\ ExecutionRecord.Output r = o) /\
     (forall v, ex job = Panics v ->
        ExecutionRecord.Status r = ExecutionStatusFailed /\
        ExecutionRecord.Error r = "panic: " +:+ v /\ ExecutionRecord.Output r = "")).
Proof.
  intros Hgate. cbn zeta.
  split; [apply (runJob_fields s tStart tEnd executionID job) |].
  unfold runJob, runJobBody, lockGate.
  destruct (etcd.Save (execRepo s) _) as [st res].
  assert (Hpass : String.eqb (Job.ConcurrencyPolicy job) ConcurrencyPolicyForbid = false \/
                  exists lock, locker s (2 * Second) (Job.Name job) = inl lock).
  { destruct Hgate as [Hne | Hl]; [left; now apply String.eqb_neq | right; exact Hl]. }
  clear Hgate.
  destruct (String.eqb (Job.ConcurrencyPolicy job) ConcurrencyPolicyForbid) eqn:Hpol.
  - destruct Hpass as [Hne | [lock Hl]]; [discriminate |]. rewrite Hl.
    unfold invoke. destruct (executors s !! Job.ExecutorType job) as [ex|].
    + split; [discriminate |]. intros ex' [= <-].
      destruct (ex job) as [o [e|]|v]; cbn; destruct (etcd.Save st _); cbn;
        (split; [reflexivity |]); (split; [| split]); intros; outcome_case.
    + split; [| intros ? [=]]. intros _. cbn; destruct (etcd.Save st _); cbn.
      repeat split; reflexivity.
  - unfold invoke. destruct (executors s !! Job.ExecutorType job) as [ex|].
    + split; [discriminate |]. intros ex' [= <-].
      destruct (ex job) as [o [e|]|v]; cbn; destruct (etcd.Save st _); cbn;
        (split; [reflexivity |]); (split; [| split]); intros; outcome_case.
    + split; [| intros ? [=]]. intros _. cbn; destruct (etcd.Save st _); cbn.
      repeat split; reflexivity.
Qed.

Lemma runJob_outcome_witness :
  let r := record (runJob forgetfulServer 1700000000 1700000002 "exec-9"
                     (shellJob "report" "Allow")) in
  ExecutionRecord.Status r = "success" /\ ExecutionRecord.Error r = "" /\
  ExecutionRecord.Output r = "done" /\ ExecutionRecord.RetriesAttempted r = 0.
Proof.
  cbn zeta.
  destruct (runJob_outcome forgetfulServer 1700000000 1700000002 "exec-9"
              (shellJob "report" "Allow")) as (Hn & _ & Hex); [left; discriminate |].
  assert (Hlook : executors forgetfulServer !! Job.ExecutorType (shellJob "report" "Allow")
                  = Some (fun _ => Returns "done" None)) by (vm_compute; reflexivity).
  destruct (Hex _ Hlook) as (_ & Hok & _).
  destruct (Hok "done" eq_refl) as (Hs & He & Ho).
  split; [exact Hs | split; [exact He | split; [exact Ho | exact Hn]]].
Defined.

Ltac metric_split :=
  match goal with
  | |- exists pre post label, ?a :: EvMetric ?n ?l :: ?rest = _ /\ _ =>
      exists [a], rest, l
  | |- exists pre post label, ?a :: ?b :: EvMetric ?n ?l :: ?rest = _ /\ _ =>
      exists [a; b], rest, l
  | |- exists pre post label, ?a :: ?b :: ?c :: EvMetric ?n ?l :: ?rest = _ /\ _ =>
      exists [a; b; c], rest, l
  | |- exists pre post label, ?a :: ?b :: ?c :: ?d :: EvMetric ?n ?l :: ?rest = _ /\ _ =>
      exists [a; b; c; d], rest, l
  end.

Ltac metric_case :=
  cbn; destruct (etcd.Save _ _); cbn; metric_split;
  split; [reflexivity |]; split; [reflexivity |]; split; [reflexivity |];
  split; [auto |]; split; [intros; first [reflexivity | discriminate] |];
  intros; first [congruence | split; reflexivity
                | match goal with H : _ \/ _ |- _ => destruct H as [? | [? ?]]; congruence end ].

(** X7: every activation of [runJob] counts itself exactly once in the
    execution metric, under the name of the job, as failed or as
    success, and a count as failed goes with a failed record.  The
    converse fails: the label is chosen before a panic is recovered,
    so an execution whose executor panics is counted as a success
    while its record says failed. *)
Theorem runJob_metric (s : Server) (tStart tEnd : Z) (executionID : string) (job : Job.t) :
  let f := runJob s tStart tEnd executionID job in
  exists pre post label,
    trace f = pre ++ EvMetric (Job.Name job) label :: post /\
    count isMetric pre = 0%nat /\ count isMetric post = 0%nat /\
    (label = "failed" \/ label = "success") /\
    (label = "failed" -> ExecutionRecord.Status (record f) = ExecutionStatusFailed) /\
    (gatePassed s job -> forall ex v,
       executors s !! Job.ExecutorType job = Some ex -> ex job = Panics v ->
       label = "success" /\ ExecutionRecord.Status (record f) = ExecutionStatusFailed).
Proof.
  cbn zeta. unfold runJob, runJobBody, lockGate, gatePassed.
  destruct (etcd.Save (execRepo s) _) as [st res].
  destruct (String.eqb_spec (Job.ConcurrencyPolicy job) ConcurrencyPolicyForbid) as [Hf|Hf].
  - destruct (locker s (2 * Second) (Job.Name job)) as [lock|err] eqn:Hlock.
    + unfold invoke. destruct (executors s !! Job.ExecutorType job) as [ex|] eqn:Hex.
      * destruct (ex job) as [o [e|]|v] eqn:Hrun; metric_case.
      * metric_case.
    + metric_case.
  - unfold invoke. destruct (executors s !! Job.ExecutorType job) as [ex|] eqn:Hex.
    + destruct (ex job) as [o [e|]|v] eqn:Hrun; metric_case.
    + metric_case.
Qed.

(** X8: a job whose policy is not [Forbid] never meets the locker:
    two workers that differ only in their locker run it to the same
    frame, and the trace holds neither a lock request nor an unlock. *)
Theorem runJob_allow_ignores_locker (s s' : Server) (tStart tEnd : Z) (executionID : string)
    (job : Job.t) :
  Job.ConcurrencyPolicy job <> ConcurrencyPolicyForbid ->
  executors s' = executors s -> execRepo s' = execRepo s -> workerID s' = workerID s ->
  runJob s' tStart tEnd executionID job = runJob s tStart tEnd executionID job /\
  count isLock (trace (runJob s tStart tEnd executionID job)) = 0%nat /\
  count isUnlock (trace (runJob s tStart tEnd executionID job)) = 0%nat.
Proof.
  intros Hpol Hex Hrepo Hid.
  unfold runJob, runJobBody, lockGate, initialRecord, invoke.
  rewrite Hex, Hrepo, Hid.
  destruct (String.eqb_spec (Job.ConcurrencyPolicy job) ConcurrencyPolicyForbid) as [Hf|_];
    [contradiction |].
  split; [reflexivity |].
  destruct (etcd.Save (execRepo s) _) as [st res].
  destruct (executors s !! Job.ExecutorType job) as [ex|].
  - destruct (ex job) as [o [e|]|v]; cbn; destruct (etcd.Save st _); cbn; split; reflexivity.
  - cbn; destruct (etcd.Save st _); cbn; split; reflexivity.
Qed.

Lemma runJob_allow_ignores_locker_witness :
  runJob busyServer 1700000000 1700000002 "exec-3" (shellJob "report" "Allow")
  = runJob {| executors := executors busyServer; locker := fun _ _ => inr ErrLockNotAcquired;
              execRepo := execRepo busyServer; workerID := workerID busyServer |}
           1700000000 1700000002 "exec-3" (shellJob "report" "Allow").
Proof.
  apply (runJob_allow_ignores_locker
           {| executors := executors busyServer; locker := fun _ _ => inr ErrLockNotAcquired;
              execRepo := execRepo busyServer; workerID := workerID busyServer |}
           busyServer 1700000000 1700000002 "exec-3" (shellJob "report" "Allow"));
    [discriminate | reflexivity | reflexivity | reflexivity].
Defined.

(** The store [runJob] leaves behind, by the answers to its two
    [Put]s. *)
Ltac store_case :=
  cbn; unfold etcd.Save; destruct (etcd.puts _) as [|[?|] ?]; cbn; split; reflexivity.

Lemma runJob_store_eq (s : Server) (tStart tEnd : Z) (executionID : string) (job : Job.t) :
  let f := runJob s tStart tEnd executionID job in
  let r0 := initialRecord s tStart executionID job in
  let st1 := fst (etcd.Save (execRepo s) r0) in
  etcd.historyKey (record f) = etcd.historyKey r0 /\
  store f = fst (etcd.Save st1 (record f)).
Proof.
  cbn zeta. unfold runJob, runJobBody, lockGate.
  destruct (etcd.Save (execRepo s) _) as [st res]. cbn [fst].
  destruct (String.eqb _ _).
  - destruct (locker s _ _) as [lock|err].
    + unfold invoke. destruct (executors s !! _) as [ex|].
      * destruct (ex job) as [o [e|]|v]; store_case.
      * store_case.
    + store_case.
  - unfold invoke. destruct (executors s !! _) as [ex|].
    + destruct (ex job) as [o [e|]|v]; store_case.
    + store_case.
Qed.

(** The history after [runJob], by the answers to its two [Put]s. *)
Lemma runJob_kv (s : Server) (tStart tEnd : Z) (executionID : string)
    (job : Job.t) :
  let f := runJob s tStart tEnd executionID job in
  let r0 := initialRecord s tStart executionID job in
  let key := etcd.historyKey r0 in
  let first := putAnswer (etcd.puts (execRepo s)) in
  let final := putAnswer (tl (etcd.puts (execRepo s))) in
  (final = None -> etcd.kv (store f) = <[key := record f]> (etcd.kv (execRepo s))) /\
  (first = None -> final <> None ->
     etcd.kv (store f) = <[key := r0]> (etcd.kv (execRepo s)) /\
     ExecutionRecord.Status r0 = ExecutionStatusRunning /\ ExecutionRecord.EndTime r0 = 0) /\
  (first <> None -> final <> None -> etcd.kv (store f) = etcd.kv (execRepo s)).
Proof.
  cbn zeta.
  destruct (runJob_store_eq s tStart tEnd executionID job) as [Hkey Hstore].
  cbn zeta in Hkey, Hstore. rewrite Hstore.
  set (r0 := initialRecord s tStart executionID job) in *.
  destruct (Save_kv (execRepo s) r0) as (Hkv1 & Hputs1 & _).
  destruct (Save_kv (fst (etcd.Save (execRepo s) r0))
              (record (runJob s tStart tEnd executionID job))) as (Hkv2 & _ & _).
  rewrite Hkv2, Hputs1, Hkv1, Hkey.
  destruct (putAnswer (tl (etcd.puts (execRepo s)))) as [e2|];
    destruct (putAnswer (etcd.puts (execRepo s))) as [e1|].
  - repeat split; congruence.
  - split; [discriminate |]. split; [| congruence]. intros _ _. repeat split; reflexivity.
  - split; [reflexivity |]. split; congruence.
  - split; [intros _; apply insert_insert_eq |]. split; congruence.
Qed.



(** X10: the records [runJob] hands to the repository are complete
    ([Validate] accepts the final record) exactly when the execution
    id and the job name are not empty and the clock reading of the
    start is not the zero time; [runJob] itself never asks. *)
Theorem runJob_record_valid (s : Server) (tStart tEnd : Z) (executionID : string) (job : Job.t) :
  execution.Validate (record (runJob s tStart tEnd executionID job)) = None <->
  executionID <> "" /\ Job.Name job <> "" /\ tStart <> 0.
Proof.
  destruct (runJob_fields s tStart tEnd executionID job) as (Hid & Hname & Hstart & _ & _ & Hst).
  cbn zeta in *. unfold execution.Validate. rewrite Hid, Hname, Hstart.
  destruct (String.eqb_spec executionID ""); [split; [discriminate | tauto] |].
  destruct (String.eqb_spec (Job.Name job) ""); [split; [discriminate | tauto] |].
  destruct (Z.eqb_spec tStart 0); [split; [discriminate | tauto] |].
  destruct (String.eqb_spec (ExecutionRecord.Status
              (record (runJob s tStart tEnd executionID job))) ""); [contradiction |].
  tauto.
Qed.

End worker_more_facts.

(** ** More on the scheduler *)

Module scheduler_more_facts.
Import domain scheduler scheduler_terms scheduler_more_terms.

Section Names.
Variable Schedule : Type.
Variable parse : string -> Schedule + error.

Abbreviation sched := (cronScheduler Schedule).

Lemma NoDup_map_filter {A B : Type} (f : A -> B) (p : A -> bool) (l : list A) :
  NoDup (List.map f l) -> NoDup (List.map f (List.filter p l)).
Proof.
  induction l as [|a l IH]; cbn; intros H; [constructor |].
  apply NoDup_cons in H as [Hin Hnd]. destruct (p a); cbn; [| auto].
  apply NoDup_cons. split; [| auto].
  intros Hin'. apply Hin. apply list_elem_of_In in Hin'. apply list_elem_of_In.
  apply List.in_map_iff in Hin' as (x & Hx & Hx'). apply List.filter_In in Hx' as [Hx' _].
  apply List.in_map_iff. eauto.
Qed.

Lemma names_entriesBut (name : string) (s : sched) :
  NoDup (jobNames s) ->
  NoDup (List.map (fun e => Job.Name (cron.EntryJob e)) (entriesBut name s)) /\
  ~ In name (List.map (fun e => Job.Name (cron.EntryJob e)) (entriesBut name s)).
Proof.
  intros Hnd. split; [now apply NoDup_map_filter |].
  intros (e & He & Hin)%List.in_map_iff.
  apply (scheduler_facts.In_entriesBut Schedule parse) in Hin as [_ Hne]. congruence.
Qed.

Lemma step_names (op : Op) (s : sched) :
  consistent s -> NoDup (jobNames s) -> NoDup (jobNames (step parse s op)).
Proof.
  intros Hc Hnd. destruct op as [job|name| |]; cbn; [| | exact Hnd | exact Hnd].
  - destruct (scheduler_facts.cleared_entries Schedule (Job.Name job) s Hc) as (Hent & _ & _).
    destruct (names_entriesBut (Job.Name job) s Hnd) as [Hnd' Hnot].
    unfold AddJob, cron.AddJob. fold (cleared (Job.Name job) s).
    destruct (parse (Job.CronExpr job)) as [sch|err]; unfold jobNames; cbn; rewrite Hent;
      [| exact Hnd'].
    rewrite List.map_app. cbn. apply NoDup_app. split; [exact Hnd' |]. split.
    + intros x Hx [->|[]%elem_of_nil]%elem_of_cons. apply Hnot. now apply list_elem_of_In.
    + apply NoDup_singleton.
  - destruct (scheduler_facts.cleared_entries Schedule name s Hc) as (Hent & _ & _).
    unfold RemoveJob. unfold cleared in Hent.
    destruct (jobs s !! name) as [old|]; cbn; [| exact Hnd].
    unfold jobNames. cbn. cbn in Hent. rewrite Hent.
    now apply NoDup_map_filter.
Qed.

Lemma fold_names (ops : list Op) (s : sched) :
  consistent s -> NoDup (jobNames s) ->
  NoDup (jobNames (fold_left (step parse) ops s)).
Proof.
  revert s. induction ops as [|op ops IH]; intros s Hc Hnd; cbn; [exact Hnd |].
  apply IH; [| now apply step_names].
  apply (scheduler_facts.fold_consistent Schedule parse [op] s Hc).
Qed.

Lemma after_names (ops : list Op) : NoDup (jobNames (after parse ops)).
Proof.
  apply fold_names; [apply (scheduler_facts.New_consistent Schedule parse) | constructor].
Qed.

Lemma same_short {A : Type} (a : A) (l : list A) :
  NoDup l -> (forall x, In x l -> x = a) -> (length l <= 1)%nat.
Proof.
  destruct l as [|x [|y l]]; cbn; intros Hnd Hall; try lia.
  exfalso. apply NoDup_cons in Hnd as [Hin _]. apply Hin.
  rewrite (Hall x), (Hall y) by auto. left.
Qed.

End Names.

(** X11: on a scheduler built by any history of calls, the wheel never
    holds two entries for one job name: the names of the entries are
    pairwise distinct, a name has at most one entry, and the jobs the
    wheel fires at an instant have pairwise distinct names. *)
Theorem one_entry_per_name (Schedule : Type) (parse : string -> Schedule + error)
    (ops : list Op) (name : string) (due : Schedule -> bool) :
  let s := after parse ops in
  NoDup (jobNames s) /\
  (length (entriesFor name s) <= 1)%nat /\
  NoDup (List.map Job.Name (dispatched due s)).
Proof.
  cbn zeta. pose proof (after_names Schedule parse ops) as Hnd.
  split; [exact Hnd |]. split.
  - rewrite <- (List.length_map (fun e => Job.Name (cron.EntryJob e))).
    apply (same_short name); [now apply NoDup_map_filter |].
    intros x (e & <- & [_ He]%List.filter_In)%List.in_map_iff.
    now apply String.eqb_eq.
  - unfold dispatched, cron.fired. destruct (cron.running _); [| constructor].
    rewrite List.map_map. now apply NoDup_map_filter.
Qed.

Lemma RemoveJob_consistent_effect (Schedule : Type) (name : string)
    (s : cronScheduler Schedule) :
  consistent s ->
  let s' := fst (RemoveJob name s) in
  snd (RemoveJob name s) = None /\
  entriesFor name s' = [] /\
  entriesBut name s' = entriesBut name s /\
  jobs s' !! name = None /\
  (forall n, n <> name -> jobs s' !! n = jobs s !! n) /\
  cron.running (cron s') = cron.running (cron s) /\
  RemoveJob name s' = (s', None).
Proof.
  intros Hc. cbn zeta.
  destruct (scheduler_facts.cleared_entries Schedule name s Hc) as (Hent & _ & _).
  unfold RemoveJob, cleared in *.
  destruct (jobs s !! name) as [old|] eqn:Hold; cbn in *.
  - unfold entriesFor, entriesBut. cbn. rewrite Hent. unfold entriesBut.
    rewrite scheduler_facts.filter_filter_neg, scheduler_facts.filter_neg_idem.
    rewrite lookup_delete_eq.
    repeat split; auto. intros n Hn. now apply lookup_delete_ne.
  - rewrite Hold. repeat split; auto.
    unfold entriesFor. rewrite Hent. unfold entriesBut.
    apply scheduler_facts.filter_filter_neg.
Qed.

(** X12: [RemoveJob] on a scheduler built by any history of calls
    never fails; afterwards the wheel holds no entry for the name and
    the table no id, the entries and ids of all other names are as
    they were, the wheel keeps running or standing, and a second
    [RemoveJob] for the name changes nothing.  A name that was never
    added is removed as silently. *)
Theorem RemoveJob_effect (Schedule : Type) (parse : string -> Schedule + error)
    (ops : list Op) (name : string) :
  let s := after parse ops in
  let s' := fst (RemoveJob name s) in
  snd (RemoveJob name s) = None /\
  entriesFor name s' = [] /\
  entriesBut name s' = entriesBut name s /\
  jobs s' !! name = None /\
  (forall n, n <> name -> jobs s' !! n = jobs s !! n) /\
  cron.running (cron s') = cron.running (cron s) /\
  RemoveJob name s' = (s', None).
Proof.
  apply (RemoveJob_consistent_effect Schedule).
  apply scheduler_facts.after_consistent.
Qed.

End scheduler_more_facts.

(** ** More on the leader-bound scheduler service *)

Module usecase_more_facts.
Import domain usecase usecase_terms.

Section Loading.
Variable Schedule : Type.
Variable parse : string -> Schedule + error.

Lemma AddJob_result (job : Job.t) (c : scheduler.cronScheduler Schedule) :
  snd (scheduler.AddJob parse job c) =
    match parse (Job.CronExpr job) with inl _ => None | inr err => Some err end.
Proof.
  unfold scheduler.AddJob, cron.AddJob.
  destruct (parse (Job.CronExpr job)); reflexivity.
Qed.

Lemma addJobs_app (good rest : list Job.t) (c : scheduler.cronScheduler Schedule) :
  (forall j, In j good -> exists sch, parse (Job.CronExpr j) = inl sch) ->
  snd (addJobs parse good c) = None /\
  addJobs parse (good ++ rest) c = addJobs parse rest (fst (addJobs parse good c)).
Proof.
  revert c. induction good as [|j good IH]; intros c Hgood; cbn; [auto |].
  destruct (Hgood j) as [sch Hsch]; [now left |].
  pose proof (AddJob_result j c) as Hres. rewrite Hsch in Hres.
  destruct (scheduler.AddJob parse j c) as [c' [err|]]; cbn in Hres; [discriminate |].
  apply IH. intros j' Hj'. apply Hgood. now right.
Qed.

Lemma runSchedular_attended (listed : list Job.t + error) (s : SchedularService Schedule) :
  attended s -> attended (runSchedular parse listed s).
Proof.
  unfold attended, runSchedular. intros Hs. destruct listed as [jobs|err]; cbn; [| exact Hs].
  pose proof (usecase_facts.addJobs_running Schedule parse jobs (schedular s)) as Hadd.
  destruct (addJobs parse jobs (schedular s)) as [c [err|]]; cbn in *; [| lia].
  now rewrite Hadd.
Qed.

Lemma Start_returns (script : list Round) :
  forall (s : SchedularService Schedule) (e : error),
    attended s -> snd (Start parse script s) = Some e ->
    e = Canceled /\
    cron.running (scheduler.cron (schedular (fst (Start parse script s)))) = false /\
    ctxDone (fst (Start parse script s)) = true /\
    exists l, log (fst (Start parse script s)) = l ++ [EvStop].
Proof.
  assert (Hcancel : forall s : SchedularService Schedule, attended s ->
            cron.running (scheduler.cron (schedular (stop (cancel s)))) = false).
  { intros s Hs. unfold attended in Hs. cbn. destruct (waiting s); [| reflexivity].
    destruct (cron.running (scheduler.cron (schedular s))); [| reflexivity].
    specialize (Hs eq_refl). lia. }
  induction script as [|round script IH]; intros s e Hs Hret; cbn in *; [discriminate |].
  destruct round as [|err|listed [|]]; cbn in *.
  - injection Hret as <-. split; [reflexivity |]. split; [now apply Hcancel |].
    split; [reflexivity |]. eexists; reflexivity.
  - apply IH; [exact Hs | exact Hret].
  - apply IH; [| exact Hret].
    apply (runSchedular_attended listed (emit EvCampaign s)). exact Hs.
  - injection Hret as <-. split; [reflexivity |]. split.
    + apply (Hcancel (runSchedular parse listed (emit EvCampaign s))).
      apply runSchedular_attended. exact Hs.
    + split; [reflexivity |]. eexists; reflexivity.
Qed.

End Loading.

(** X13: one job whose cron expression does not parse keeps the whole
    node from scheduling.  When [runSchedular] meets it in the list of
    the repository, the jobs before it have been added, its own
    previous entry has been removed, the jobs after it are never
    looked at, and the goroutine that starts the wheel is not started:
    the wheel is left as it was. *)
Theorem runSchedular_bad_job (Schedule : Type) (parse : string -> Schedule + error)
    (good rest : list Job.t) (bad : Job.t) (err : error) (s : SchedularService Schedule) :
  (forall j, In j good -> exists sch, parse (Job.CronExpr j) = inl sch) ->
  parse (Job.CronExpr bad) = inr err ->
  let s' := runSchedular parse (inl (good ++ bad :: rest)) s in
  log s' = log s ++ [EvList] /\
  waiting s' = waiting s /\
  cron.running (scheduler.cron (schedular s')) = cron.running (scheduler.cron (schedular s)) /\
  schedular s' = fst (scheduler.AddJob parse bad (fst (addJobs parse good (schedular s)))).
Proof.
  intros Hgood Hbad. cbn zeta. unfold runSchedular. cbn [schedular emit].
  destruct (addJobs_app Schedule parse good (bad :: rest) (schedular s) Hgood) as [_ Happ].
  rewrite Happ. cbn [addJobs].
  pose proof (AddJob_result Schedule parse bad (fst (addJobs parse good (schedular s)))) as Hres.
  rewrite Hbad in Hres.
  pose proof (usecase_facts.AddJob_running Schedule parse bad
                (fst (addJobs parse good (schedular s)))) as Hrun.
  pose proof (usecase_facts.addJobs_running Schedule parse good (schedular s)) as Hrun'.
  destruct (scheduler.AddJob parse bad (fst (addJobs parse good (schedular s))))
    as [c [e|]]; cbn in *; [| discriminate].
  repeat split; congruence.
Qed.

Lemma runSchedular_bad_job_witness :
  let s' := runSchedular cron.sixFields
              (inl ([shellJobAt "report" "*/5 * * * * *"]
                    ++ shellJobAt "backup" "nightly" :: [shellJobAt "sweep" "0 0 * * * *"]))
              NewSchedularService in
  log s' = [EvList] /\ waiting s' = 0%nat /\
  cron.running (scheduler.cron (schedular s')) = false.
Proof.
  cbn zeta.
  destruct (runSchedular_bad_job (list string) cron.sixFields
              [shellJobAt "report" "*/5 * * * * *"] [shellJobAt "sweep" "0 0 * * * *"]
              (shellJobAt "backup" "nightly")
              (New "expected exactly 6 fields, found 1: [nightly]")
              NewSchedularService) as (Hlog & Hwait & Hrun & _).
  - intros j [<- | []]. eexists. reflexivity.
  - reflexivity.
  - split; [exact Hlog | split; [exact Hwait | exact Hrun]].
Defined.

(** X14: [Start] on a new service returns only when the root context
    is done, and then with [context.Canceled]; when it has returned
    the wheel stands, so nothing is dispatched any more, and the last
    thing it did was to call [schedular.Stop()]. *)
Theorem Start_returns_cancelled (Schedule : Type) (parse : string -> Schedule + error)
    (script : list Round) (e : error) (due : Schedule -> bool) :
  snd (Start parse script NewSchedularService) = Some e ->
  let s := fst (Start parse script NewSchedularService) in
  e = Canceled /\
  cron.running (scheduler.cron (schedular s)) = false /\
  scheduler.dispatched due (schedular s) = [] /\
  ctxDone s = true /\
  exists l, log s = l ++ [EvStop].
Proof.
  intros Hret. cbn zeta.
  destruct (Start_returns Schedule parse script NewSchedularService e) as (He & Hrun & Hdone & Hlog);
    [intros H; discriminate H | exact Hret |].
  split; [exact He |]. split; [exact Hrun |].
  split; [unfold scheduler.dispatched, cron.fired; now rewrite Hrun |].
  split; [exact Hdone | exact Hlog].
Qed.

Lemma Start_returns_cancelled_witness :
  let s := fst (Start cron.sixFields
                  [CampaignFails (New "etcdserver: no leader");
                   CampaignWon (inl [shellJobAt "report" "*/5 * * * * *"]) LeadershipLost;
                   CampaignWon (inl [shellJobAt "report" "*/5 * * * * *"]) ContextDone]
                  NewSchedularService) in
  cron.running (scheduler.cron (schedular s)) = false /\
  scheduler.dispatched (fun _ => true) (schedular s) = [].
Proof.
  cbn zeta.
  destruct (Start_returns_cancelled (list string) cron.sixFields
              [CampaignFails (New "etcdserver: no leader");
               CampaignWon (inl [shellJobAt "report" "*/5 * * * * *"]) LeadershipLost;
               CampaignWon (inl [shellJobAt "report" "*/5 * * * * *"]) ContextDone]
              Canceled (fun _ => true)) as (_ & Hrun & Hnone & _).
  - vm_compute. reflexivity.
  - split; [exact Hrun | exact Hnone].
Defined.

Lemma running_until_cancelled_witness :
  let s := fst (Start cron.sixFields
                  [CampaignWon (inl [shellJobAt "report" "*/5 * * * * *"]) LeadershipLost]
                  NewSchedularService) in
  cron.running (scheduler.cron (schedular (fst (Start cron.sixFields
    [CampaignFails (New "etcdserver: no leader");
     CampaignWon (inr (New "etcdserver: request timed out")) LeadershipLost] s)))) = true.
Proof.
  cbn zeta.
  apply (usecase_facts.running_until_cancelled (list string) cron.sixFields);
    vm_compute; reflexivity.
Defined.

End usecase_more_facts.

(** ** Worker discovery *)

Module discovery_facts.
Import domain master discovery_watch master_more_terms.

Lemma applyEvent_lookup (ev : WatchEvent) (d : WorkerDiscovery) (k : string) :
  workers (applyEvent ev d) !! k =
    if decide (k = keyOf ev) then leaves ev else workers d !! k.
Proof.
  destruct ev as [key value|key]; cbn; destruct (decide (k = key)) as [->|Hne].
  - apply lookup_insert_eq.
  - now apply lookup_insert_ne.
  - apply lookup_delete_eq.
  - now apply lookup_delete_ne.
Qed.

Lemma events_untouched (events : list WatchEvent) (k : string) :
  forall d : WorkerDiscovery,
    (forall e, In e events -> keyOf e <> k) ->
    workers (fold_left (fun d ev => applyEvent ev d) events d) !! k = workers d !! k.
Proof.
  induction events as [|ev events IH]; intros d Hno; cbn; [reflexivity |].
  rewrite IH by (intros e He; apply Hno; now right).
  rewrite applyEvent_lookup. destruct (decide (k = keyOf ev)) as [->|_]; [| reflexivity].
  exfalso. apply (Hno ev); [now left | reflexivity].
Qed.

Lemma GetWorkers_In (d : WorkerDiscovery) (addr : string) :
  In addr (GetWorkers d) <-> exists id, workers d !! id = Some addr.
Proof.
  unfold GetWorkers. rewrite <- list_elem_of_In, list_elem_of_fmap. split.
  - intros ([id a] & -> & Hin). exists id. now apply elem_of_map_to_list.
  - intros [id Hid]. exists (id, addr). split; [reflexivity | now apply elem_of_map_to_list].
Qed.

(** X15: the snapshot [GetWorkers] returns has one address for every
    registered worker id, so its length is the size of the map and an
    address registered under two ids is in it twice; an address is in
    the snapshot exactly when some id is registered with it. *)
Theorem GetWorkers_snapshot (d : WorkerDiscovery) :
  length (GetWorkers d) = size (workers d) /\
  (forall addr, In addr (GetWorkers d) <-> exists id, workers d !! id = Some addr) /\
  (GetWorkers d = [] <-> workers d = ∅).
Proof.
  split; [| split].
  - unfold GetWorkers. now rewrite length_fmap, length_map_to_list.
  - apply GetWorkers_In.
  - unfold GetWorkers. split.
    + intros H. apply map_size_empty_inv. rewrite <- length_map_to_list.
      rewrite <- (length_fmap snd). now rewrite H.
    + intros ->. now rewrite map_to_list_empty.
Qed.

(** X16: the watch keeps, for every worker id, what the last event
    about that id says: after a put the id is registered with the
    address of the event, which is then in the snapshot; after a
    delete the id is gone.  An id no event is about stays as the
    initial load left it, and as it was before if the initial load
    failed: the error of the initial load does not end the watch. *)
Theorem WatchWorkers_last_event (resp : list (string * string) + error)
    (pre post : list WatchEvent) (ev : WatchEvent) (d : WorkerDiscovery) :
  (forall e, In e post -> keyOf e <> keyOf ev) ->
  let d' := WatchWorkers resp (pre ++ ev :: post) d in
  workers d' !! keyOf ev = leaves ev /\
  (forall addr, leaves ev = Some addr -> In addr (GetWorkers d')) /\
  (forall k, (forall e, In e (pre ++ ev :: post) -> keyOf e <> k) ->
     workers d' !! k = workers (fst (loadInitialWorkers resp d)) !! k) /\
  (forall err, resp = inr err -> fst (loadInitialWorkers resp d) = d).
Proof.
  intros Hpost. cbn zeta.
  assert (Hlast : workers (WatchWorkers resp (pre ++ ev :: post) d) !! keyOf ev = leaves ev).
  { unfold WatchWorkers. rewrite fold_left_app. cbn [fold_left].
    rewrite events_untouched by exact Hpost.
    rewrite applyEvent_lookup. now destruct (decide (keyOf ev = keyOf ev)). }
  split; [exact Hlast |]. split; [| split].
  - intros addr Haddr. apply GetWorkers_In. exists (keyOf ev). now rewrite Hlast.
  - intros k Hno. unfold WatchWorkers. now apply events_untouched.
  - intros err ->. reflexivity.
Qed.

Lemma WatchWorkers_last_event_witness :
  let d' := WatchWorkers (inr (New "context deadline exceeded"))
              ([EventTypePut "/cron/workers/w-1" "10.0.0.5:50052"]
               ++ EventTypePut "/cron/workers/w-1" "10.0.0.6:50052"
               :: [EventTypeDelete "/cron/workers/w-2"])
              {| workers := {[ "/cron/workers/w-2" := "10.0.0.9:50052" ]} |} in
  workers d' !! "/cron/workers/w-1" = Some "10.0.0.6:50052" /\
  In "10.0.0.6:50052" (GetWorkers d').
Proof.
  cbn zeta.
  destruct (WatchWorkers_last_event (inr (New "context deadline exceeded"))
              [EventTypePut "/cron/workers/w-1" "10.0.0.5:50052"]
              [EventTypeDelete "/cron/workers/w-2"]
              (EventTypePut "/cron/workers/w-1" "10.0.0.6:50052")
              {| workers := {[ "/cron/workers/w-2" := "10.0.0.9:50052" ]} |})
    as (Hlook & Hsnap & _).
  - intros e [<- | []]. cbn. discriminate.
  - split; [exact Hlook | apply Hsnap; reflexivity].
Defined.

End discovery_facts.

(** ** The client cache of the dispatcher *)

Module dispatcher_cache_facts.
Import domain master master_terms master_more_terms.

Lemma picked_In (ws : list string) (i : Z) (addr : string) :
  (if 0 <=? i then ws !! Z.to_nat i else None) = Some addr -> In addr ws.
Proof.
  destruct (0 <=? i); [| discriminate]. intros H.
  apply list_elem_of_In. eapply list_elem_of_lookup_2; eauto.
Qed.

Ltac same_cache :=
  cbn; split; [reflexivity | split; [reflexivity | intros ? ? ?; contradiction]].

(** X17: the dispatcher never drops a connection.  Whatever a
    [DispatchTask] call does and however it ends, the clients cached
    before are cached afterwards, also the one whose RPC has just
    failed; at most one client is added, for an address of the
    snapshot for which [grpc.NewClient] gave no error; and the
    discovery is not written. *)
Theorem DispatchTask_never_evicts (env : Env) (job : Job.t) (d : Dispatcher) :
  let d' := fst (fst (DispatchTask env job d)) in
  discovery d' = discovery d /\
  clients d ⊆ clients d' /\
  (forall a, a ∈ clients d' -> a ∉ clients d ->
     In a (GetWorkers (discovery d)) /\ NewClient env a = None /\
     clients d' = {[a]} ∪ clients d).
Proof.
  cbn zeta. unfold DispatchTask.
  destruct (length (GetWorkers (discovery d)) =? 0)%nat; [same_cache |].
  destruct (if 0 <=? Intn env _ then _ else None) as [addr|] eqn:Hpick; [| same_cache].
  apply picked_In in Hpick.
  unfold getOrCreateClient.
  destruct (bool_decide (addr ∈ clients d)) eqn:Hin.
  - destruct (domainToProto env job) as [req|err]; [| same_cache].
    destruct (ExecuteTask env addr req); same_cache.
  - apply bool_decide_eq_false in Hin.
    destruct (NewClient env addr) as [err|] eqn:Hnew; [same_cache |].
    assert (Hadd : forall a, a ∈ {[addr]} ∪ clients d -> a ∉ clients d ->
              In a (GetWorkers (discovery d)) /\ NewClient env a = None /\
              {[addr]} ∪ clients d = {[a]} ∪ clients d).
    { intros a [Ha%elem_of_singleton | Ha]%elem_of_union Hout; [| contradiction].
      subst a. auto. }
    destruct (domainToProto env job) as [req|err];
      [destruct (ExecuteTask env addr req) |]; cbn;
      (split; [reflexivity | split; [apply union_subseteq_r | exact Hadd]]).
Qed.

(** X18: once every address of the snapshot has a cached client,
    [DispatchTask] makes no new connection: the call goes the same way
    whatever [grpc.NewClient] would answer, and leaves the dispatcher
    as it was. *)
Theorem DispatchTask_cached (env env' : Env) (job : Job.t) (d : Dispatcher) :
  Intn env' = Intn env -> ExecuteTask env' = ExecuteTask env ->
  DurationString env' = DurationString env ->
  (forall a, In a (GetWorkers (discovery d)) -> a ∈ clients d) ->
  DispatchTask env' job d = DispatchTask env job d /\
  fst (fst (DispatchTask env job d)) = d.
Proof.
  intros Hintn Hexec Hdur Hwarm. unfold DispatchTask. rewrite Hintn.
  destruct (length (GetWorkers (discovery d)) =? 0)%nat; [split; reflexivity |].
  destruct (if 0 <=? Intn env _ then _ else None) as [addr|] eqn:Hpick; [| split; reflexivity].
  apply picked_In in Hpick. apply Hwarm in Hpick.
  unfold getOrCreateClient. rewrite (bool_decide_eq_true_2 _ Hpick).
  assert (Hconv : domainToProto env' job = domainToProto env job).
  { unfold domainToProto. now rewrite Hdur. }
  rewrite Hconv, Hexec.
  destruct (domainToProto env job) as [req|err]; [| split; reflexivity].
  destruct (ExecuteTask env addr req); split; reflexivity.
Qed.

Lemma DispatchTask_cached_witness :
  DispatchTask noDial (shellJob "report" "Allow") warmDispatcher
  = DispatchTask calm (shellJob "report" "Allow") warmDispatcher /\
  fst (fst (DispatchTask calm (shellJob "report" "Allow") warmDispatcher)) = warmDispatcher.
Proof.
  apply (DispatchTask_cached calm noDial); try reflexivity.
  intros a Ha.
  assert (Hws : GetWorkers (discovery warmDispatcher) = ["10.0.0.5:50052"])
    by (vm_compute; reflexivity).
  rewrite Hws in Ha. destruct Ha as [<- | []].
  change ("10.0.0.5:50052" ∈ ({[ "10.0.0.5:50052" ]} : gset string)).
  apply elem_of_singleton. reflexivity.
Defined.

End dispatcher_cache_facts.

(** ** The execution history *)

Module history_facts.
Import domain execution_history storage_terms worker worker_more_terms.

Lemma int_small (x : Z) : - 2 ^ 63 <= x < 2 ^ 63 -> int x = x.
Proof. intros H. unfold int. rewrite Z.mod_small; lia. Qed.

Lemma pageLoop_inside (kvs : list (option ExecutionRecord.t)) :
  forall i startIdx endIdx,
    startIdx <= i <= endIdx ->
    pageLoop kvs i startIdx endIdx = decoded (take (Z.to_nat (endIdx - i)) kvs).
Proof.
  induction kvs as [|kv kvs IH]; intros i a b Hi; cbn.
  - now rewrite take_nil.
  - destruct (Z.ltb_spec i a); [lia |].
    destruct (Z.leb_spec b i).
    + replace (b - i) with 0 by lia. reflexivity.
    + replace (Z.to_nat (b - i)) with (S (Z.to_nat (b - (i + 1)))) by lia.
      rewrite IH by lia. destruct kv; reflexivity.
Qed.

Lemma pageLoop_before (kvs : list (option ExecutionRecord.t)) :
  forall i startIdx endIdx,
    i <= startIdx <= endIdx ->
    pageLoop kvs i startIdx endIdx =
      decoded (take (Z.to_nat (endIdx - startIdx)) (drop (Z.to_nat (startIdx - i)) kvs)).
Proof.
  induction kvs as [|kv kvs IH]; intros i a b Hi; cbn.
  - now rewrite drop_nil, take_nil.
  - destruct (Z.ltb_spec i a).
    + replace (Z.to_nat (a - i)) with (S (Z.to_nat (a - (i + 1)))) by lia.
      rewrite IH by lia. reflexivity.
    + assert (i = a) as -> by lia. replace (a - a) with 0 by lia. cbn [Z.to_nat drop].
      pose proof (pageLoop_inside (kv :: kvs) a a b) as Hin. cbn in Hin.
      destruct (Z.ltb_spec a a); [lia |]. apply Hin. lia.
Qed.

Lemma decoded_length (kvs : list (option ExecutionRecord.t)) :
  (length (decoded kvs) <= length kvs)%nat.
Proof. unfold decoded. induction kvs as [|[r|] kvs IH]; cbn; lia. Qed.

Lemma ListByJobName_page_bound (kvs : list (option ExecutionRecord.t)) (jobName : string)
    (page pageSize : Z) :
  1 <= page -> 0 <= pageSize -> page * pageSize < 2 ^ 63 ->
  exists records,
    ListByJobName (inl kvs) jobName page pageSize = inl records /\
    records = decoded (take (Z.to_nat pageSize) (drop (Z.to_nat ((page - 1) * pageSize)) kvs)) /\
    (length records <= Z.to_nat pageSize)%nat.
Proof.
  intros Hpage Hsize Hfit.
  assert (Hstart : 0 <= (page - 1) * pageSize) by nia.
  assert (Hend : (page - 1) * pageSize + pageSize < 2 ^ 63) by nia.
  eexists. split; [reflexivity |].
  rewrite !int_small by lia.
  rewrite pageLoop_before by lia.
  replace ((page - 1) * pageSize + pageSize - (page - 1) * pageSize) with pageSize by lia.
  replace ((page - 1) * pageSize - 0) with ((page - 1) * pageSize) by lia.
  split; [reflexivity |].
  etransitivity; [apply decoded_length |]. rewrite length_take. lia.
Qed.

(** X19: a page of the history.  For a page number from 1 on and a
    page size whose product fits an [int], [ListByJobName] returns
    the records that decode among the raw values [(page-1)*pageSize]
    to [page*pageSize-1] of the listing, in the order of the listing.
    A value that does not decode is dropped from its page and not
    replaced, so a page can be shorter than [pageSize] before the end
    of the listing; it is never longer, and it is empty once the
    listing is exhausted. *)
Theorem ListByJobName_page (kvs : list (option ExecutionRecord.t)) (jobName : string)
    (page pageSize : Z) :
  1 <= page -> 0 <= pageSize -> page * pageSize < 2 ^ 63 ->
  exists records,
    ListByJobName (inl kvs) jobName page pageSize = inl records /\
    records = decoded (take (Z.to_nat pageSize) (drop (Z.to_nat ((page - 1) * pageSize)) kvs)) /\
    (length records <= Z.to_nat pageSize)%nat /\
    (Z.of_nat (length kvs) <= (page - 1) * pageSize -> records = []).
Proof.
  intros Hpage Hsize Hfit.
  destruct (ListByJobName_page_bound kvs jobName page pageSize Hpage Hsize Hfit)
    as (records & Hl & Heq & Hlen).
  exists records. split; [exact Hl |]. split; [exact Heq |]. split; [exact Hlen |].
  intros Hpast. rewrite Heq, drop_ge by lia. now rewrite take_nil.
Qed.

Lemma ListByJobName_page_witness :
  ListByJobName (inl listing) "report" 1 2 = inl [recordOf "e-3"] /\
  ListByJobName (inl listing) "report" 2 2 = inl [recordOf "e-1"] /\
  ListByJobName (inl listing) "report" 3 2 = inl [].
Proof.
  destruct (ListByJobName_page listing "report" 1 2) as (r1 & H1 & -> & _); [lia | lia | lia |].
  destruct (ListByJobName_page listing "report" 2 2) as (r2 & H2 & -> & _); [lia | lia | lia |].
  destruct (ListByJobName_page listing "report" 3 2) as (r3 & H3 & -> & _); [lia | lia | lia |].
  split; [exact H1 | split; [exact H2 | exact H3]].
Defined.

Lemma int_le (x : Z) : - 2 ^ 63 <= x -> - 2 ^ 63 <= int x <= x.
Proof.
  intros Hx. unfold int.
  pose proof (Z.mod_pos_bound (x + 2 ^ 63) (2 ^ 64) ltac:(lia)) as Hmod.
  pose proof (Z.mod_le (x + 2 ^ 63) (2 ^ 64) ltac:(lia) ltac:(lia)) as Hle.
  lia.
Qed.

Lemma int_lower (x : Z) : - 2 ^ 63 <= int x.
Proof.
  unfold int. pose proof (Z.mod_pos_bound (x + 2 ^ 63) (2 ^ 64) ltac:(lia)) as Hmod. lia.
Qed.

Lemma pageLoop_length (kvs : list (option ExecutionRecord.t)) :
  forall i startIdx endIdx,
    (length (pageLoop kvs i startIdx endIdx) <= Z.to_nat (endIdx - Z.max i startIdx))%nat.
Proof.
  induction kvs as [|kv kvs IH]; intros i a b; cbn; [lia |].
  destruct (Z.ltb_spec i a).
  - specialize (IH (i + 1) a b). lia.
  - destruct (Z.leb_spec b i); [cbn; lia |].
    specialize (IH (i + 1) a b). destruct kv; cbn; lia.
Qed.

(** A page is never longer than the page size, whatever the page
    number: also when the index arithmetic wraps around. *)
Lemma ListByJobName_length (kvs : list (option ExecutionRecord.t)) (jobName : string)
    (page pageSize : Z) :
  0 <= pageSize ->
  exists records,
    ListByJobName (inl kvs) jobName page pageSize = inl records /\
    (length records <= Z.to_nat pageSize)%nat.
Proof.
  intros Hsize. eexists. split; [reflexivity |].
  pose proof (int_lower ((page - 1) * pageSize)) as Hstart.
  pose proof (int_le (int ((page - 1) * pageSize) + pageSize) ltac:(lia)) as Hend.
  etransitivity; [apply pageLoop_length |]. lia.
Qed.

(** X20: the paging parameters the handler passes on are a page from
    1 on and a page size from 1 to 100; a size over 100 is replaced by
    20, not by 100.  So a page of the history the API returns holds
    at most as many records as that page size, and so at most 100,
    whatever the query says: also for a page number so large that the
    index arithmetic of [ListByJobName] wraps around. *)
Theorem handler_page_bounded (kvs : list (option ExecutionRecord.t)) (jobName : string)
    (page pageSize : Z) :
  let '(page', pageSize') := api.pagingParams page pageSize in
  1 <= page' /\ 1 <= pageSize' <= 100 /\
  (1 <= page -> page' = page) /\ (page < 1 -> page' = 1) /\
  (1 <= pageSize <= 100 -> pageSize' = pageSize) /\
  (pageSize <= 0 \/ 100 < pageSize -> pageSize' = 20) /\
  exists records,
    ListByJobName (inl kvs) jobName page' pageSize' = inl records /\
    (length records <= Z.to_nat pageSize')%nat /\
    (length records <= 100)%nat.
Proof.
  unfold api.pagingParams.
  set (page' := if page <? 1 then 1 else page).
  set (pageSize' := if (pageSize <=? 0) || (100 <? pageSize) then 20 else pageSize).
  assert (Hp : 1 <= page' /\ (1 <= page -> page' = page) /\ (page < 1 -> page' = 1)).
  { unfold page'. destruct (Z.ltb_spec page 1); lia. }
  assert (Hs : 1 <= pageSize' <= 100 /\ (1 <= pageSize <= 100 -> pageSize' = pageSize) /\
               (pageSize <= 0 \/ 100 < pageSize -> pageSize' = 20)).
  { unfold pageSize'. destruct (Z.leb_spec pageSize 0); destruct (Z.ltb_spec 100 pageSize);
      cbn; lia. }
  destruct Hp as (Hp1 & Hp2 & Hp3). destruct Hs as (Hs1 & Hs2 & Hs3).
  repeat (split; [assumption || lia |]).
  destruct (ListByJobName_length kvs jobName page' pageSize') as (records & Hl & Hlen); [lia |].
  exists records. split; [exact Hl |]. split; [exact Hlen | lia].
Qed.

(** X21: reading back what the supervisor wrote.  If the final [Put]
    of [runJob] succeeds, [Get] for the job name and the execution id
    returns the final record.  If only the first [Put] succeeds, [Get]
    returns the initial record, still running.  If both fail and the
    history had no such entry, [Get] reports that the record is not
    found. *)
Theorem runJob_then_Get (s : Server) (tStart tEnd : Z) (executionID : string) (job : Job.t) :
  let f := runJob s tStart tEnd executionID job in
  let first := putAnswer (etcd.puts (execRepo s)) in
  let final := putAnswer (tl (etcd.puts (execRepo s))) in
  (final = None ->
     Get (store f) None (Job.Name job) executionID = inl (record f)) /\
  (first = None -> final <> None ->
     Get (store f) None (Job.Name job) executionID
       = inl (initialRecord s tStart executionID job)) /\
  (first <> None -> final <> None ->
     Get (execRepo s) None (Job.Name job) executionID
       = inr (New ("execution record " +:+ Job.Name job +:+ "/" +:+ executionID +:+ " not found")) ->
     Get (store f) None (Job.Name job) executionID
       = inr (New ("execution record " +:+ Job.Name job +:+ "/" +:+ executionID +:+ " not found"))).
Proof.
  cbn zeta.
  destruct (worker_more_facts.runJob_kv s tStart tEnd executionID job) as (Hfinal & Hfirst & Hnone).
  cbn zeta in Hfinal, Hfirst, Hnone. unfold Get.
  change (etcd.ExecutionHistoryDir +:+ Job.Name job +:+ "/" +:+ executionID)
    with (etcd.historyKey (initialRecord s tStart executionID job)).
  split; [| split].
  - intros H. rewrite (Hfinal H), lookup_insert_eq. reflexivity.
  - intros H1 H2. destruct (Hfirst H1 H2) as (Hkv & _). rewrite Hkv, lookup_insert_eq.
    reflexivity.
  - intros H1 H2. rewrite (Hnone H1 H2). auto.
Qed.

Lemma runJob_then_Get_witness :
  Get (store (runJob forgetfulServer 1700000000 1700000002 "exec-9" (shellJob "report" "Allow")))
      None "report" "exec-9"
  = inl (initialRecord forgetfulServer 1700000000 "exec-9" (shellJob "report" "Allow")).
Proof.
  destruct (runJob_then_Get forgetfulServer 1700000000 1700000002 "exec-9"
              (shellJob "report" "Allow")) as (_ & Hlost & _).
  apply Hlost; [reflexivity | discriminate].
Defined.

End history_facts.

(** ** The job service over repository and scheduler *)

Module job_service_facts.
Import domain scheduler_terms storage_terms.

Lemma Validate_keeps (j : Job.t) :
  Job.Name (fst (Job.Validate j)) = Job.Name j /\
  Job.CronExpr (fst (Job.Validate j)) = Job.CronExpr j /\
  Job.ID (fst (Job.Validate j)) = Job.ID j /\
  Job.CreatedAt (fst (Job.Validate j)) = Job.CreatedAt j.
Proof.
  unfold Job.Validate, Job.Validate_policy.
  destruct (String.eqb (Job.Name j) ""); [auto |].
  destruct (String.eqb (Job.CronExpr j) ""); [auto |].
  destruct (String.eqb (Job.ExecutorType j) ExecutorTypeHTTP).
  - destruct (String.eqb (JobExecutor.URL (Job.Executor j)) ""); [auto |].
    destruct (String.eqb (JobExecutor.Method (Job.Executor j)) ""); cbn;
      destruct (String.eqb (Job.ConcurrencyPolicy j) ""); auto.
  - destruct (String.eqb (Job.ExecutorType j) ExecutorTypeShell); [| auto].
    destruct (String.eqb (JobExecutor.Command (Job.Executor j)) ""); [auto |].
    destruct (String.eqb (Job.ConcurrencyPolicy j) ""); auto.
Qed.


Lemma repo_Save_ok (job : Job.t) (st : job_repository.Store) :
  fst (job_repository.answer st) = None ->
  job_repository.Save job st =
    ({| job_repository.jobs := <[job_repository.jobKey (Job.Name job) := job]> (job_repository.jobs st);
        job_repository.answers := snd (job_repository.answer st) |}, None).
Proof.
  unfold job_repository.Save. destruct (job_repository.answer st) as [[e|] rest]; cbn;
    [discriminate | reflexivity].
Qed.

Lemma Save_stores (Schedule : Type) (parse : string -> Schedule + error)
    (s : job_service.JobService Schedule) (now : Z) (uuid : string) (job : Job.t) :
  snd (Job.Validate job) = None ->
  fst (job_repository.answer (job_service.repo s)) = None ->
  let saved := job_service.Save parse now uuid job s in
  let job2 := job_service.stamp now uuid (fst (Job.Validate job)) in
  snd (fst saved) = job2 /\
  job_repository.jobs (job_service.repo (fst (fst saved)))
    = <[job_repository.jobKey (Job.Name job2) := job2]> (job_repository.jobs (job_service.repo s)) /\
  job_repository.answers (job_service.repo (fst (fst saved)))
    = snd (job_repository.answer (job_service.repo s)).
Proof.
  intros Hvalid Hput. cbn zeta. unfold job_service.Save.
  destruct (Job.Validate job) as [job1 verr]. cbn [fst snd] in *. subst verr.
  rewrite (repo_Save_ok _ _ Hput).
  destruct (scheduler.AddJob parse _ (job_service.sched s)) as [c [serr|]]; cbn; auto.
Qed.

Lemma stamp_valid (now : Z) (uuid : string) (j : Job.t) :
  Job.Validate j = (j, None) ->
  Job.Validate (job_service.stamp now uuid j) = (job_service.stamp now uuid j, None).
Proof.
  destruct j as [id name expr ty [url method command] pol rp ca ua].
  unfold job_service.stamp, Job.Validate, Job.Validate_policy,
    Job.with_Executor, Job.with_ConcurrencyPolicy, JobExecutor.with_Method. cbn.
  destruct (String.eqb name ""); [discriminate |].
  destruct (String.eqb expr ""); [discriminate |].
  destruct (String.eqb ty ExecutorTypeHTTP).
  - destruct (String.eqb url ""); [discriminate |].
    destruct (String.eqb method ""); destruct (String.eqb pol "");
      intros H; inversion H; subst; reflexivity.
  - destruct (String.eqb ty ExecutorTypeShell); [| discriminate].
    destruct (String.eqb command ""); [discriminate |].
    destruct (String.eqb pol ""); intros H; inversion H; subst; reflexivity.
Qed.

Lemma RemoveJob_silent (Schedule : Type) (name : string) (c : scheduler.cronScheduler Schedule) :
  snd (scheduler.RemoveJob name c) = None.
Proof. unfold scheduler.RemoveJob. destruct (scheduler.jobs c !! name); reflexivity. Qed.

(** X23: a valid job that the repository takes can be read back.
    [Get] for its name returns the job as [Save] stamped it, also when
    the scheduler rejected it: validated, with the update time of the
    call, and with a fresh id and creation time if it came without an
    id, else with the ones it had.  After a [Delete] that the
    repository takes, [Get] answers [ErrJobNotFound]. *)
Theorem Save_then_Get (Schedule : Type) (parse : string -> Schedule + error)
    (s : job_service.JobService Schedule) (now : Z) (uuid : string) (job : Job.t) :
  snd (Job.Validate job) = None ->
  fst (job_repository.answer (job_service.repo s)) = None ->
  let saved := job_service.Save parse now uuid job s in
  let s1 := fst (fst saved) in
  let job' := snd (fst saved) in
  (fst (job_repository.answer (job_service.repo s1)) = None ->
     snd (job_service.Get (Job.Name job) s1) = inl job') /\
  Job.Validate job' = (job', None) /\
  Job.UpdatedAt job' = now /\
  (Job.ID job = "" -> Job.ID job' = uuid /\ Job.CreatedAt job' = now) /\
  (Job.ID job <> "" -> Job.ID job' = Job.ID job /\ Job.CreatedAt job' = Job.CreatedAt job) /\
  (let s2 := fst (job_service.Delete (Job.Name job) s1) in
   fst (job_repository.answer (job_service.repo s1)) = None ->
   fst (job_repository.answer (job_service.repo s2)) = None ->
   snd (job_service.Delete (Job.Name job) s1) = None /\
   snd (job_service.Get (Job.Name job) s2) = inr job_repository.ErrJobNotFound).
Proof.
  intros Hvalid Hput. cbn zeta.
  destruct (Validate_keeps job) as (Hname & _ & Hid & Hcreated).
  pose proof (validation_facts.Validate_fixed job Hvalid) as Hfixed.
  destruct (Save_stores Schedule parse s now uuid job Hvalid Hput) as (Hjob & Hjobs & Hanswers).
  set (s1 := fst (fst (job_service.Save parse now uuid job s))) in *.
  rewrite Hjob. set (job2 := job_service.stamp now uuid (fst (Job.Validate job))) in *.
  assert (Hname2 : Job.Name job2 = Job.Name job) by exact Hname.
  split; [| split; [| split; [| split; [| split]]]].
  - unfold job_service.Get, job_repository.Get.
    destruct (job_repository.answer (job_service.repo s1)) as [[a|] rest]; cbn;
      [discriminate |].
    intros _. now rewrite Hjobs, <- Hname2, lookup_insert_eq.
  - apply stamp_valid. exact Hfixed.
  - reflexivity.
  - intros Hfresh. unfold job2, job_service.stamp. cbn. rewrite Hid, Hfresh. auto.
  - intros Hold. unfold job2, job_service.stamp. cbn. rewrite Hid.
    destruct (String.eqb_spec (Job.ID job) ""); [contradiction |]. auto.
  - unfold job_service.Delete.
    pose proof (RemoveJob_silent Schedule (Job.Name job) (job_service.sched s1)) as Hrm.
    destruct (scheduler.RemoveJob (Job.Name job) (job_service.sched s1)) as [c rerr].
    cbn in Hrm. subst rerr. unfold job_repository.Delete.
    destruct (job_repository.answer (job_service.repo s1)) as [[a|] rest]; cbn;
      [discriminate |].
    intros _ H2. unfold job_service.Get, job_repository.Get. cbn in H2 |- *.
    unfold job_repository.answer in H2 |- *. cbn in H2 |- *.
    destruct rest as [|[a'|] rest']; cbn in *; try discriminate;
      (split; [reflexivity |]); now rewrite lookup_delete_eq.
Qed.

Lemma Save_then_Get_witness :
  let s := serviceOn cron.sixFields [] {| job_repository.jobs := ∅; job_repository.answers := [] |} in
  let saved := job_service.Save cron.sixFields 1700000500 "5e1f" (shellJob "report" "") s in
  snd (job_service.Get "report" (fst (fst saved))) = inl (snd (fst saved)) /\
  Job.ID (snd (fst saved)) = "7f3c" /\ Job.UpdatedAt (snd (fst saved)) = 1700000500.
Proof.
  cbn zeta.
  destruct (Save_then_Get (list string) cron.sixFields
              (serviceOn cron.sixFields []
                 {| job_repository.jobs := ∅; job_repository.answers := [] |})
              1700000500 "5e1f" (shellJob "report" ""))
    as (Hget & _ & Hupd & _ & Hold & _); [reflexivity | reflexivity |].
  split; [apply Hget; reflexivity |].
  split; [apply Hold; discriminate | exact Hupd].
Defined.


End job_service_facts.

(** ** The locker under the supervisor *)

Module lock_contention_facts.
Import domain worker worker_terms.

(** X25: the etcd locker under the supervisor of a [Forbid] job.
    [TryLock] gets 100ms, the two seconds of the supervisor cut down.
    When it fails, the executor is not called and the record is
    failed; its error says [lock not acquired] only if [TryLock] ran
    into that deadline.  For any other [TryLock] error, such as the
    one etcd gives at once when another session holds the mutex, the
    record carries the wrapped [TryLock] error instead. *)
Theorem runJob_lock_contention (s : Server) (client : etcd.Client) (tStart tEnd : Z)
    (executionID : string) (job : Job.t) (err : error) :
  locker s = etcd.Lock client ->
  Job.ConcurrencyPolicy job = ConcurrencyPolicyForbid ->
  etcd.NewSession client = None ->
  etcd.TryLock client (etcd.LockPrefix +:+ Job.Name job) (100 * Millisecond) = Some err ->
  let f := runJob s tStart tEnd executionID job in
  ExecutionRecord.Status (record f) = ExecutionStatusFailed /\
  count isExecute (trace f) = 0%nat /\
  count isUnlock (trace f) = 0%nat /\
  (err = DeadlineExceeded ->
     ExecutionRecord.Error (record f) = "skipped execution: lock not acquired") /\
  (err <> DeadlineExceeded ->
     ExecutionRecord.Error (record f) =
       "skipped execution: " +:+
       (("failed to try acquiring etcd lock " +:+ Job.Name job +:+ ": ") +:+ Error err)).
Proof.
  intros Hlocker Hforbid Hsession Htry. cbn zeta.
  assert (Hlock : locker s (2 * Second) (Job.Name job) =
            if decide (err = DeadlineExceeded) then inr ErrLockNotAcquired
            else inr (Wrap ("failed to try acquiring etcd lock " +:+ Job.Name job +:+ ": ") err)).
  { rewrite Hlocker. unfold etcd.Lock. rewrite Hsession.
    change (Z.min (2 * Second) (100 * Millisecond)) with (100 * Millisecond).
    rewrite Htry. reflexivity. }
  unfold runJob, runJobBody, lockGate.
  rewrite Hforbid, String.eqb_refl, Hlock.
  destruct (etcd.Save (execRepo s) _) as [st res].
  destruct (decide (err = DeadlineExceeded)) as [Heq|Hne]; cbn;
    unfold etcd.Save; destruct (etcd.puts st) as [|[?|] ?]; cbn;
    repeat split; try reflexivity; intros; congruence.
Qed.

Lemma runJob_lock_contention_witness :
  let s := {| executors := executors busyServer;
              locker := etcd.Lock {| etcd.NewSession := None;
                                     etcd.TryLock := fun _ _ =>
                                       Some (New "mutex: Locked by another session");
                                     etcd.MutexUnlock := fun _ => None |};
              execRepo := execRepo busyServer; workerID := "w-2" |} in
  ExecutionRecord.Error (record (runJob s 1700000000 1700000001 "exec-4"
                                   (shellJob "report" "Forbid")))
  = "skipped execution: failed to try acquiring etcd lock report: mutex: Locked by another session".
Proof.
  cbn zeta.
  eapply (runJob_lock_contention _
            {| etcd.NewSession := None;
               etcd.TryLock := fun _ _ => Some (New "mutex: Locked by another session");
               etcd.MutexUnlock := fun _ => None |}
            1700000000 1700000001 "exec-4" (shellJob "report" "Forbid")
            (New "mutex: Locked by another session"));
    [reflexivity | reflexivity | reflexivity | reflexivity | discriminate].
Defined.

End lock_contention_facts.

(** ** Leader election *)

Module leader_election_facts.
Import leader_election storage_terms.

Lemma Campaign_isLeader (a : Attempt) (m : Manager) :
  isLeader (fst (Campaign a m)) = isLeader m || won a.
Proof.
  unfold Campaign, won. destruct (NewSessionErr a); [cbn; now rewrite orb_false_r |].
  destruct (CampaignErr a); cbn; [now rewrite orb_false_r | now rewrite orb_true_r].
Qed.

(** X26: the leader flag only goes up in [Campaign].  After any series
    of campaigns the manager says it is leader exactly if it said so
    before or one of the campaigns was won: a lost session or a failed
    later campaign never takes the flag back.  Only [Resign] clears
    it, and it does so also when there is no election to resign from
    or when resigning fails; the error of [election.Resign] is
    returned only if an election exists. *)
Theorem isLeader_sticky (attempts : list Attempt) (m : Manager) (resignErr : option error) :
  IsLeader (campaigns attempts m) = isLeader m || existsb won attempts /\
  (forall a, won a = true -> snd (Campaign a m) = None /\ IsLeader (fst (Campaign a m)) = true) /\
  (forall a, won a = false ->
     snd (Campaign a m) <> None /\ IsLeader (fst (Campaign a m)) = IsLeader m) /\
  IsLeader (fst (Resign resignErr m)) = false /\
  snd (Resign resignErr m) = (if hasElection m then resignErr else None) /\
  IsLeader (campaigns attempts (fst (Resign resignErr m))) = existsb won attempts.
Proof.
  assert (Hfold : forall l m0, IsLeader (campaigns l m0) = isLeader m0 || existsb won l).
  { induction l as [|a l IH]; intros m0; cbn; [now rewrite orb_false_r |].
    unfold campaigns in *. cbn. rewrite IH, Campaign_isLeader. now rewrite orb_assoc. }
  split; [apply Hfold |]. split; [| split; [| split; [| split]]].
  - intros a Ha. unfold won in Ha. unfold Campaign, IsLeader.
    destruct (NewSessionErr a); [discriminate |]. destruct (CampaignErr a); [discriminate |].
    split; reflexivity.
  - intros a Ha. unfold won in Ha. unfold Campaign, IsLeader.
    destruct (NewSessionErr a); [split; [discriminate | reflexivity] |].
    destruct (CampaignErr a); [split; [discriminate | reflexivity] | discriminate].
  - unfold Resign. destruct (hasElection m); reflexivity.
  - unfold Resign. destruct (hasElection m); reflexivity.
  - rewrite Hfold. unfold Resign. destruct (hasElection m); reflexivity.
Qed.

End leader_election_facts.
